(** * Airbnb analytics dashboard: the data-cleaning, filtering and metric core

    A shallow embedding of [utils/data_processor.py] (the loader/cleaner, the
    filter engine and the scalar metrics) and of [load_data] from the
    dashboard, with the properties the specification states about them.

    Conventions of the embedding:
    - a Python [str] is the list of its Unicode code points;
    - a Python [float] is an IEEE-754 binary64 value, [spec_float] with
      [prec = 53] and [emax = 1024]; the missing sentinel [np.nan] is
      [S754_nan];
    - a raised exception is the [Raise] branch of the result type [res];
    - a DataFrame is the list of its rows, a row is a record of its columns;
    - pandas reductions whose floating-point summation order is internal to
      the library ([Series.mean], [Series.sum]), the CSV reader and the text
      parser behind [pd.to_numeric] are variables of the sections that use
      them;
    - the dtype of a raw column is read off its entries: a column of
      booleans only is a boolean column, a column of integers only an int64
      column, and what pandas does by dtype ([Series.map] on the room-type
      codes, the comparison of the review counts) is decided by it;
    - where pandas releases differ ([idxmax] of a series of NaN) the release
      is a parameter, [release], of the definitions concerned. *)

From Stdlib Require Import ZArith NArith List String Ascii Floats Bool Lia.
From stdpp Require Import gmap list sorting.

Local Open Scope Z_scope.

(** ** Python run-time values *)

Module Py.

(** Exceptions the modelled code can meet. *)
Inductive exn : Type :=
| ValueError
| TypeError
| OverflowError
| AttributeError
| FileNotFoundError
| OtherError (message : list N).

Inductive res (A : Type) : Type :=
| Ok (a : A)
| Raise (e : exn).
Arguments Ok {A} a.
Arguments Raise {A} e.

Definition bind {A B : Type} (m : res A) (k : A -> res B) : res B :=
  match m with
  | Ok a => k a
  | Raise e => Raise e
  end.

Notation "'let?' x ':=' m 'in' k" := (bind m (fun x => k))
  (at level 10, x name, m at level 100, k at level 200).

Fixpoint mapM {A B : Type} (f : A -> res B) (l : list A) : res (list B) :=
  match l with
  | [] => Ok []
  | x :: r => let? y := f x in let? ys := mapM f r in Ok (y :: ys)
  end.

(** *** Strings *)

Definition char := N.
Definition pystr := list char.

(** An ASCII literal as a Python string. *)
Definition py (s : string) : pystr := List.map N_of_ascii (list_ascii_of_string s).

Definition ch_space : char := 32%N.
Definition ch_dollar : char := 36%N.
Definition ch_plus : char := 43%N.
Definition ch_comma : char := 44%N.
Definition ch_minus : char := 45%N.
Definition ch_period : char := 46%N.
Definition ch_underscore : char := 95%N.
Definition ch_pound : char := 163%N.   (* U+00A3 *)
Definition ch_euro : char := 8364%N.   (* U+20AC *)

Definition pystr_eqb (a b : pystr) : bool := bool_decide (a = b).

(** [str.isspace] on one character (Unicode 14, as in CPython 3.11). *)
Definition isspace (c : char) : bool :=
  (((9 <=? c) && (c <=? 13)) || ((28 <=? c) && (c <=? 32)) || (c =? 133)
   || (c =? 160) || (c =? 5760) || ((8192 <=? c) && (c <=? 8202))
   || (c =? 8232) || (c =? 8233) || (c =? 8239) || (c =? 8287)
   || (c =? 12288))%N.

Fixpoint lstrip (s : pystr) : pystr :=
  match s with
  | c :: r => if isspace c then lstrip r else s
  | [] => []
  end.

(** [s.strip()] *)
Definition strip (s : pystr) : pystr := rev (lstrip (rev (lstrip s))).

(** [s.replace(old, new)] for a one-character [old]. *)
Definition replace (old : char) (new : pystr) (s : pystr) : pystr :=
  flat_map (fun c => if (c =? old)%N then new else [c]) s.

(** [c in s] for a one-character [c]. *)
Definition contains (c : char) (s : pystr) : bool := existsb (N.eqb c) s.

(** [s.split(sep)] for a one-character [sep]; the result is never empty. *)
Fixpoint split (sep : char) (s : pystr) : list pystr :=
  match s with
  | [] => [[]]
  | c :: r =>
      if (c =? sep)%N then [] :: split sep r
      else match split sep r with
           | p :: ps => (c :: p) :: ps
           | [] => [[c]]
           end
  end.

(** [parts[-1]] of a list of strings. *)
Definition last_part (parts : list pystr) : pystr := List.last parts [].

(** Lexicographic order on code points: Python's [<] on [str]. *)
Fixpoint str_ltb (a b : pystr) : bool :=
  match a, b with
  | [], [] => false
  | [], _ :: _ => true
  | _ :: _, [] => false
  | x :: a', y :: b' => if (x <? y)%N then true else if (y <? x)%N then false else str_ltb a' b'
  end.

(** *** Floats *)

Definition pyfloat := spec_float.

Definition nan : pyfloat := S754_nan.
Definition SFadd := SpecFloat.SFadd prec emax.
Definition SFmul := SpecFloat.SFmul prec emax.
Definition SFdiv := SpecFloat.SFdiv prec emax.

(** The binary64 value nearest to an integer (ties to even; infinite past the
    largest finite value). *)
Definition Z2SF (z : Z) : pyfloat := binary_normalize prec emax z 0 false.

Definition SFzero : pyfloat := S754_zero false.
Definition SFone : pyfloat := Z2SF 1.

(** [x >= y], [x > y] on floats: false as soon as one side is NaN. *)
Definition SFgeb (x y : pyfloat) : bool := SFleb y x.
Definition SFgtb (x y : pyfloat) : bool := SFltb y x.

Definition is_nan (x : pyfloat) : bool :=
  match x with S754_nan => true | _ => false end.

(** The binary64 value nearest to [m * 10 ^ e], [m] a natural number: the
    value of a decimal numeral, correctly rounded as Python's [float] does. *)
Definition float_of_decimal (neg : bool) (m : Z) (e : Z) : pyfloat :=
  match m with
  | Zpos p =>
      if 0 <=? e
      then binary_normalize prec emax ((if neg then Z.neg p else Z.pos p) * 10 ^ e) 0 false
      else SFdiv (S754_finite neg p 0) (S754_finite false (Z.to_pos (10 ^ (- e))) 0)
  | _ => S754_zero neg
  end.

(** [float(n)] for a Python [int]: [OverflowError] past the float range. *)
Definition float_of_int (z : Z) : res pyfloat :=
  match Z2SF z with
  | S754_infinity _ => Raise OverflowError
  | f => Ok f
  end.

(** [int(x)] for a float: truncation towards zero. *)
Definition int_of_float (x : pyfloat) : res Z :=
  match x with
  | S754_zero _ => Ok 0
  | S754_nan => Raise ValueError
  | S754_infinity _ => Raise OverflowError
  | S754_finite s m e =>
      let a := if 0 <=? e then Z.pos m * 2 ^ e else Z.pos m / 2 ^ (- e) in
      Ok (if s then - a else a)
  end.

(** **** [float(str)]

    CPython maps non-ASCII white space to a blank and non-ASCII decimal digits
    to ASCII digits, removes underscores that sit between two digits, strips
    ASCII white space and reads an optionally signed [inf], [infinity], [nan]
    or decimal numeral with an optional exponent.  Anything else is a
    [ValueError]. *)

(** Runs of ten decimal digits (general category Nd, Unicode 14): first code
    point and length of every run of consecutive digit characters. *)
Definition decimal_runs : list (N * N) :=
  [(48, 10); (1632, 10); (1776, 10); (1984, 10); (2406, 10); (2534, 10);
   (2662, 10); (2790, 10); (2918, 10); (3046, 10); (3174, 10); (3302, 10);
   (3430, 10); (3558, 10); (3664, 10); (3792, 10); (3872, 10); (4160, 10);
   (4240, 10); (6112, 10); (6160, 10); (6470, 10); (6608, 10); (6784, 10);
   (6800, 10); (6992, 10); (7088, 10); (7232, 10); (7248, 10); (42528, 10);
   (43216, 10); (43264, 10); (43472, 10); (43504, 10); (43600, 10);
   (44016, 10); (65296, 10); (66720, 10); (68912, 10); (69734, 10);
   (69872, 10); (69942, 10); (70096, 10); (70384, 10); (70736, 10);
   (70864, 10); (71248, 10); (71360, 10); (71472, 10); (71904, 10);
   (72016, 10); (72784, 10); (73040, 10); (73120, 10); (92768, 10);
   (92864, 10); (93008, 10); (120782, 50); (123200, 10); (123632, 10);
   (125264, 10); (130032, 10)]%N.

(** [Py_UNICODE_TODECIMAL] *)
Definition todecimal (c : char) : option N :=
  match List.find (fun r => (fst r <=? c) && (c <? fst r + snd r))%N decimal_runs with
  | Some r => Some ((c - fst r) mod 10)%N
  | None => None
  end.

Fixpoint to_ascii_decimal_and_space (s : pystr) : option pystr :=
  match s with
  | [] => Some []
  | c :: r =>
      let out :=
        if (c <? 127)%N then Some c
        else if isspace c then Some ch_space
        else option_map (fun d => (48 + d)%N) (todecimal c) in
      match out with
      | Some c' => option_map (cons c') (to_ascii_decimal_and_space r)
      | None => None
      end
  end.

Definition is_digit (c : char) : bool := ((48 <=? c) && (c <=? 57))%N.

(** Underscores are allowed only between two digits; they are dropped. *)
Fixpoint drop_underscores (prev : char) (s : pystr) : option pystr :=
  match s with
  | [] => if (prev =? ch_underscore)%N then None else Some []
  | c :: r =>
      if (c =? ch_underscore)%N
      then (if is_digit prev then drop_underscores c r else None)
      else if (prev =? ch_underscore)%N && negb (is_digit c) then None
      else option_map (cons c) (drop_underscores c r)
  end.

(** [Py_ISSPACE]: the ASCII white space [float] strips. *)
Definition is_ascii_space (c : char) : bool :=
  (((9 <=? c) && (c <=? 13)) || (c =? 32))%N.

Fixpoint lstrip_ascii (s : pystr) : pystr :=
  match s with
  | c :: r => if is_ascii_space c then lstrip_ascii r else s
  | [] => []
  end.

Definition strip_ascii (s : pystr) : pystr :=
  rev (lstrip_ascii (rev (lstrip_ascii s))).

Definition to_lower (c : char) : char :=
  if ((65 <=? c) && (c <=? 90))%N then (c + 32)%N else c.

Fixpoint span_digits (s : pystr) : list N * pystr :=
  match s with
  | c :: r =>
      if is_digit c
      then let '(ds, rest) := span_digits r in ((c - 48)%N :: ds, rest)
      else ([], s)
  | [] => ([], [])
  end.

Definition digits_value (ds : list N) : Z :=
  fold_left (fun acc d => 10 * acc + Z.of_N d) ds 0.

Definition read_sign (s : pystr) : bool * pystr :=
  match s with
  | c :: r =>
      if (c =? ch_minus)%N then (true, r)
      else if (c =? ch_plus)%N then (false, r)
      else (false, s)
  | [] => (false, [])
  end.

(** The exponent part: empty, or [e]/[E], an optional sign and digits. *)
Definition read_exponent (s : pystr) : option Z :=
  match s with
  | [] => Some 0
  | c :: r =>
      if (to_lower c =? 101)%N
      then let '(neg, r1) := read_sign r in
           match span_digits r1 with
           | (d :: ds, []) =>
               let v := digits_value (d :: ds) in
               Some (if neg then - v else v)
           | _ => None
           end
      else None
  end.

(** A decimal numeral: digits, an optional point and more digits (one digit at
    least in all), an optional exponent. *)
Definition read_decimal (neg : bool) (s : pystr) : option pyfloat :=
  let '(int_part, r1) := span_digits s in
  let '(frac_part, r2) :=
    match r1 with
    | c :: r => if (c =? ch_period)%N then span_digits r else ([], r1)
    | [] => ([], [])
    end in
  match int_part ++ frac_part with
  | [] => None
  | ds =>
      match read_exponent r2 with
      | Some e => Some (float_of_decimal neg (digits_value ds) (e - Z.of_nat (length frac_part)))
      | None => None
      end
  end.

Definition read_number (s : pystr) : option pyfloat :=
  let '(neg, r) := read_sign s in
  let low := List.map to_lower r in
  if pystr_eqb low (py "inf") || pystr_eqb low (py "infinity") then Some (S754_infinity neg)
  else if pystr_eqb low (py "nan") then Some S754_nan
  else read_decimal neg r.

(** [float(s)] for a [str]. *)
Definition float_of_str (s : pystr) : res pyfloat :=
  match to_ascii_decimal_and_space s with
  | None => Raise ValueError
  | Some a =>
      match drop_underscores 0%N a with
      | None => Raise ValueError
      | Some b =>
          match read_number (strip_ascii b) with
          | Some f => Ok f
          | None => Raise ValueError
          end
      end
  end.

End Py.

(** *** Cell values

    What a column of a loaded frame, or a caller, can hand to the cleaning
    functions: [None], a [bool], an [int], a [float] (the missing value of
    pandas is the float NaN) or a [str]. *)

Module Cell.
Import Py.

Inductive cell : Type :=
| CNone
| CBool (b : bool)
| CInt (z : Z)
| CFloat (f : pyfloat)
| CStr (s : pystr).

(** [pd.isna(value)] on a scalar. *)
Definition isna (v : cell) : bool :=
  match v with
  | CNone => true
  | CFloat f => is_nan f
  | _ => false
  end.

(** [value == ''] *)
Definition eq_empty_str (v : cell) : bool :=
  match v with
  | CStr [] => true
  | _ => false
  end.

(** [value == 0]: numeric equality, so [False], [0], [0.0] and [-0.0]. *)
Definition eq_zero (v : cell) : bool :=
  match v with
  | CBool b => negb b
  | CInt z => z =? 0
  | CFloat f => SFeqb f SFzero
  | _ => false
  end.

(** [isinstance(value, (int, float))]; [bool] is a subclass of [int]. *)
Definition is_int_or_float (v : cell) : bool :=
  match v with
  | CBool _ | CInt _ | CFloat _ => true
  | _ => false
  end.

(** [float(value)] *)
Definition py_float (v : cell) : res pyfloat :=
  match v with
  | CNone => Raise TypeError
  | CBool b => Ok (if b then SFone else SFzero)
  | CInt z => float_of_int z
  | CFloat f => Ok f
  | CStr s => float_of_str s
  end.

(** [bool(value)] *)
Definition truthy (v : cell) : bool :=
  match v with
  | CNone => false
  | CBool b => b
  | CInt z => negb (z =? 0)
  | CFloat f => negb (SFeqb f SFzero)
  | CStr s => match s with [] => false | _ => true end
  end.

(** The integer a value is equal to under Python's [==], if any
    ([True == 1], [2.0 == 2]). *)
Definition int_value (v : cell) : option Z :=
  match v with
  | CBool b => Some (if b then 1 else 0)
  | CInt z => Some z
  | CFloat f =>
      match int_of_float f with
      | Ok z => if SFeqb (Z2SF z) f then Some z else None
      | Raise _ => None
      end
  | _ => None
  end.

(** The float a numeric value stands for in a float64 column; missing for
    [None] and for text. *)
Definition number_value (v : cell) : pyfloat :=
  match v with
  | CBool b => if b then SFone else SFzero
  | CInt z => Z2SF z
  | CFloat f => f
  | _ => nan
  end.

(** The values a column read from a CSV file holds: the integers of an
    [int64] or [uint64] column, floats, booleans, text. *)
Definition loaded (v : cell) : Prop :=
  match v with
  | CInt z => - 2 ^ 63 <= z < 2 ^ 64
  | _ => True
  end.

(** Python's [==] between two cell values ([NaN] equals nothing). *)
Definition py_eqb (a b : cell) : bool :=
  match a, b with
  | CNone, CNone => true
  | CStr s, CStr t => pystr_eqb s t
  | CStr _, _ | _, CStr _ | CNone, _ | _, CNone => false
  | _, _ =>
      match int_value a, int_value b with
      | Some x, Some y => x =? y
      | _, _ => SFeqb (number_value a) (number_value b)
      end
  end.

End Cell.

(** A Python number, [int] or [float]: the value of a metric, a bound of the
    filter. *)
Inductive num : Type :=
| NInt (z : Z)
| NFloat (f : Py.pyfloat).

Definition num_float (n : num) : Py.pyfloat :=
  match n with
  | NInt z => Py.Z2SF z
  | NFloat f => f
  end.

(** [n > 0] *)
Definition num_positive (n : num) : bool :=
  match n with
  | NInt z => 0 <? z
  | NFloat f => Py.SFgtb f Py.SFzero
  end.

(** ** pandas helpers on columns

    A column is the list of its values.  A text column holds [Some s] for a
    string and [None] for a missing entry (NaN). *)

Module Series.
Import Py Cell.

Definition text := option pystr.

(** [col.fillna(other)] with the replacement taken entry by entry. *)
Definition fillna {A : Type} (x : option A) (other : option A) : option A :=
  match x with
  | Some _ => x
  | None => other
  end.

(** [col.fillna(d)] on a float column. *)
Definition fillna_float (x : pyfloat) (d : pyfloat) : pyfloat :=
  if is_nan x then d else x.

(** The dtype of a column as [pd.read_csv] infers it, where a step of the
    cleaning depends on it: a column whose entries are all booleans is a
    boolean column (with a missing entry it holds objects), a column whose
    entries are all integers is an int64 column (with a missing entry or a
    decimal it is float64). *)
Definition is_bool (v : cell) : bool :=
  match v with
  | CBool _ => true
  | _ => false
  end.

Definition is_int (v : cell) : bool :=
  match v with
  | CInt _ => true
  | _ => false
  end.

Definition bool_dtype (col : list cell) : bool := forallb is_bool col.

Definition int_dtype (col : list cell) : bool := forallb is_int col.

(** [col >= k] on one entry of a numeric column, [k] a Python [int]: an
    int64 column compares the integers, a float64 column compares with the
    float of [k]. *)
Definition geb_int (v : num) (k : Z) : bool :=
  match v with
  | NInt n => k <=? n
  | NFloat f => SFgeb f (Z2SF k)
  end.

(** [col.isin(values)] for one entry: a missing entry is in no list of
    strings. *)
Definition isin (x : text) (values : list pystr) : bool :=
  match x with
  | Some s => existsb (pystr_eqb s) values
  | None => false
  end.

(** [col.unique()]: the distinct entries in order of first appearance, the
    missing entry counted as one value. *)
Fixpoint unique_aux {A : Type} (eqb : A -> A -> bool) (seen : list A) (l : list A) : list A :=
  match l with
  | [] => []
  | x :: r =>
      if existsb (eqb x) seen then unique_aux eqb seen r
      else x :: unique_aux eqb (x :: seen) r
  end.

Definition text_eqb (a b : text) : bool := bool_decide (a = b).

Definition unique (l : list text) : list text := unique_aux text_eqb [] l.

Definition unique_str (l : list pystr) : list pystr := unique_aux pystr_eqb [] l.

Definition present {A : Type} (l : list (option A)) : list A :=
  omap (fun x => x) l.

(** [col.nunique()]: the number of distinct entries, missing ones left out. *)
Definition nunique (l : list text) : Z :=
  Z.of_nat (length (unique_str (present l))).

(** The same on a column of arbitrary cells (identifiers). *)
Definition nunique_cells (l : list cell) : Z :=
  Z.of_nat (length (unique_aux py_eqb [] (List.filter (fun v => negb (isna v)) l))).

(** Insertion of a string into a list sorted by [<]. *)
Fixpoint insert_sorted (x : pystr) (l : list pystr) : list pystr :=
  match l with
  | [] => [x]
  | y :: r => if str_ltb x y then x :: l else y :: insert_sorted x r
  end.

Definition sort_strs (l : list pystr) : list pystr :=
  fold_right insert_sorted [] l.

(** [sorted(values)] on the entries of a text column: strings are ordered by
    code point; a string cannot be compared with the float NaN, so a list
    that mixes both raises [TypeError]; a list of NaN only is left as it
    is. *)
Definition sorted (l : list text) : res (list text) :=
  if forallb (fun x => bool_decide (is_Some x)) l then Ok (List.map Some (sort_strs (present l)))
  else if forallb (fun x => bool_decide (x = None)) l then Ok l
  else Raise TypeError.

(** [col.min()] and [col.max()] on a float column: NaN entries are skipped,
    the result is NaN when nothing is left. *)
Definition min_step (acc x : pyfloat) : pyfloat :=
  if is_nan x then acc else if is_nan acc then x else if SFltb x acc then x else acc.

Definition max_step (acc x : pyfloat) : pyfloat :=
  if is_nan x then acc else if is_nan acc then x else if SFltb acc x then x else acc.

Definition min_float (l : list pyfloat) : pyfloat := fold_left min_step l nan.
Definition max_float (l : list pyfloat) : pyfloat := fold_left max_step l nan.

Definition min_int (l : list (option Z)) : option Z :=
  fold_left (fun acc x => match acc, x with
                          | Some a, Some b => Some (Z.min a b)
                          | None, _ => x
                          | _, None => acc
                          end) l None.

Definition max_int (l : list (option Z)) : option Z :=
  fold_left (fun acc x => match acc, x with
                          | Some a, Some b => Some (Z.max a b)
                          | None, _ => x
                          | _, None => acc
                          end) l None.

(** [col.sum()] on a boolean column. *)
Definition count_true (l : list bool) : Z :=
  Z.of_nat (length (List.filter (fun b => b) l)).

(** The releases of pandas differ on [idxmax] of a series whose values are
    all NaN: pandas 1 and 2 return the missing label, pandas 3 raises
    [ValueError].  The code runs on whichever is installed. *)
Inductive release : Type :=
| pandas_2
| pandas_3.
Existing Class release.

(** [s.idxmax()] on a series given as (label, value) pairs: the label of the
    first largest value, NaN values standing lowest; [ValueError] on an empty
    series; on a series whose values are all NaN the missing label or
    [ValueError], by the release. *)
Definition neg_inf : pyfloat := S754_infinity true.

Fixpoint argmax_from {A : Type} (best : A) (bv : pyfloat) (l : list (A * pyfloat)) : A :=
  match l with
  | [] => best
  | (k, v) :: r =>
      let v' := fillna_float v neg_inf in
      if SFltb bv v' then argmax_from k v' r else argmax_from best bv r
  end.

Definition idxmax {A : Type} {pandas : release} (s : list (A * pyfloat)) : res (option A) :=
  match s with
  | [] => Raise ValueError
  | (k, v) :: r =>
      if forallb (fun kv => is_nan (snd kv)) s
      then match pandas with
           | pandas_2 => Ok None
           | pandas_3 => Raise ValueError
           end
      else Ok (Some (argmax_from k (fillna_float v neg_inf) r))
  end.

(** [df.groupby(key)]: the groups of the rows whose key is present, in the
    order of the sorted keys. *)
Definition groupby {R : Type} (key : R -> text) (df : list R) : list (pystr * list R) :=
  List.map (fun k => (k, List.filter (fun r => text_eqb (key r) (Some k)) df))
           (sort_strs (unique_str (present (List.map key df)))).

End Series.

(** ** utils/data_processor.py *)

Module DataProcessor.
Import Py Cell Series.

(** *** Fixed lookup tables *)

(** Room type mapping (integer to descriptive string). *)
Definition ROOM_TYPE_MAP : gmap Z pystr :=
  list_to_map
    [(1, py "Private Room"); (2, py "Entire Home/Apt");
     (3, py "Shared Room"); (4, py "Hotel Room")].

Definition coordinates (lat lon : pyfloat) : gmap pystr pyfloat :=
  list_to_map [(py "lat", lat); (py "lon", lon)].

(** City coordinates; the float literals are the decimals of the source. *)
Definition CITY_COORDINATES : gmap pystr (gmap pystr pyfloat) :=
  list_to_map
    [(py "Toronto", coordinates (float_of_decimal false 436532 (-4)) (float_of_decimal true 793832 (-4)));
     (py "NewYork", coordinates (float_of_decimal false 407128 (-4)) (float_of_decimal true 740060 (-4)));
     (py "Amsterdam", coordinates (float_of_decimal false 523676 (-4)) (float_of_decimal false 49041 (-4)));
     (py "Berlin", coordinates (float_of_decimal false 525200 (-4)) (float_of_decimal false 134050 (-4)));
     (py "Dublin", coordinates (float_of_decimal false 533498 (-4)) (float_of_decimal true 62603 (-4)));
     (py "Hongkong", coordinates (float_of_decimal false 223193 (-4)) (float_of_decimal false 1141694 (-4)));
     (py "Munich", coordinates (float_of_decimal false 481351 (-4)) (float_of_decimal false 115820 (-4)));
     (py "Singapore", coordinates (float_of_decimal false 13521 (-4)) (float_of_decimal false 1038198 (-4)));
     (py "Sydney", coordinates (float_of_decimal true 338688 (-4)) (float_of_decimal false 1512093 (-4)));
     (py "Tokyo", coordinates (float_of_decimal false 356762 (-4)) (float_of_decimal false 1396503 (-4)))].

(** Correct city-to-area mapping (fixes incorrect data in source). *)
Definition CORRECT_CITY_AREA : gmap pystr pystr :=
  list_to_map
    [(py "Toronto", py "North America"); (py "NewYork", py "North America");
     (py "Amsterdam", py "Europe"); (py "Berlin", py "Europe");
     (py "Dublin", py "Europe"); (py "Munich", py "Europe");
     (py "Hongkong", py "Asia"); (py "Singapore", py "Asia");
     (py "Sydney", py "Oceania"); (py "Tokyo", py "Asia")].

(** *** Field cleaners *)

(** [try: body except (classes): handler] *)
Definition try_except {A : Type} (body : res A) (caught : exn -> bool) (handler : res A) : res A :=
  match body with
  | Ok a => Ok a
  | Raise e => if caught e then handler else Raise e
  end.

Definition ValueError_or_AttributeError (e : exn) : bool :=
  match e with
  | ValueError | AttributeError => true
  | _ => false
  end.

Definition ValueError_or_TypeError (e : exn) : bool :=
  match e with
  | ValueError | TypeError => true
  | _ => false
  end.

(** Convert European-style decimal notation (comma as decimal separator) to
    float. *)
Definition convert_european_decimal (value : cell) : res pyfloat :=
  if isna value || eq_empty_str value || eq_zero value then Ok nan
  else if is_int_or_float value then py_float value
  else
    match value with
    | CStr s =>
        try_except
          (let cleaned := replace ch_comma [ch_period] (strip s) in
           float_of_str cleaned)
          ValueError_or_AttributeError (Ok nan)
    | _ => Ok nan (* not reached: [None] is missing, the rest are numbers *)
    end.

(** The text of a price once the currency symbols, the blanks and the commas
    are dealt with: the [cleaned] variable of [clean_price] before [float]. *)
Definition clean_price_text (s : pystr) : pystr :=
  let cleaned := strip s in
  let cleaned := replace ch_pound [] (replace ch_euro [] (replace ch_dollar [] cleaned)) in
  let cleaned := replace ch_space [] cleaned in
  if contains ch_comma cleaned && negb (contains ch_period cleaned)
  then
    let parts := split ch_comma cleaned in
    if (length (last_part parts) =? 2)%nat
    then replace ch_comma [ch_period] cleaned
    else replace ch_comma [] cleaned
  else cleaned.

(** Clean price values: removes currency symbols and converts to float. *)
Definition clean_price (value : cell) : res pyfloat :=
  if isna value || eq_empty_str value then Ok nan
  else if is_int_or_float value then py_float value
  else
    match value with
    | CStr s =>
        try_except (float_of_str (clean_price_text s))
                   ValueError_or_AttributeError (Ok nan)
    | _ => Ok nan (* not reached *)
    end.

(** Clean host_since values: a day count, or missing ([None] here). *)
Definition clean_host_since (value : cell) : res (option Z) :=
  if isna value || eq_empty_str value then Ok None
  else
    try_except
      (let? f := py_float value in let? n := int_of_float f in Ok (Some n))
      ValueError_or_TypeError (Ok None).

(** *** Rows *)

(** A row of the frame as [pd.read_csv] returns it, one field per column of
    the input file (the column names are stripped of surrounding white space
    before use).  The categorical columns city and area are text columns; the
    other columns hold whatever the reader inferred. *)
Record raw_row : Type := {
  raw_id : cell;
  raw_host_id : cell;
  raw_city : text;
  raw_area : text;
  raw_room_type : cell;
  raw_price : cell;
  raw_bathrooms : cell;
  raw_consumer : cell;
  raw_host_response_rate : cell;
  raw_host_acceptance_rate : cell;
  raw_accommodates : cell;
  raw_bedrooms : cell;
  raw_beds : cell;
  raw_total_reviewers_number : cell;
  raw_sales : cell;
  raw_host_since : cell;
  raw_host_Certification : cell;
  raw_guest_favourite : cell
}.

(** A row of the cleaned frame: the source columns that are left as they are,
    the columns rewritten in place and the derived columns.  The numeric
    columns that the code goes on to average, sum and fill hold the float of
    each entry; the review count, which [filter_data] compares with an
    integer, holds integers where its column is int64. *)
Record row : Type := {
  id : cell;
  host_id : cell;
  city : text;
  room_type : cell;
  price : cell;
  bathrooms : cell;
  consumer : cell;
  host_response_rate : cell;
  host_acceptance_rate : cell;
  host_since : cell;
  host_Certification : cell;
  guest_favourite_source : cell;       (* column 'guest favourite' *)
  area : text;
  accommodates : pyfloat;
  bedrooms : pyfloat;
  beds : pyfloat;
  total_reviewers_number : num;
  sales : pyfloat;
  price_clean : pyfloat;
  bathrooms_clean : pyfloat;
  consumer_clean : pyfloat;
  host_response_rate_clean : pyfloat;
  host_acceptance_rate_clean : pyfloat;
  room_type_decoded : text;
  revenue_estimate : pyfloat;
  host_since_clean : option Z;
  city_lat : pyfloat;
  city_lon : pyfloat;
  host_certified : bool;
  guest_favourite : bool               (* column 'guest_favourite' *)
}.

Definition frame := list row.

(** [df['room_type'].map(ROOM_TYPE_MAP)] on one entry of the column [col].
    The keys of the map make an integer index in which the entries are looked
    up: the entries of a boolean column meet no key; in any other column an
    entry meets the key it is equal to ([2.0 == 2], and [True == 1] for a
    boolean among other objects). *)
Definition map_room_type (col : list cell) (v : cell) : text :=
  if bool_dtype col then None
  else
    match int_value v with
    | Some k => ROOM_TYPE_MAP !! k
    | None => None
    end.

(** [CITY_COORDINATES.get(x, {}).get(axis, np.nan)] *)
Definition city_coordinate (axis : pystr) (x : text) : pyfloat :=
  let entry : gmap pystr pyfloat :=
    match x with
    | Some c => default ∅ (CITY_COORDINATES !! c)
    | None => ∅
    end in
  default nan (entry !! axis).

(** [df['city'].map(CORRECT_CITY_AREA)] on one entry. *)
Definition map_city_area (x : text) : text :=
  match x with
  | Some c => CORRECT_CITY_AREA !! c
  | None => None
  end.

(** [col.fillna(0).astype(bool)] on one entry. *)
Definition flag (v : cell) : bool :=
  if isna v then false else truthy v.

(** [df['price_clean'] * df['sales']] on one row.  The sales column is still
    as read: a number multiplies; on text the product raises [TypeError],
    except where the price is missing, which pandas leaves missing. *)
Definition times_sales (p : pyfloat) (s : cell) : res pyfloat :=
  match s with
  | CStr _ => if is_nan p then Ok nan else Raise TypeError
  | _ => Ok (SFmul p (number_value s))
  end.

Section Cleaning.

(** How [pd.to_numeric(errors='coerce')] reads a text entry: the number it
    denotes, NaN when it denotes none. *)
Variable parse_numeric : pystr -> pyfloat.

(** [pd.to_numeric(col, errors='coerce')] on one entry, as a float. *)
Definition to_numeric (v : cell) : pyfloat :=
  match v with
  | CStr s => parse_numeric s
  | _ => number_value v
  end.

(** [pd.to_numeric(col, errors='coerce')] on one entry of the review-count
    column [col]: an int64 column is left as it is, any other column comes
    out as float64. *)
Definition to_numeric_count (col : list cell) (v : cell) : num :=
  match v with
  | CInt z => if int_dtype col then NInt z else NFloat (to_numeric v)
  | _ => NFloat (to_numeric v)
  end.

(** Steps 1 to 13 of the cleaning up to the numeric coercion, on one row [x]
    of the frame [df], in the order of the source; the steps on whole
    columns that depend on the dtype of the column look at [df]. *)
Definition derive_row (df : list raw_row) (x : raw_row) : res row :=
  let? price_clean := clean_price (raw_price x) in
  let? bathrooms_clean := convert_european_decimal (raw_bathrooms x) in
  let? consumer_clean := convert_european_decimal (raw_consumer x) in
  let? host_response_rate_clean := convert_european_decimal (raw_host_response_rate x) in
  let? host_acceptance_rate_clean := convert_european_decimal (raw_host_acceptance_rate x) in
  let room_type_decoded := map_room_type (List.map raw_room_type df) (raw_room_type x) in
  let room_type_decoded := fillna room_type_decoded (Some (py "Unknown")) in
  let? revenue_estimate := times_sales price_clean (raw_sales x) in
  let? host_since_clean := clean_host_since (raw_host_since x) in
  let city_lat := city_coordinate (py "lat") (raw_city x) in
  let city_lon := city_coordinate (py "lon") (raw_city x) in
  let host_certified := flag (raw_host_Certification x) in
  let guest_favourite := flag (raw_guest_favourite x) in
  let area := fillna (map_city_area (raw_city x)) (raw_area x) in
  Ok {| id := raw_id x;
        host_id := raw_host_id x;
        city := raw_city x;
        room_type := raw_room_type x;
        price := raw_price x;
        bathrooms := raw_bathrooms x;
        consumer := raw_consumer x;
        host_response_rate := raw_host_response_rate x;
        host_acceptance_rate := raw_host_acceptance_rate x;
        host_since := raw_host_since x;
        host_Certification := raw_host_Certification x;
        guest_favourite_source := raw_guest_favourite x;
        area := area;
        accommodates := to_numeric (raw_accommodates x);
        bedrooms := to_numeric (raw_bedrooms x);
        beds := to_numeric (raw_beds x);
        total_reviewers_number :=
          to_numeric_count (List.map raw_total_reviewers_number df)
                           (raw_total_reviewers_number x);
        sales := to_numeric (raw_sales x);
        price_clean := price_clean;
        bathrooms_clean := bathrooms_clean;
        consumer_clean := consumer_clean;
        host_response_rate_clean := host_response_rate_clean;
        host_acceptance_rate_clean := host_acceptance_rate_clean;
        room_type_decoded := room_type_decoded;
        revenue_estimate := revenue_estimate;
        host_since_clean := host_since_clean;
        city_lat := city_lat;
        city_lon := city_lon;
        host_certified := host_certified;
        guest_favourite := guest_favourite |}.

(** The last step: fill missing values for key metrics. *)
Definition fill_missing (r : row) : row :=
  {| id := id r;
     host_id := host_id r;
     city := city r;
     room_type := room_type r;
     price := price r;
     bathrooms := bathrooms r;
     consumer := consumer r;
     host_response_rate := host_response_rate r;
     host_acceptance_rate := host_acceptance_rate r;
     host_since := host_since r;
     host_Certification := host_Certification r;
     guest_favourite_source := guest_favourite_source r;
     area := area r;
     accommodates := accommodates r;
     bedrooms := fillna_float (bedrooms r) SFzero;
     beds := fillna_float (beds r) SFone;
     total_reviewers_number := total_reviewers_number r;
     sales := sales r;
     price_clean := price_clean r;
     bathrooms_clean := fillna_float (bathrooms_clean r) SFone;
     consumer_clean := consumer_clean r;
     host_response_rate_clean := host_response_rate_clean r;
     host_acceptance_rate_clean := host_acceptance_rate_clean r;
     room_type_decoded := room_type_decoded r;
     revenue_estimate := revenue_estimate r;
     host_since_clean := host_since_clean r;
     city_lat := city_lat r;
     city_lon := city_lon r;
     host_certified := host_certified r;
     guest_favourite := guest_favourite r |}.

End Cleaning.

(** *** Loading *)

(** The statistics dict returned with the cleaned frame. *)
Module Stats.
Record t : Type := {
  total_listings : Z;
  original_count : Z;
  cities : Z;
  areas : Z;
  unique_cities : list text;
  unique_areas : list text;
  unique_room_types : list text;
  avg_price : pyfloat;
  avg_rating : pyfloat;
  total_hosts : Z;
  date_range : option Z * option Z;       (* 'min', 'max' *)
  price_range : pyfloat * pyfloat;
  rating_range : pyfloat * pyfloat
}.
End Stats.

Section Loading.

(** [pd.read_csv]: the rows of the file at a path, or the exception raised
    when it cannot be found or parsed (or lacks a column the cleaning
    reads). *)
Variable read_csv : pystr -> res (list raw_row).
Variable parse_numeric : pystr -> pyfloat.
(** [Series.mean()] of a float column. *)
Variable Series_mean : list pyfloat -> pyfloat.

Definition calculate_statistics (original_count : nat) (df : frame) : res Stats.t :=
  let? unique_cities := sorted (unique (List.map city df)) in
  let? unique_areas := sorted (unique (List.map area df)) in
  let? unique_room_types := sorted (unique (List.map room_type_decoded df)) in
  Ok {| Stats.total_listings := Z.of_nat (length df);
        Stats.original_count := Z.of_nat original_count;
        Stats.cities := nunique (List.map city df);
        Stats.areas := nunique (List.map area df);
        Stats.unique_cities := unique_cities;
        Stats.unique_areas := unique_areas;
        Stats.unique_room_types := unique_room_types;
        Stats.avg_price := Series_mean (List.map price_clean df);
        Stats.avg_rating := Series_mean (List.map consumer_clean df);
        Stats.total_hosts := nunique_cells (List.map host_id df);
        Stats.date_range := (min_int (List.map host_since_clean df),
                             max_int (List.map host_since_clean df));
        Stats.price_range := (min_float (List.map price_clean df),
                              max_float (List.map price_clean df));
        Stats.rating_range := (min_float (List.map consumer_clean df),
                               max_float (List.map consumer_clean df)) |}.

(** Load and clean the Airbnb dataset.  The cleaning steps run row by row
    here and column by column in pandas: both succeed on the same files and
    build the same frame; when more than one entry makes a step fail, the
    exception reported here is that of the first failing row. *)
Definition load_and_clean_data (filepath : pystr) : res (frame * Stats.t) :=
  let? df := read_csv filepath in
  let original_count := length df in
  let? df := mapM (derive_row parse_numeric df) df in
  let df := List.map fill_missing df in
  let? stats := calculate_statistics original_count df in
  Ok (df, stats).

End Loading.

(** *** Filtering

    Frames are objects: [filter_data] receives a reference to the cleaned
    frame and returns a reference to a frame.  The heap maps addresses to
    frames; [df.copy()] and indexing by a boolean mask both allocate. *)

Definition loc := nat.
Definition heap := list frame.

Definition M (A : Type) : Type := heap -> res (A * heap).

Definition ret {A : Type} (a : A) : M A := fun h => Ok (a, h).

Definition bindM {A B : Type} (m : M A) (k : A -> M B) : M B :=
  fun h => match m h with
           | Ok (a, h') => k a h'
           | Raise e => Raise e
           end.

Notation "'do' x <- m ; k" := (bindM m (fun x => k))
  (at level 10, x name, m at level 100, k at level 200).

Definition alloc (f : frame) : M loc := fun h => Ok (length h, h ++ [f]).

(** Reading an address the heap does not hold does not happen for a
    reference obtained from the heap. *)
Definition read (l : loc) : M frame :=
  fun h => match h !! l with
           | Some f => Ok (f, h)
           | None => Raise (OtherError (py "dangling reference"))
           end.

(** [df.copy()] *)
Definition copy (df : loc) : M loc := do f <- read df; alloc f.

(** [df[mask]] with the mask computed row by row. *)
Definition select (df : loc) (mask : row -> bool) : M loc :=
  do f <- read df; alloc (List.filter mask f).

(** A state reached from the heap [h0] by allocations only: the frames of
    [h0] are where they were, the current reference is new and holds [f]. *)
Definition reaches (h0 : heap) (f : frame) (st : loc * heap) : Prop :=
  (exists extra, snd st = h0 ++ extra)
  /\ (length h0 <= fst st)%nat
  /\ snd st !! fst st = Some f.

(** Truth value of an optional list argument: [cities and len(cities) > 0]. *)
Definition supplied_list (a : option (list pystr)) : bool :=
  match a with
  | Some (_ :: _) => true
  | _ => false
  end.

Definition list_of (a : option (list pystr)) : list pystr := default [] a.

(** Filter the dataset based on multiple criteria. *)
Definition filter_data (df : loc)
    (cities areas room_types : option (list pystr))
    (price_range : option (num * num))
    (min_reviews : Z) (min_rating : num)
    (guest_favourites_only certified_hosts_only : bool) : M loc :=
  do filtered <- copy df;
  do filtered <- (if supplied_list cities
               then select filtered (fun r => isin (city r) (list_of cities))
               else ret filtered);
  do filtered <- (if supplied_list areas
               then select filtered (fun r => isin (area r) (list_of areas))
               else ret filtered);
  do filtered <- (if supplied_list room_types
               then select filtered (fun r => isin (room_type_decoded r) (list_of room_types))
               else ret filtered);
  do filtered <- (match price_range with
               | Some (lo, hi) =>
                   select filtered (fun r => SFgeb (price_clean r) (num_float lo)
                                             && SFleb (price_clean r) (num_float hi))
               | None => ret filtered
               end);
  do filtered <- (if 0 <? min_reviews
               then select filtered (fun r => geb_int (total_reviewers_number r) min_reviews)
               else ret filtered);
  do filtered <- (if num_positive min_rating
               then select filtered (fun r => SFgeb (consumer_clean r) (num_float min_rating))
               else ret filtered);
  do filtered <- (if guest_favourites_only
               then select filtered (fun r => Bool.eqb (guest_favourite r) true)
               else ret filtered);
  do filtered <- (if certified_hosts_only
               then select filtered (fun r => Bool.eqb (host_certified r) true)
               else ret filtered);
  ret filtered.

(** *** Metrics *)

Module Guest.
Record t : Type := {
  total_properties : Z;
  avg_price : num;
  avg_rating : num;
  pct_favourites : num;
  most_popular_city : text;
  best_value_city : text
}.
End Guest.

Module Host.
Record t : Type := {
  total_revenue : num;
  avg_occupancy : num;
  total_hosts : Z;
  avg_listings_per_host : num;
  pct_certified : num;
  best_city : text
}.
End Host.

(** [count / len(df) * 100] *)
Definition percentage (count : Z) (total : nat) : pyfloat :=
  SFmul (SFdiv (Z2SF count) (Z2SF (Z.of_nat total))) (Z2SF 100).

(** [sizes.mean()] for group sizes: the integer total over the number of
    groups (the total is exact in a float below 2^53), NaN for no group. *)
Definition mean_sizes (sizes : list nat) : pyfloat :=
  match sizes with
  | [] => nan
  | _ => SFdiv (Z2SF (Z.of_nat (list_sum sizes))) (Z2SF (Z.of_nat (length sizes)))
  end.

(** [df.groupby('host_id').size()]: the sizes of the groups of rows with the
    same identifier, missing identifiers left out. *)
Definition host_group_sizes (df : frame) : list nat :=
  let ids := List.filter (fun v => negb (isna v)) (List.map host_id df) in
  List.map (fun k => length (List.filter (py_eqb k) ids)) (unique_aux py_eqb [] ids).

Section Metrics.

Context {pandas : release}.
Variable Series_mean : list pyfloat -> pyfloat.
(** [Series.sum()] of a float column. *)
Variable Series_sum : list pyfloat -> pyfloat.

(** The value of one city in the best-value ranking: the lambda applied to a
    group [x]. *)
Definition city_value (x : frame) : num :=
  if SFgtb (Series_mean (List.map price_clean x)) SFzero
  then NFloat (SFdiv (Series_mean (List.map consumer_clean x))
                     (Series_mean (List.map price_clean x)))
  else NInt 0.

(** The 'N/A' of the metric dicts. *)
Definition NA : text := Some (py "N/A").

(** Calculate guest-focused metrics from the dataset. *)
Definition calculate_guest_metrics (df : frame) : res Guest.t :=
  let nonempty := (0 <? length df)%nat in
  let? most_popular_city :=
    (if nonempty
     then idxmax (List.map (fun g => (fst g, Z2SF (Z.of_nat (length (snd g)))))
                           (groupby city df))
     else Ok NA) in
  let? best_value_city :=
    (if nonempty
     then idxmax (List.map (fun g => (fst g, num_float (city_value (snd g))))
                           (groupby city df))
     else Ok NA) in
  Ok {| Guest.total_properties := Z.of_nat (length df);
        Guest.avg_price :=
          if nonempty then NFloat (Series_mean (List.map price_clean df)) else NInt 0;
        Guest.avg_rating :=
          if nonempty then NFloat (Series_mean (List.map consumer_clean df)) else NInt 0;
        Guest.pct_favourites :=
          if nonempty
          then NFloat (percentage (count_true (List.map guest_favourite df)) (length df))
          else NInt 0;
        Guest.most_popular_city := most_popular_city;
        Guest.best_value_city := best_value_city |}.

(** Calculate host-focused metrics from the dataset. *)
Definition calculate_host_metrics (df : frame) : res Host.t :=
  let nonempty := (0 <? length df)%nat in
  let? best_city :=
    (if nonempty
     then idxmax (List.map (fun g => (fst g, Series_sum (List.map revenue_estimate (snd g))))
                           (groupby city df))
     else Ok NA) in
  Ok {| Host.total_revenue :=
          if nonempty then NFloat (Series_sum (List.map revenue_estimate df)) else NInt 0;
        Host.avg_occupancy :=
          if nonempty
          then NFloat (SFmul (SFdiv (Series_mean (List.map sales df)) (Z2SF 365)) (Z2SF 100))
          else NInt 0;
        Host.total_hosts :=
          if nonempty then nunique_cells (List.map host_id df) else 0;
        Host.avg_listings_per_host :=
          if nonempty then NFloat (mean_sizes (host_group_sizes df)) else NInt 0;
        Host.pct_certified :=
          if nonempty
          then NFloat (percentage (count_true (List.map host_certified df)) (length df))
          else NInt 0;
        Host.best_city := best_city |}.

End Metrics.

(** *** Grouped summary tables *)

(** A row of the table [get_city_stats] returns, under its renamed columns. *)
Module CityStats.
Record t : Type := {
  city : pystr;
  avg_price : pyfloat;
  avg_rating : pyfloat;
  total_reviews : pyfloat;
  avg_bedrooms : pyfloat;
  avg_bathrooms : pyfloat;
  pct_guest_favourite : pyfloat;
  total_revenue : pyfloat;
  avg_sales : pyfloat;
  listing_count : Z
}.
End CityStats.

(** A row of the table [get_area_stats] returns. *)
Module AreaStats.
Record t : Type := {
  area : pystr;
  avg_price : pyfloat;
  avg_rating : pyfloat;
  total_revenue : pyfloat;
  total_sales : pyfloat;
  listing_count : Z
}.
End AreaStats.

(** The aggregation ['count']: the number of entries that are not missing. *)
Definition count_present (l : list cell) : Z :=
  Z.of_nat (length (List.filter (fun v => negb (isna v)) l)).

(** The aggregation ['mean'] on a boolean column: the share of [True]
    entries (their count is exact in a float below 2^53). *)
Definition mean_bool (l : list bool) : pyfloat :=
  SFdiv (Z2SF (count_true l)) (Z2SF (Z.of_nat (length l))).

Section Tables.

(** The aggregations ['mean'] and ['sum'] of [GroupBy.agg] on a float column
    of one group, missing entries skipped. *)
Variable GroupBy_mean : list pyfloat -> pyfloat.
Variable GroupBy_sum : list pyfloat -> pyfloat.

(** Get aggregated statistics per city. *)
Definition get_city_stats (df : frame) : list CityStats.t :=
  List.map (fun g =>
      let x := snd g in
      {| CityStats.city := fst g;
         CityStats.avg_price := GroupBy_mean (List.map price_clean x);
         CityStats.avg_rating := GroupBy_mean (List.map consumer_clean x);
         CityStats.total_reviews :=
           GroupBy_sum (List.map (fun r => num_float (total_reviewers_number r)) x);
         CityStats.avg_bedrooms := GroupBy_mean (List.map bedrooms x);
         CityStats.avg_bathrooms := GroupBy_mean (List.map bathrooms_clean x);
         CityStats.pct_guest_favourite := mean_bool (List.map guest_favourite x);
         CityStats.total_revenue := GroupBy_sum (List.map revenue_estimate x);
         CityStats.avg_sales := GroupBy_mean (List.map sales x);
         CityStats.listing_count := count_present (List.map id x) |})
    (groupby city df).

(** Get aggregated statistics per area. *)
Definition get_area_stats (df : frame) : list AreaStats.t :=
  List.map (fun g =>
      let x := snd g in
      {| AreaStats.area := fst g;
         AreaStats.avg_price := GroupBy_mean (List.map price_clean x);
         AreaStats.avg_rating := GroupBy_mean (List.map consumer_clean x);
         AreaStats.total_revenue := GroupBy_sum (List.map revenue_estimate x);
         AreaStats.total_sales := GroupBy_sum (List.map sales x);
         AreaStats.listing_count := count_present (List.map id x) |})
    (groupby area df).

End Tables.

End DataProcessor.

(** ** dashboard.py: loading *)

Module Dashboard.
Import Py Cell Series DataProcessor.

Section LoadData.

Variable read_csv : pystr -> res (list raw_row).
Variable parse_numeric : pystr -> pyfloat.
Variable Series_mean : list pyfloat -> pyfloat.
(** [str(e)] *)
Variable message : exn -> pystr.

Definition is_FileNotFoundError (e : exn) : bool :=
  match e with
  | FileNotFoundError => true
  | _ => false
  end.

(** The triple [load_data] returns: [df, stats, error], each possibly
    [None]. *)
Definition loaded_data : Type := option frame * option Stats.t * option pystr.

Definition load (path : pystr) : res (frame * Stats.t) :=
  load_and_clean_data read_csv parse_numeric Series_mean path.

(** Load and cache the Airbnb data. *)
Definition load_data : loaded_data :=
  match load (py "/app/data/Airbnb_site_hotel_new.csv") with
  | Ok (df, stats) => (Some df, Some stats, None)
  | Raise e =>
      if is_FileNotFoundError e
      then (* try alternative path for local development *)
        match load (py "data/Airbnb_site_hotel_new.csv") with
        | Ok (df, stats) => (Some df, Some stats, None)
        | Raise e => (None, None, Some (message e))
        end
      else (None, None, Some (message e))
  end.

(** What [main] shows once the data is loaded. *)
Inductive screen : Type :=
| ErrorLoadingData (error : pystr)
| NoDataAvailable
| Charts (df : frame) (data_stats : Stats.t).

(** The start of [main]: an error stops it before any chart is drawn. *)
Definition main : screen :=
  let '(df, data_stats, error) := load_data in
  match error with
  | Some (c :: msg) => ErrorLoadingData (c :: msg)
  | _ =>
      match df, data_stats with
      | Some (r :: rows), Some st => Charts (r :: rows) st
      | _, _ => NoDataAvailable
      end
  end.

End LoadData.

(** [x or fallback] for a float [x], then [int(...)]: the float when it is
    not zero (NaN is true), the integer fallback otherwise. *)
Definition int_or (x : pyfloat) (fallback : Z) : res Z :=
  if truthy (CFloat x) then int_of_float x else Ok fallback.

(** The bounds [main] gives to the price slider: ([min_value], [max_value],
    default [value]), from the 'price_range' of the statistics. *)
Definition price_slider (data_stats : Stats.t) : res (Z * Z * (Z * Z)) :=
  let? max_value := int_or (snd (Stats.price_range data_stats)) 1000 in
  let? upper := int_or (snd (Stats.price_range data_stats)) 500 in
  Ok (0, max_value, (0, Z.min 500 upper)).

End Dashboard.

(** ** Reference instances of the pandas parameters

    Executable stand-ins, used to run the pipeline on concrete inputs: a
    left-to-right sum and mean that skip NaN, and [float] as the text
    parser of [pd.to_numeric]. *)

Module Reference.
Import Py Cell Series DataProcessor.

Definition sum (l : list pyfloat) : pyfloat :=
  fold_left (fun acc x => if is_nan x then acc else SFadd acc x) l SFzero.

Definition mean (l : list pyfloat) : pyfloat :=
  match List.filter (fun x => negb (is_nan x)) l with
  | [] => nan
  | xs => SFdiv (sum xs) (Z2SF (Z.of_nat (length xs)))
  end.

Definition parse_numeric (s : pystr) : pyfloat :=
  match float_of_str s with
  | Ok f => f
  | Raise _ => nan
  end.

(** The release the reference runs are made for. *)
Definition installed : release := pandas_2.

Definition message (e : exn) : pystr :=
  match e with
  | ValueError => py "ValueError"
  | TypeError => py "TypeError"
  | OverflowError => py "OverflowError"
  | AttributeError => py "AttributeError"
  | FileNotFoundError => py "No such file or directory"
  | OtherError m => m
  end.

(** A raw row with every column missing. *)
Definition blank : raw_row :=
  {| raw_id := CFloat nan; raw_host_id := CFloat nan; raw_city := None;
     raw_area := None; raw_room_type := CFloat nan; raw_price := CFloat nan;
     raw_bathrooms := CFloat nan; raw_consumer := CFloat nan;
     raw_host_response_rate := CFloat nan;
     raw_host_acceptance_rate := CFloat nan; raw_accommodates := CFloat nan;
     raw_bedrooms := CFloat nan; raw_beds := CFloat nan;
     raw_total_reviewers_number := CFloat nan; raw_sales := CFloat nan;
     raw_host_since := CFloat nan; raw_host_Certification := CFloat nan;
     raw_guest_favourite := CFloat nan |}.

(** A raw row with the given identifier, city, area, room type, price,
    rating and sales; the other columns missing. *)
Definition listing (i : Z) (c a : text) (rt : cell) (p rating s : cell) : raw_row :=
  {| raw_id := CInt i; raw_host_id := CInt i; raw_city := c;
     raw_area := a; raw_room_type := rt; raw_price := p;
     raw_bathrooms := CFloat nan; raw_consumer := rating;
     raw_host_response_rate := CFloat nan;
     raw_host_acceptance_rate := CFloat nan; raw_accommodates := CFloat nan;
     raw_bedrooms := CFloat nan; raw_beds := CFloat nan;
     raw_total_reviewers_number := CFloat nan; raw_sales := s;
     raw_host_since := CFloat nan; raw_host_Certification := CFloat nan;
     raw_guest_favourite := CFloat nan |}.

(** The three-row scenario of the specification. *)
Definition scenario : list raw_row :=
  [listing 1 (Some (py "Tokyo")) (Some (py "Europe")) (CInt 2)
           (CStr (py "1,250")) (CStr (py "6,5")) (CFloat (Z2SF 3));
   listing 2 (Some (py "Unknown City")) (Some (py "Oceania")) (CInt 9)
           (CStr (py "$80")) (CFloat nan) (CFloat (Z2SF 10));
   listing 3 (Some (py "Sydney")) (Some (py "Europe")) (CInt 1)
           (CStr (py "60")) (CStr (py "5")) (CFloat nan)].

Definition read_scenario (path : pystr) : res (list raw_row) := Ok scenario.

Definition read_nothing (path : pystr) : res (list raw_row) := Raise FileNotFoundError.

(** A frame of one listing offered for free. *)
Definition free_listing : list raw_row :=
  [listing 4 (Some (py "Berlin")) None (CInt 1) (CStr (py "0")) (CStr (py "5")) (CInt 0)].

Definition free_frame : frame :=
  match mapM (derive_row parse_numeric free_listing) free_listing with
  | Ok rows => List.map fill_missing rows
  | Raise _ => []
  end.

Definition load_scenario : res (frame * Stats.t) :=
  load_and_clean_data read_scenario parse_numeric mean (py "data/Airbnb_site_hotel_new.csv").

Definition scenario_frame : frame :=
  match load_scenario with
  | Ok (df, _) => df
  | Raise _ => []
  end.

(** Two listings, the city of the second one missing. *)
Definition partly_missing : list raw_row :=
  [listing 1 (Some (py "Tokyo")) (Some (py "Asia")) (CInt 2)
           (CStr (py "100")) (CStr (py "5")) (CInt 1);
   listing 2 None (Some (py "Asia")) (CInt 1)
           (CStr (py "80")) (CStr (py "6")) (CInt 2)].

Definition read_partly_missing (path : pystr) : res (list raw_row) := Ok partly_missing.

(** A listing of Tokyo with the given identifier, room-type code and number
    of reviewers. *)
Definition reviewed (i : Z) (rt n : cell) : raw_row :=
  {| raw_id := CInt i; raw_host_id := CInt i; raw_city := Some (py "Tokyo");
     raw_area := None; raw_room_type := rt; raw_price := CInt 100;
     raw_bathrooms := CFloat nan; raw_consumer := CFloat nan;
     raw_host_response_rate := CFloat nan;
     raw_host_acceptance_rate := CFloat nan; raw_accommodates := CFloat nan;
     raw_bedrooms := CFloat nan; raw_beds := CFloat nan;
     raw_total_reviewers_number := n; raw_sales := CInt 1;
     raw_host_since := CFloat nan; raw_host_Certification := CFloat nan;
     raw_guest_favourite := CFloat nan |}.

(** The frame cleaned from the given rows. *)
Definition cleaned (raw : list raw_row) : frame :=
  match load_and_clean_data (fun _ => Ok raw) parse_numeric mean [] with
  | Ok (df, _) => df
  | Raise _ => []
  end.

(** The identifiers [filter_data] keeps of a frame for a minimum number of
    reviews, every other predicate omitted. *)
Definition kept_for (min_reviews : Z) (df : frame) : list cell :=
  match filter_data 0%nat None None None None min_reviews (NInt 0) false false [df] with
  | Ok (out, h) => List.map id (default [] (h !! out))
  | Raise _ => []
  end.

End Reference.

(** ** The rules as the specification words them

    Second definitions, written from the prose of the specification and not
    from the code, against which the embedded functions are compared. *)

Module Spec.
Import Py Cell Series DataProcessor.

(** "unparsable -> missing sentinel" *)
Definition or_missing (r : res pyfloat) : pyfloat :=
  match r with
  | Ok f => f
  | Raise _ => nan
  end.

(** The text with every occurrence of the listed characters taken out. *)
Definition without (cs : list char) (s : pystr) : pystr :=
  List.filter (fun c => negb (existsb (N.eqb c) cs)) s.

(** The text with every comma turned into a period. *)
Definition comma_as_point (s : pystr) : pystr :=
  List.map (fun c => if (c =? ch_comma)%N then ch_period else c) s.

Fixpoint up_to (sep : char) (s : pystr) : pystr :=
  match s with
  | [] => []
  | c :: r => if (c =? sep)%N then [] else c :: up_to sep r
  end.

(** What follows the last occurrence of [sep] (the whole text without one). *)
Definition after_last (sep : char) (s : pystr) : pystr :=
  rev (up_to sep (rev s)).

(** "exactly 2 digits after the last comma" *)
Definition two_digits (tail : pystr) : bool :=
  (length tail =? 2)%nat && forallb is_digit tail.

(** "exactly 2 characters after the last comma" *)
Definition two_characters (tail : pystr) : bool :=
  (length tail =? 2)%nat.

(** The price rule on text, for a given reading of "the trailing group marks
    a decimal comma". *)
Definition price_text (decimal_tail : pystr -> bool) (s : pystr) : pystr :=
  let t := without [ch_dollar; ch_euro; ch_pound; ch_space] (strip s) in
  if contains ch_comma t && negb (contains ch_period t)
  then if decimal_tail (after_last ch_comma t)
       then comma_as_point t
       else without [ch_comma] t
  else t.

(** A number too large for a float: an integer whose nearest binary64 value
    is infinite. *)
Definition overflows (value : cell) : bool :=
  match value with
  | CInt z => match Z2SF z with
              | S754_infinity _ => true
              | _ => false
              end
  | _ => false
  end.

(** The price rule: missing or empty gives the sentinel, a number passes
    through as a float, text is read after the separators are settled. *)
Definition price_rule (decimal_tail : pystr -> bool) (value : cell) : pyfloat :=
  if isna value || eq_empty_str value then nan
  else match value with
       | CStr s => or_missing (float_of_str (price_text decimal_tail s))
       | _ => number_value value
       end.

(** The locale-decimal rule: missing, empty or zero gives the sentinel, a
    number passes through, text is stripped, its commas become periods and
    it is read as a float. *)
Definition locale_decimal (value : cell) : pyfloat :=
  if isna value || eq_empty_str value || eq_zero value then nan
  else match value with
       | CStr s => or_missing (float_of_str (comma_as_point (strip s)))
       | _ => number_value value
       end.

(** A list predicate constrains only when it is supplied and not empty. *)
Definition among (choice : option (list pystr)) (x : text) : bool :=
  match choice with
  | None | Some [] => true
  | Some values => isin x values
  end.

(** The conjunction of the supplied predicates of the filter engine. *)
Definition satisfies
    (cities areas room_types : option (list pystr))
    (price_range : option (num * num))
    (min_reviews : Z) (min_rating : num)
    (guest_favourites_only certified_hosts_only : bool) (r : row) : bool :=
  among cities (city r)
  && among areas (area r)
  && among room_types (room_type_decoded r)
  && match price_range with
     | Some (lo, hi) => SFleb (num_float lo) (price_clean r) && SFleb (price_clean r) (num_float hi)
     | None => true
     end
  && ((min_reviews <=? 0) || geb_int (total_reviewers_number r) min_reviews)
  && (negb (num_positive min_rating) || SFleb (num_float min_rating) (consumer_clean r))
  && (negb guest_favourites_only || guest_favourite r)
  && (negb certified_hosts_only || host_certified r).

(** Two rows that agree on every column but the three the fallback fill
    writes: bedrooms, bathrooms_clean and beds. *)
Definition same_but_filled (r r' : row) : Prop :=
  id r' = id r /\ host_id r' = host_id r /\ city r' = city r
  /\ room_type r' = room_type r /\ price r' = price r
  /\ bathrooms r' = bathrooms r /\ consumer r' = consumer r
  /\ host_response_rate r' = host_response_rate r
  /\ host_acceptance_rate r' = host_acceptance_rate r
  /\ host_since r' = host_since r
  /\ host_Certification r' = host_Certification r
  /\ guest_favourite_source r' = guest_favourite_source r
  /\ area r' = area r /\ accommodates r' = accommodates r
  /\ total_reviewers_number r' = total_reviewers_number r
  /\ sales r' = sales r /\ price_clean r' = price_clean r
  /\ consumer_clean r' = consumer_clean r
  /\ host_response_rate_clean r' = host_response_rate_clean r
  /\ host_acceptance_rate_clean r' = host_acceptance_rate_clean r
  /\ room_type_decoded r' = room_type_decoded r
  /\ revenue_estimate r' = revenue_estimate r
  /\ host_since_clean r' = host_since_clean r
  /\ city_lat r' = city_lat r /\ city_lon r' = city_lon r
  /\ host_certified r' = host_certified r
  /\ guest_favourite r' = guest_favourite r.

(** A list of strings in increasing order, repetitions allowed, and in
    strictly increasing order. *)
Definition ascending : list pystr -> Prop :=
  StronglySorted (fun a b : pystr => str_ltb b a = false).

Definition strictly_ascending : list pystr -> Prop :=
  StronglySorted (fun a b : pystr => str_ltb a b = true).

(** The entry is present and one of the keys. *)
Definition in_keys (ks : list pystr) (x : text) : bool :=
  match x with
  | Some k => bool_decide (k ∈ ks)
  | None => false
  end.

(** The labels of the room-type map. *)
Definition room_labels : list pystr :=
  [py "Private Room"; py "Entire Home/Apt"; py "Shared Room"; py "Hotel Room"].

(** The room-type code [v] is the number [k]: the integer, or a float equal
    to it ([True] counts as 1 and [False] as 0). *)
Definition is_code (v : cell) (k : Z) : bool :=
  match v with
  | CBool b => (if b then 1 else 0) =? k
  | CInt z => z =? k
  | CFloat f => SFeqb f (Z2SF k)
  | _ => false
  end.

(** The label of a room-type code in the column [col]: the codes 1 to 4 have
    their labels, every other value (another number, text, a missing entry)
    has "Unknown", and so has every entry of a column of booleans. *)
Definition room_label (col : list cell) (v : cell) : pystr :=
  if forallb is_bool col then py "Unknown"
  else if is_code v 1 then py "Private Room"
  else if is_code v 2 then py "Entire Home/Apt"
  else if is_code v 3 then py "Shared Room"
  else if is_code v 4 then py "Hotel Room"
  else py "Unknown".

End Spec.

(** * Properties *)

Import Py Cell Series DataProcessor.

(** ** Floats: an integer of a 64-bit column converts without overflow *)

Section FloatFacts.

Lemma digits2_pos_size (p : positive) : digits2_pos p = Pos.size p.
Proof. induction p; simpl; congruence. Qed.

Lemma digits2_pos_gt (p : positive) : Z.pos p < 2 ^ Z.pos (digits2_pos p).
Proof.
  rewrite digits2_pos_size.
  pose proof (Pos.size_gt p) as H.
  change 2 with (Z.pos 2). rewrite <- Pos2Z.inj_pow. exact H.
Qed.

Lemma digits2_pos_le (p : positive) (k : Z) :
  Z.pos p < 2 ^ k -> Z.pos (digits2_pos p) <= k.
Proof.
  intros H. rewrite digits2_pos_size.
  destruct (Z.le_gt_cases (Z.pos (Pos.size p)) k) as [|Hk]; [done|].
  pose proof (Pos.size_le p) as Hle.
  assert (0 <= k).
  { destruct (Z.le_gt_cases 0 k); [done|]. rewrite Z.pow_neg_r in H by lia. lia. }
  assert (2 ^ Z.pos (Pos.size p) <= 2 * Z.pos p).
  { change 2 with (Z.pos 2) at 1. rewrite <- Pos2Z.inj_pow. exact Hle. }
  assert (2 ^ (k + 1) <= 2 ^ Z.pos (Pos.size p)) by (apply Z.pow_le_mono_r; lia).
  rewrite Z.pow_add_r in * by lia. lia.
Qed.

Lemma Zdigits2_le (a k : Z) : 0 <= k -> 0 <= a < 2 ^ k -> Zdigits2 a <= k.
Proof.
  intros Hk [Ha Hlt]. destruct a as [|p|p]; simpl; [lia| |lia].
  by apply digits2_pos_le.
Qed.

Lemma digits2_pos_iter_xO (m d : positive) :
  Z.pos (digits2_pos (Pos.iter xO m d)) = Z.pos (digits2_pos m) + Z.pos d.
Proof.
  induction d using Pos.peano_ind.
  - simpl. lia.
  - rewrite Pos.iter_succ. simpl. lia.
Qed.

Lemma shr_1_bounds (mrs : shr_record) :
  0 <= shr_m mrs -> 0 <= shr_m (shr_1 mrs) <= shr_m mrs.
Proof.
  destruct mrs as [m r s]. simpl. intros H.
  destruct m as [|[p|p|]|p]; simpl; lia.
Qed.

Lemma iter_shr_1_bounds (p : positive) (mrs : shr_record) :
  0 <= shr_m mrs -> 0 <= shr_m (SpecFloat.iter_pos shr_1 p mrs) <= shr_m mrs.
Proof.
  revert mrs. induction p as [p IH|p IH|]; intros mrs H; simpl.
  - pose proof (shr_1_bounds mrs H) as H1.
    pose proof (IH _ (proj1 H1)) as H2.
    pose proof (IH _ (proj1 H2)) as H3. lia.
  - pose proof (IH _ H) as H2.
    pose proof (IH _ (proj1 H2)) as H3. lia.
  - by apply shr_1_bounds.
Qed.

Lemma shr_bounds (mrs : shr_record) (e n : Z) :
  0 <= shr_m mrs ->
  0 <= shr_m (fst (shr mrs e n)) <= shr_m mrs /\ snd (shr mrs e n) = Z.max e (e + n).
Proof.
  intros H. destruct n as [|p|p]; simpl; [lia| |lia].
  split; [by apply iter_shr_1_bounds | lia].
Qed.

Lemma shr_m_of_loc (m : Z) (l : location) : shr_m (shr_record_of_loc m l) = m.
Proof. by destruct l as [|[]]. Qed.

Lemma shr_fexp_bounds (m e : Z) (l : location) :
  0 <= m ->
  0 <= shr_m (fst (shr_fexp prec emax m e l)) <= m
  /\ snd (shr_fexp prec emax m e l) = Z.max e (fexp prec emax (Zdigits2 m + e)).
Proof.
  intros H. unfold shr_fexp.
  destruct (shr_bounds (shr_record_of_loc m l) e (fexp prec emax (Zdigits2 m + e) - e)) as [H1 H2].
  { by rewrite shr_m_of_loc. }
  rewrite shr_m_of_loc in H1. split; [done|]. rewrite H2. lia.
Qed.

Lemma round_nearest_even_bounds (m : Z) (l : location) :
  0 <= m -> 0 <= round_nearest_even m l <= m + 1.
Proof. intros H. destruct l as [|[]]; simpl; try lia. destruct (Z.even m); lia. Qed.

(** Rounding a mantissa of at most 200 bits at a non-positive exponent stays
    finite. *)
Lemma binary_round_aux_finite (sx : bool) (m : positive) (e : Z) (l : location) :
  Z.pos (digits2_pos m) <= 200 -> e <= 0 ->
  forall s, binary_round_aux prec emax sx (Z.pos m) e l <> S754_infinity s.
Proof.
  intros Hd He s. unfold binary_round_aux.
  destruct (shr_fexp prec emax (Z.pos m) e l) as [mrs' e'] eqn:E1.
  pose proof (shr_fexp_bounds (Z.pos m) e l ltac:(lia)) as [B1 B2].
  rewrite E1 in B1, B2. simpl in B1, B2.
  set (m2 := round_nearest_even (shr_m mrs') (loc_of_shr_record mrs')).
  pose proof (round_nearest_even_bounds (shr_m mrs') (loc_of_shr_record mrs') (proj1 B1)) as B3.
  fold m2 in B3.
  destruct (shr_fexp prec emax m2 e' loc_Exact) as [mrs'' e''] eqn:E2.
  pose proof (shr_fexp_bounds m2 e' loc_Exact (proj1 B3)) as [B4 B5].
  rewrite E2 in B4, B5. simpl in B4, B5.
  assert (Zdigits2 m2 <= Z.pos (digits2_pos m) + 1) as B6.
  { apply Zdigits2_le; [lia|]. split; [lia|].
    pose proof (digits2_pos_gt m). rewrite Z.pow_add_r by lia. lia. }
  destruct (shr_m mrs''); try discriminate.
  destruct (e'' <=? emax - prec) eqn:E3; [discriminate|].
  apply Z.leb_gt in E3. exfalso.
  unfold fexp, SpecFloat.emin, emax, prec in *. simpl in *. lia.
Qed.

Lemma binary_round_finite (sx : bool) (m : positive) :
  Z.pos m < 2 ^ 64 ->
  forall s, binary_round prec emax sx m 0 <> S754_infinity s.
Proof.
  intros Hm s. unfold binary_round.
  pose proof (digits2_pos_le m 64 Hm) as Hd.
  destruct (shl_align m 0 (fexp prec emax (Z.pos (digits2_pos m) + 0))) as [mz ez] eqn:E.
  unfold shl_align in E.
  destruct (fexp prec emax (Z.pos (digits2_pos m) + 0) - 0) as [|d|d] eqn:Ed;
    injection E as <- <-.
  - apply binary_round_aux_finite; lia.
  - apply binary_round_aux_finite; lia.
  - apply binary_round_aux_finite.
    + rewrite digits2_pos_iter_xO.
      unfold fexp, SpecFloat.emin, emax, prec in Ed. lia.
    + unfold fexp, SpecFloat.emin, emax, prec in Ed |- *. lia.
Qed.

Lemma Z2SF_finite (z : Z) :
  - 2 ^ 64 < z < 2 ^ 64 -> forall s, Z2SF z <> S754_infinity s.
Proof.
  intros H s. unfold Z2SF, binary_normalize.
  destruct z as [|p|p]; [discriminate| |]; apply binary_round_finite; lia.
Qed.

(** [float(n)] succeeds on the integers of a loaded column. *)
Lemma float_of_int_loaded (z : Z) :
  - 2 ^ 63 <= z < 2 ^ 64 -> float_of_int z = Ok (Z2SF z).
Proof.
  intros H. unfold float_of_int.
  pose proof (Z2SF_finite z ltac:(lia)) as Hfin.
  destruct (Z2SF z) as [| s | |] eqn:E; try reflexivity.
  by destruct (Hfin s).
Qed.

(** The float of an integer is a number. *)
Lemma binary_round_aux_not_nan (sx : bool) (m : positive) (e : Z) (l : location) :
  binary_round_aux prec emax sx (Z.pos m) e l <> S754_nan.
Proof.
  unfold binary_round_aux.
  destruct (shr_fexp prec emax (Z.pos m) e l) as [mrs' e'] eqn:E1.
  pose proof (shr_fexp_bounds (Z.pos m) e l ltac:(lia)) as [B1 _].
  rewrite E1 in B1. simpl in B1.
  set (m2 := round_nearest_even (shr_m mrs') (loc_of_shr_record mrs')).
  pose proof (round_nearest_even_bounds (shr_m mrs') (loc_of_shr_record mrs') (proj1 B1)) as B3.
  fold m2 in B3.
  destruct (shr_fexp prec emax m2 e' loc_Exact) as [mrs'' e''] eqn:E2.
  pose proof (shr_fexp_bounds m2 e' loc_Exact (proj1 B3)) as [B4 _].
  rewrite E2 in B4. simpl in B4.
  destruct (shr_m mrs''); [discriminate| |lia].
  by destruct (e'' <=? emax - prec).
Qed.

Lemma binary_round_not_nan (sx : bool) (m : positive) :
  binary_round prec emax sx m 0 <> S754_nan.
Proof.
  unfold binary_round.
  destruct (shl_align m 0 (fexp prec emax (Z.pos (digits2_pos m) + 0))) as [mz ez].
  apply binary_round_aux_not_nan.
Qed.

Lemma Z2SF_not_nan (z : Z) : is_nan (Z2SF z) = false.
Proof.
  unfold Z2SF, binary_normalize.
  destruct z as [|p|p]; [reflexivity| |].
  - pose proof (binary_round_not_nan false p) as H.
    by destruct (binary_round prec emax false p 0).
  - pose proof (binary_round_not_nan true p) as H.
    by destruct (binary_round prec emax true p 0).
Qed.

(** No float is below or equal to NaN. *)
Lemma SFleb_nan_r (x : pyfloat) : SFleb x nan = false.
Proof. by destruct x. Qed.

End FloatFacts.

(** ** Strings: the library calls of the cleaners, characterised *)

Section StringFacts.

Lemma float_of_str_raises (s : pystr) (e : exn) :
  float_of_str s = Raise e -> e = ValueError.
Proof.
  unfold float_of_str.
  destruct (to_ascii_decimal_and_space s) as [a|]; [|congruence].
  destruct (drop_underscores 0%N a) as [b|]; [|congruence].
  destruct (read_number (strip_ascii b)); congruence.
Qed.

(** Parsing under [except (ValueError, AttributeError)] never raises. *)
Lemma try_float_of_str (s : pystr) :
  try_except (float_of_str s) ValueError_or_AttributeError (Ok nan)
  = Ok (Spec.or_missing (float_of_str s)).
Proof.
  destruct (float_of_str s) as [f|e] eqn:E; [reflexivity|].
  apply float_of_str_raises in E as ->. reflexivity.
Qed.

Lemma replace_by_nothing (c : char) (s : pystr) :
  replace c [] s = Spec.without [c] s.
Proof.
  unfold replace, Spec.without. induction s as [|x s IH]; [reflexivity|].
  simpl. rewrite IH, orb_false_r.
  by destruct (x =? c)%N.
Qed.

Lemma without_without (a b : list char) (s : pystr) :
  Spec.without b (Spec.without a s) = Spec.without (a ++ b) s.
Proof.
  unfold Spec.without, pystr, char in *. induction s as [|x s IH]; [reflexivity|].
  cbn [List.filter]. rewrite existsb_app.
  destruct (existsb (N.eqb x) a); cbn [negb orb List.filter]; [exact IH|].
  destruct (existsb (N.eqb x) b); cbn [negb]; by rewrite IH.
Qed.

Lemma replace_comma_by_period (s : pystr) :
  replace ch_comma [ch_period] s = Spec.comma_as_point s.
Proof.
  unfold replace, Spec.comma_as_point. induction s as [|x s IH]; [reflexivity|].
  simpl. rewrite IH. by destruct (x =? ch_comma)%N.
Qed.

Lemma split_nonempty (sep : char) (s : pystr) : split sep s <> [].
Proof.
  destruct s as [|c r]; simpl; [discriminate|].
  destruct (c =? sep)%N; [discriminate|].
  destruct (split sep r); discriminate.
Qed.

Lemma split_without_sep (sep : char) (t : pystr) :
  contains sep t = false -> split sep t = [t].
Proof.
  unfold contains. induction t as [|c r IH]; [reflexivity|].
  simpl. intros H. apply orb_false_elim in H as [Hc Hr].
  rewrite N.eqb_sym, Hc, (IH Hr). reflexivity.
Qed.

Lemma split_app (sep : char) (a b : pystr) :
  split sep (a ++ sep :: b) = split sep a ++ split sep b.
Proof.
  induction a as [|c a IH]; simpl.
  - by rewrite N.eqb_refl.
  - destruct (c =? sep)%N; [by rewrite IH|].
    rewrite IH. pose proof (split_nonempty sep a) as Hne.
    by destruct (split sep a).
Qed.

(** A text either has no separator or ends with a separator-free tail after
    its last separator. *)
Lemma last_separator (sep : char) (s : pystr) :
  contains sep s = false
  \/ exists pre tail, s = pre ++ sep :: tail /\ contains sep tail = false.
Proof.
  induction s as [|c r IH]; [by left|].
  destruct IH as [Hr | (pre & tail & -> & Ht)].
  - destruct (sep =? c)%N eqn:Ec.
    + right. exists [], r. apply N.eqb_eq in Ec as ->. by split.
    + left. unfold contains in *. simpl. by rewrite Ec, Hr.
  - right. by exists (c :: pre), tail.
Qed.

Lemma up_to_app (sep : char) (a b : pystr) :
  contains sep a = false -> Spec.up_to sep (a ++ sep :: b) = a.
Proof.
  unfold contains. induction a as [|c a IH]; simpl.
  - by rewrite N.eqb_refl.
  - intros H. apply orb_false_elim in H as [Hc Ha].
    rewrite N.eqb_sym, Hc, (IH Ha). reflexivity.
Qed.

Lemma up_to_without_sep (sep : char) (a : pystr) :
  contains sep a = false -> Spec.up_to sep a = a.
Proof.
  unfold contains. induction a as [|c a IH]; simpl; [done|].
  intros H. apply orb_false_elim in H as [Hc Ha].
  rewrite N.eqb_sym, Hc, (IH Ha). reflexivity.
Qed.

Lemma contains_rev (sep : char) (a : pystr) :
  contains sep (rev a) = contains sep a.
Proof.
  unfold contains, pystr, char in *. induction a as [|c a IH]; [reflexivity|].
  simpl. rewrite existsb_app, IH. simpl. rewrite orb_false_r. apply orb_comm.
Qed.

(** [parts[-1]] after [split] is what follows the last separator. *)
Lemma last_part_split (sep : char) (s : pystr) :
  last_part (split sep s) = Spec.after_last sep s.
Proof.
  unfold last_part, Spec.after_last.
  destruct (last_separator sep s) as [Hs | (pre & tail & -> & Ht)].
  - rewrite (split_without_sep _ _ Hs). simpl.
    rewrite up_to_without_sep by (by rewrite contains_rev).
    by rewrite rev_involutive.
  - rewrite split_app, (split_without_sep _ _ Ht).
    rewrite List.last_last.
    rewrite rev_app_distr. simpl. rewrite <- app_assoc. simpl.
    rewrite up_to_app by (by rewrite contains_rev).
    by rewrite rev_involutive.
Qed.

(** The text [clean_price] hands to [float] is the price rule of the
    specification, the trailing group read as two characters. *)
Lemma clean_price_text_spec (s : pystr) :
  clean_price_text s = Spec.price_text Spec.two_characters s.
Proof.
  unfold clean_price_text, Spec.price_text, Spec.two_characters.
  rewrite !replace_by_nothing, !without_without. simpl app.
  set (t := Spec.without _ (strip s)).
  rewrite last_part_split, replace_comma_by_period.
  reflexivity.
Qed.

End StringFacts.

(** ** The definitions at work *)

Section Examples.

(** [float] on text: signs, underscores between digits, exponents, white
    space, the special values, rounding to nearest even, overflow to
    infinity, non-ASCII digits. *)
Example float_of_str_examples :
  float_of_str (py " +1_000.5e-1 ") = Ok (float_of_decimal false 10005 (-2))
  /\ float_of_str (py "9007199254740993") = Ok (Z2SF 9007199254740992)
  /\ float_of_str (py "1e400") = Ok (S754_infinity false)
  /\ float_of_str (py "-Infinity") = Ok (S754_infinity true)
  /\ float_of_str (py "nan") = Ok nan
  /\ float_of_str [1633; 1634; 46; 1637]%N = Ok (float_of_decimal false 125 (-1))
  /\ float_of_str (py "1 250") = Raise ValueError
  /\ float_of_str (py "1._5") = Raise ValueError
  /\ float_of_str (py "0x10") = Raise ValueError
  /\ float_of_str (py "") = Raise ValueError.
Proof. by vm_compute. Qed.

(** The two readings of a comma in a price. *)
Example clean_price_text_examples :
  clean_price_text (py " $1,250 ") = py "1250"
  /\ clean_price_text (py "45,00") = py "45.00"
  /\ clean_price_text (py "1,234,56") = py "1.234.56"
  /\ clean_price_text (py "1,250.75") = py "1,250.75"
  /\ clean_price_text [8364; 32; 49; 32; 50; 53; 48]%N = py "1250".
Proof. by vm_compute. Qed.

(** Values the cleaners do not take as text. *)
Example cleaners_on_numbers :
  clean_price (CFloat nan) = Ok nan
  /\ clean_price (CInt 250) = Ok (Z2SF 250)
  /\ clean_price (CInt (2 ^ 1024)) = Raise OverflowError
  /\ convert_european_decimal (CFloat (S754_zero true)) = Ok nan
  /\ convert_european_decimal (CBool false) = Ok nan
  /\ convert_european_decimal (CStr (py "0")) = Ok SFzero
  /\ clean_host_since (CStr (py "365.9")) = Ok (Some 365)
  /\ clean_host_since (CStr (py "soon")) = Ok None
  /\ clean_host_since (CFloat (S754_infinity false)) = Raise OverflowError.
Proof. by vm_compute. Qed.

(** The room-type codes by the column they stand in: integers, floats and
    text; a column of booleans; booleans beside a missing entry. *)
Example room_type_columns :
  List.map room_type_decoded
    (Reference.cleaned [Reference.reviewed 1 (CInt 2) (CInt 0);
                        Reference.reviewed 2 (CFloat (Z2SF 3)) (CInt 0);
                        Reference.reviewed 3 (CFloat (float_of_decimal false 25 (-1))) (CInt 0);
                        Reference.reviewed 4 (CStr (py "2")) (CInt 0);
                        Reference.reviewed 5 (CInt 9) (CInt 0);
                        Reference.reviewed 6 (CFloat nan) (CInt 0)])
  = [Some (py "Entire Home/Apt"); Some (py "Shared Room"); Some (py "Unknown");
     Some (py "Unknown"); Some (py "Unknown"); Some (py "Unknown")]
  /\ List.map room_type_decoded
       (Reference.cleaned [Reference.reviewed 1 (CBool true) (CInt 0);
                           Reference.reviewed 2 (CBool false) (CInt 0)])
     = [Some (py "Unknown"); Some (py "Unknown")]
  /\ List.map room_type_decoded
       (Reference.cleaned [Reference.reviewed 1 (CBool true) (CInt 0);
                           Reference.reviewed 2 (CFloat nan) (CInt 0)])
     = [Some (py "Private Room"); Some (py "Unknown")].
Proof. by vm_compute. Qed.

(** The minimum number of reviews on an int64 column, where the integers are
    compared, and on a float64 column (one entry is missing), where 2^53 + 1
    is the float 2^53 on both sides. *)
Example review_counts_by_dtype :
  Reference.kept_for (2 ^ 53 + 1)
    (Reference.cleaned [Reference.reviewed 1 (CInt 1) (CInt (2 ^ 53));
                        Reference.reviewed 2 (CInt 1) (CInt (2 ^ 53 + 1));
                        Reference.reviewed 3 (CInt 1) (CInt 5)])
  = [CInt 2]
  /\ Reference.kept_for (2 ^ 53 + 1)
       (Reference.cleaned [Reference.reviewed 1 (CInt 1) (CFloat (Z2SF (2 ^ 53)));
                           Reference.reviewed 2 (CInt 1) (CFloat (Z2SF (2 ^ 53 + 1)));
                           Reference.reviewed 3 (CInt 1) (CFloat nan)])
     = [CInt 1; CInt 2].
Proof. by vm_compute. Qed.

(** The three-row scenario of the specification, cleaned. *)
Example scenario_cleaned :
  List.map area Reference.scenario_frame
  = [Some (py "Asia"); Some (py "Oceania"); Some (py "Oceania")]
  /\ List.map price_clean Reference.scenario_frame = [Z2SF 1250; Z2SF 80; Z2SF 60]
  /\ List.map consumer_clean Reference.scenario_frame
     = [float_of_decimal false 65 (-1); nan; Z2SF 5]
  /\ List.map bathrooms_clean Reference.scenario_frame = [SFone; SFone; SFone].
Proof. by vm_compute. Qed.

End Examples.

(** ** The field cleaners *)

Section Cleaners.

Lemma numeric_passes_through (value : cell) :
  Spec.overflows value = false -> is_int_or_float value = true -> isna value = false ->
  py_float value = Ok (number_value value).
Proof.
  intros Hl Hn Hna. destruct value as [|b|z|f|s]; try discriminate; simpl.
  - reflexivity.
  - unfold float_of_int. simpl in Hl. by destruct (Z2SF z).
  - reflexivity.
Qed.

Lemma overflowing_raises (value : cell) :
  Spec.overflows value = true ->
  (exists z, value = CInt z) /\ py_float value = Raise OverflowError.
Proof.
  destruct value as [|b|z|f|s]; try discriminate. simpl. intros H.
  split; [by exists z|]. unfold float_of_int. by destruct (Z2SF z).
Qed.

Lemma loaded_fits (value : cell) : loaded value -> Spec.overflows value = false.
Proof.
  destruct value as [|b|z|f|s]; try reflexivity. simpl. intros H.
  pose proof (Z2SF_finite z ltac:(lia)) as Hfin.
  destruct (Z2SF z) as [| s | |] eqn:E; try reflexivity. by destruct (Hfin s).
Qed.

End Cleaners.

(** C3 (amended).  [clean_price] follows the price rule of the specification
    with the trailing group read as "exactly two characters after the last
    comma".  On every value but an integer too large for a float it returns,
    without raising, the missing sentinel for a missing or empty value, the
    value itself as a float for a number and, for text, the float read after
    stripping white space, the currency symbols and the blanks and after
    turning the commas into periods (two characters after the last comma, no
    period) or dropping them (otherwise), the sentinel when that text is no
    number.  On an integer too large for a float, as 2^1024, it raises
    [OverflowError]; no integer of an int64 or uint64 column is that large.
    In particular "1,250" gives 1250.0, "45,00" gives 45.0, "$99" gives 99.0
    and the empty text gives the sentinel. *)
Theorem clean_price_spec :
  (forall value : cell, Spec.overflows value = false ->
     clean_price value = Ok (Spec.price_rule Spec.two_characters value))
  /\ (forall value : cell, Spec.overflows value = true ->
        (exists z, value = CInt z) /\ clean_price value = Raise OverflowError)
  /\ (forall value : cell, loaded value -> Spec.overflows value = false)
  /\ Spec.overflows (CInt (2 ^ 1024)) = true
  /\ clean_price (CStr (py "1,250")) = Ok (Z2SF 1250)
  /\ clean_price (CStr (py "45,00")) = Ok (Z2SF 45)
  /\ clean_price (CStr (py "$99")) = Ok (Z2SF 99)
  /\ clean_price (CStr (py "")) = Ok nan.
Proof.
  split; [|split; [|split; [exact loaded_fits | by vm_compute]]].
  - intros value Hl. unfold clean_price, Spec.price_rule.
    destruct (isna value || eq_empty_str value) eqn:E; [reflexivity|].
    apply orb_false_elim in E as [Hna He].
    destruct (is_int_or_float value) eqn:Hn.
    + rewrite (numeric_passes_through value Hl Hn Hna).
      by destruct value.
    + destruct value as [|b|z|f|s]; try discriminate.
      rewrite try_float_of_str, clean_price_text_spec. reflexivity.
  - intros value Hl. destruct (overflowing_raises value Hl) as [[z ->] Hf].
    split; [by exists z|]. unfold clean_price. simpl. exact Hf.
Qed.

Lemma clean_price_spec_witness :
  Spec.overflows (CInt 250) = false
  /\ clean_price (CInt 250) = Ok (Spec.price_rule Spec.two_characters (CInt 250)).
Proof.
  assert (Spec.overflows (CInt 250) = false) as H by reflexivity.
  split; [exact H | exact (proj1 clean_price_spec (CInt 250) H)].
Defined.

(** C3 as stated fails: with "exactly 2 digits after the last comma" the text
    "1e,+5" (two characters after the comma, one of them a digit) would have
    its comma dropped and read as 1e+5; [clean_price] turns the comma into a
    period and returns the sentinel. *)
Lemma clean_price_two_digits_counterexample :
  clean_price (CStr (py "1e,+5")) = Ok nan
  /\ Spec.price_rule Spec.two_digits (CStr (py "1e,+5")) = Z2SF 100000
  /\ ~ (forall value : cell, loaded value ->
          clean_price value = Ok (Spec.price_rule Spec.two_digits value)).
Proof.
  split; [by vm_compute|]. split; [by vm_compute|].
  intros H. specialize (H (CStr (py "1e,+5")) I).
  vm_compute in H. discriminate.
Qed.

(** C4 (amended).  [convert_european_decimal] follows the locale-decimal
    rule.  On every value but an integer too large for a float it returns,
    without raising, the missing sentinel for a missing, empty or zero value,
    the value itself as a float for another number and, for text, the float
    read after stripping white space and turning commas into periods, the
    sentinel when that text is no number.  On an integer too large for a
    float, as 2^1024, it raises [OverflowError]; no integer of an int64 or
    uint64 column is that large.  In particular "6,81" gives the binary64
    number nearest to 6.81 and the integer 0 gives the sentinel. *)
Theorem convert_european_decimal_spec :
  (forall value : cell, Spec.overflows value = false ->
     convert_european_decimal value = Ok (Spec.locale_decimal value))
  /\ (forall value : cell, Spec.overflows value = true ->
        (exists z, value = CInt z)
        /\ convert_european_decimal value = Raise OverflowError)
  /\ (forall value : cell, loaded value -> Spec.overflows value = false)
  /\ Spec.overflows (CInt (2 ^ 1024)) = true
  /\ (exists m : positive,
        convert_european_decimal (CStr (py "6,81")) = Ok (S754_finite false m (-50))
        /\ 2 ^ 52 <= Z.pos m < 2 ^ 53
        /\ 2 * Z.abs (100 * Z.pos m - 681 * 2 ^ 50) <= 100)
  /\ convert_european_decimal (CInt 0) = Ok nan.
Proof.
  split; [|split; [|split; [exact loaded_fits | split; [by vm_compute | split]]]].
  - intros value Hl. unfold convert_european_decimal, Spec.locale_decimal.
    destruct (isna value || eq_empty_str value || eq_zero value) eqn:E; [reflexivity|].
    apply orb_false_elim in E as [E Hz]. apply orb_false_elim in E as [Hna He].
    destruct (is_int_or_float value) eqn:Hn.
    + rewrite (numeric_passes_through value Hl Hn Hna).
      by destruct value.
    + destruct value as [|b|z|f|s]; try discriminate.
      rewrite try_float_of_str, replace_comma_by_period. reflexivity.
  - intros value Hl. destruct (overflowing_raises value Hl) as [[z ->] Hf].
    split; [by exists z|]. unfold convert_european_decimal. simpl.
    destruct (z =? 0) eqn:Ez; [|exact Hf].
    apply Z.eqb_eq in Ez as ->. by vm_compute in Hl.
  - exists 7667378365598269%positive. split; [by vm_compute|]. lia.
  - by vm_compute.
Qed.

Lemma convert_european_decimal_spec_witness :
  Spec.overflows (CInt 7) = false
  /\ convert_european_decimal (CInt 7) = Ok (Spec.locale_decimal (CInt 7)).
Proof.
  assert (Spec.overflows (CInt 7) = false) as H by reflexivity.
  split; [exact H | exact (proj1 convert_european_decimal_spec (CInt 7) H)].
Defined.

(** C4 as stated fails: "passes numeric input through as float" and "never
    raises" do not hold on an integer too large for a float, where
    [float(value)], which is not inside the [try], raises
    [OverflowError]. *)
Lemma convert_european_decimal_raises_counterexample :
  convert_european_decimal (CInt (2 ^ 1024)) = Raise OverflowError
  /\ ~ (forall value : cell, exists f, convert_european_decimal value = Ok f).
Proof.
  assert (convert_european_decimal (CInt (2 ^ 1024)) = Raise OverflowError) as H
    by (by vm_compute).
  split; [exact H|].
  intros Hall. destruct (Hall (CInt (2 ^ 1024))) as [f Hf].
  rewrite H in Hf. discriminate.
Qed.

(** ** The loader *)

Section Loader.

Variable read_csv : pystr -> res (list raw_row).
Variable parse_numeric : pystr -> pyfloat.
Variable Series_mean : list pyfloat -> pyfloat.

Lemma bind_ok {A B : Type} (m : res A) (k : A -> res B) (b : B) :
  bind m k = Ok b -> exists a, m = Ok a /\ k a = Ok b.
Proof. destruct m as [a|e]; simpl; [eauto | discriminate]. Qed.

Lemma mapM_ok {A B : Type} (f : A -> res B) (l : list A) (l' : list B) :
  mapM f l = Ok l' -> Forall2 (fun x y => f x = Ok y) l l'.
Proof.
  revert l'. induction l as [|x l IH]; simpl; intros l' H.
  - injection H as <-. constructor.
  - apply bind_ok in H as (y & Hy & H).
    apply bind_ok in H as (ys & Hys & H).
    injection H as <-. constructor; [exact Hy | by apply IH].
Qed.

(** What a successful load went through: the file was read, every row was
    derived, the fallback fill came last, the statistics were computed from
    the filled frame. *)
Lemma load_ok (path : pystr) (df : frame) (stats : Stats.t) :
  load_and_clean_data read_csv parse_numeric Series_mean path = Ok (df, stats) ->
  exists raw derived,
    read_csv path = Ok raw
    /\ Forall2 (fun x r => derive_row parse_numeric raw x = Ok r) raw derived
    /\ df = List.map fill_missing derived
    /\ calculate_statistics Series_mean (length raw) df = Ok stats.
Proof.
  unfold load_and_clean_data. intros H.
  apply bind_ok in H as (raw & Hraw & H).
  apply bind_ok in H as (derived & Hd & H).
  apply bind_ok in H as (st & Hst & H).
  injection H as <- <-.
  exists raw, derived. by split; [|split; [apply mapM_ok|split]].
Qed.

(** The columns of a derived row, in the order of the cleaning steps. *)
Lemma derive_row_ok (raw : list raw_row) (x : raw_row) (r : row) :
  derive_row parse_numeric raw x = Ok r ->
  clean_price (raw_price x) = Ok (price_clean r)
  /\ convert_european_decimal (raw_bathrooms x) = Ok (bathrooms_clean r)
  /\ convert_european_decimal (raw_consumer x) = Ok (consumer_clean r)
  /\ room_type_decoded r
     = fillna (map_room_type (List.map raw_room_type raw) (raw_room_type x))
              (Some (py "Unknown"))
  /\ times_sales (price_clean r) (raw_sales x) = Ok (revenue_estimate r)
  /\ city r = raw_city x
  /\ area r = fillna (map_city_area (raw_city x)) (raw_area x)
  /\ bedrooms r = to_numeric parse_numeric (raw_bedrooms x)
  /\ beds r = to_numeric parse_numeric (raw_beds x)
  /\ sales r = to_numeric parse_numeric (raw_sales x).
Proof.
  unfold derive_row. intros H.
  apply bind_ok in H as (pc & Hpc & H).
  apply bind_ok in H as (bc & Hbc & H).
  apply bind_ok in H as (cc & Hcc & H).
  apply bind_ok in H as (hr & Hhr & H).
  apply bind_ok in H as (ha & Hha & H).
  apply bind_ok in H as (rev & Hrev & H).
  apply bind_ok in H as (hs & Hhs & H).
  injection H as <-. simpl. repeat split; assumption.
Qed.

Lemma Forall2_map_r {A B C : Type} (P : A -> C -> Prop) (g : B -> C)
    (l : list A) (l' : list B) :
  Forall2 (fun x y => P x (g y)) l l' -> Forall2 P l (List.map g l').
Proof. induction 1; simpl; constructor; assumption. Qed.

(** Row by row, what the cleaned frame holds in terms of the raw frame. *)
Lemma load_rows (path : pystr) (df : frame) (stats : Stats.t) :
  load_and_clean_data read_csv parse_numeric Series_mean path = Ok (df, stats) ->
  exists raw,
    read_csv path = Ok raw
    /\ Forall2 (fun x r' => exists r, derive_row parse_numeric raw x = Ok r
                                       /\ r' = fill_missing r)
               raw df.
Proof.
  intros H. apply load_ok in H as (raw & derived & Hraw & Hd & -> & _).
  exists raw. split; [exact Hraw|].
  apply Forall2_map_r. eapply Forall2_impl; [exact Hd|].
  intros x r Hr. by exists r.
Qed.

End Loader.

(** ** Room-type codes *)

Section RoomType.

Lemma SFeqb_finite_r (f : pyfloat) (s : bool) (m : positive) (e : Z) :
  SFeqb f (S754_finite s m e) = true -> f = S754_finite s m e.
Proof.
  unfold SFeqb, SFcompare.
  destruct f as [s'|s'| |s' m' e']; destruct s; try destruct s'; try done;
    (destruct (Z.compare_spec e' e) as [->|?|?]; try done;
     change (Pos.compare_cont Eq m' m) with (Pos.compare m' m);
     destruct (Pos.compare_spec m' m) as [->|?|?]; done).
Qed.

Lemma SFeqb_finite_l (f : pyfloat) (s : bool) (m : positive) (e : Z) :
  SFeqb (S754_finite s m e) f = true -> f = S754_finite s m e.
Proof.
  unfold SFeqb, SFcompare.
  destruct f as [s'|s'| |s' m' e']; destruct s; try destruct s'; try done;
    (destruct (Z.compare_spec e e') as [->|?|?]; try done;
     change (Pos.compare_cont Eq m m') with (Pos.compare m m');
     destruct (Pos.compare_spec m m') as [->|?|?]; done).
Qed.

(** The keys of the room-type map. *)
Lemma room_type_keys (k : Z) (label : pystr) :
  ROOM_TYPE_MAP !! k = Some label ->
  (k = 1 /\ label = py "Private Room") \/ (k = 2 /\ label = py "Entire Home/Apt")
  \/ (k = 3 /\ label = py "Shared Room") \/ (k = 4 /\ label = py "Hotel Room").
Proof.
  unfold ROOM_TYPE_MAP. simpl. intros Hk.
  rewrite lookup_insert in Hk. case_decide; [injection Hk as <-; by left|].
  rewrite lookup_insert in Hk. case_decide; [injection Hk as <-; right; by left|].
  rewrite lookup_insert in Hk. case_decide; [injection Hk as <-; right; right; by left|].
  rewrite lookup_insert in Hk. case_decide; [injection Hk as <-; right; right; by right|].
  by rewrite lookup_empty in Hk.
Qed.

(** A float that is one of the codes 1 to 4 is the float of that code. *)
Lemma is_code_float (f : pyfloat) (k : Z) :
  1 <= k <= 4 -> Spec.is_code (CFloat f) k = true -> f = Z2SF k.
Proof.
  intros Hk. assert (k = 1 \/ k = 2 \/ k = 3 \/ k = 4) as [-> | [-> | [-> | ->]]] by lia;
    simpl; apply SFeqb_finite_r.
Qed.

Lemma int_value_code (v : cell) (k : Z) :
  1 <= k <= 4 -> (int_value v = Some k <-> Spec.is_code v k = true).
Proof.
  intros Hk. destruct v as [|b|z|f|s]; simpl.
  - done.
  - rewrite Z.eqb_eq. split; congruence.
  - rewrite Z.eqb_eq. split; congruence.
  - split.
    + destruct (int_of_float f) as [z|] eqn:Ez; [|done].
      destruct (SFeqb (Z2SF z) f) eqn:E; [|done]. intros [= ->].
      assert (k = 1 \/ k = 2 \/ k = 3 \/ k = 4) as [-> | [-> | [-> | ->]]] by lia;
        apply SFeqb_finite_l in E as ->; reflexivity.
    + intros H. pose proof (is_code_float f k Hk H) as ->.
      assert (k = 1 \/ k = 2 \/ k = 3 \/ k = 4) as [-> | [-> | [-> | ->]]] by lia;
        reflexivity.
  - done.
Qed.

(** [map] and [fillna('Unknown')] give the label of the code. *)
Lemma map_room_type_label (col : list cell) (v : cell) :
  fillna (map_room_type col v) (Some (py "Unknown")) = Some (Spec.room_label col v).
Proof.
  unfold map_room_type, Spec.room_label, bool_dtype.
  destruct (forallb is_bool col); [reflexivity|].
  destruct (Spec.is_code v 1) eqn:E1.
  { apply int_value_code in E1 as ->; [reflexivity | lia]. }
  destruct (Spec.is_code v 2) eqn:E2.
  { apply int_value_code in E2 as ->; [reflexivity | lia]. }
  destruct (Spec.is_code v 3) eqn:E3.
  { apply int_value_code in E3 as ->; [reflexivity | lia]. }
  destruct (Spec.is_code v 4) eqn:E4.
  { apply int_value_code in E4 as ->; [reflexivity | lia]. }
  destruct (int_value v) as [k|] eqn:Ek; [|reflexivity].
  destruct (ROOM_TYPE_MAP !! k) as [label|] eqn:El; [|reflexivity].
  exfalso. apply room_type_keys in El as [[-> _] | [[-> _] | [[-> _] | [-> _]]]];
    apply int_value_code in Ek; try lia; congruence.
Qed.

Lemma room_label_cases (col : list cell) (v : cell) :
  Spec.room_label col v ∈ Spec.room_labels \/ Spec.room_label col v = py "Unknown".
Proof.
  unfold Spec.room_label, Spec.room_labels.
  destruct (forallb is_bool col); [by right|].
  destruct (Spec.is_code v 1); [left; set_solver|].
  destruct (Spec.is_code v 2); [left; set_solver|].
  destruct (Spec.is_code v 3); [left; set_solver|].
  destruct (Spec.is_code v 4); [left; set_solver|].
  by right.
Qed.

Lemma room_label_mapped (col : list cell) (v : cell) (k : Z) (label : pystr) :
  bool_dtype col = false -> Spec.is_code v k = true -> ROOM_TYPE_MAP !! k = Some label ->
  Spec.room_label col v = label.
Proof.
  intros Hcol Hk Hl. pose proof (map_room_type_label col v) as H.
  unfold map_room_type in H. rewrite Hcol in H.
  assert (1 <= k <= 4) as Hr.
  { apply room_type_keys in Hl as [[-> _] | [[-> _] | [[-> _] | [-> _]]]]; lia. }
  apply int_value_code in Hk; [|exact Hr]. rewrite Hk, Hl in H. simpl in H. congruence.
Qed.

Lemma room_label_unmapped (col : list cell) (v : cell) :
  bool_dtype col = true
  \/ (forall k, Spec.is_code v k = true -> ROOM_TYPE_MAP !! k = None) ->
  Spec.room_label col v = py "Unknown".
Proof.
  unfold Spec.room_label, bool_dtype. intros [-> | Hnone]; [reflexivity|].
  destruct (forallb is_bool col); [reflexivity|].
  destruct (Spec.is_code v 1) eqn:E1; [by specialize (Hnone 1 E1)|].
  destruct (Spec.is_code v 2) eqn:E2; [by specialize (Hnone 2 E2)|].
  destruct (Spec.is_code v 3) eqn:E3; [by specialize (Hnone 3 E3)|].
  destruct (Spec.is_code v 4) eqn:E4; [by specialize (Hnone 4 E4)|].
  reflexivity.
Qed.

End RoomType.

Section LoaderClaims.

Variable read_csv : pystr -> res (list raw_row).
Variable parse_numeric : pystr -> pyfloat.
Variable Series_mean : list pyfloat -> pyfloat.

Local Abbreviation load := (load_and_clean_data read_csv parse_numeric Series_mean).

(** C1.  In a cleaned frame every record keeps the city of its raw record;
    when the city is a key of the city-to-area correction table the area of
    the record is the table's value, whatever the raw area; when the city is
    no key of the table (or is missing) the raw area is kept; and the
    'unique_areas' entry of the statistics is the sorted list of the distinct
    areas of the cleaned (corrected) frame. *)
Theorem area_follows_correction_table (path : pystr) (df : frame) (stats : Stats.t) :
  load path = Ok (df, stats) ->
  exists raw,
    read_csv path = Ok raw
    /\ Forall2 (fun x r =>
          city r = raw_city x
          /\ (forall c a, city r = Some c -> CORRECT_CITY_AREA !! c = Some a ->
                area r = Some a)
          /\ (forall c, city r = Some c -> CORRECT_CITY_AREA !! c = None ->
                area r = raw_area x)
          /\ (city r = None -> area r = raw_area x))
        raw df
    /\ sorted (unique (List.map area df)) = Ok (Stats.unique_areas stats).
Proof.
  intros H.
  pose proof (load_rows _ _ _ _ _ _ H) as (raw & Hraw & Hrows).
  exists raw. split; [exact Hraw|]. split.
  - eapply Forall2_impl; [exact Hrows|].
    intros x r' (r & Hr & ->).
    apply derive_row_ok in Hr as (_ & _ & _ & _ & _ & Hcity & Harea & _).
    simpl. rewrite Hcity, Harea. split; [reflexivity|].
    unfold map_city_area. repeat split.
    + intros c a -> Ha. by rewrite Ha.
    + intros c -> Ha. by rewrite Ha.
    + by intros ->.
  - apply load_ok in H as (raw' & derived & _ & _ & _ & Hst).
    unfold calculate_statistics in Hst.
    apply bind_ok in Hst as (uc & _ & Hst).
    apply bind_ok in Hst as (ua & Hua & Hst).
    apply bind_ok in Hst as (ur & _ & Hst).
    injection Hst as <-. exact Hua.
Qed.

(** C6.  In a cleaned frame 'room_type_decoded' is never missing: it is the
    label of the raw code, one of the four labels Private Room, Entire
    Home/Apt, Shared Room and Hotel Room of the room-type map for a code the
    map has, and the text "Unknown" for every other value: a number outside
    the map, a number that is no integer, text, a missing code, and every
    entry of a column of booleans. *)
Theorem room_type_decoded_never_missing (path : pystr) (df : frame) (stats : Stats.t) :
  load path = Ok (df, stats) ->
  exists raw,
    read_csv path = Ok raw
    /\ Forall2 (fun x r =>
          room_type_decoded r
          = Some (Spec.room_label (List.map raw_room_type raw) (raw_room_type x))
          /\ (exists label, room_type_decoded r = Some label
                /\ (label ∈ Spec.room_labels \/ label = py "Unknown"))
          /\ (forall k label,
                bool_dtype (List.map raw_room_type raw) = false ->
                Spec.is_code (raw_room_type x) k = true ->
                ROOM_TYPE_MAP !! k = Some label -> room_type_decoded r = Some label)
          /\ ((forall k, Spec.is_code (raw_room_type x) k = true ->
                         ROOM_TYPE_MAP !! k = None) ->
              room_type_decoded r = Some (py "Unknown"))
          /\ (bool_dtype (List.map raw_room_type raw) = true ->
              room_type_decoded r = Some (py "Unknown"))
          /\ (isna (raw_room_type x) = true -> room_type_decoded r = Some (py "Unknown"))
          /\ (forall s, raw_room_type x = CStr s ->
              room_type_decoded r = Some (py "Unknown")))
        raw df.
Proof.
  intros H.
  pose proof (load_rows _ _ _ _ _ _ H) as (raw & Hraw & Hrows).
  exists raw. split; [exact Hraw|].
  eapply Forall2_impl; [exact Hrows|].
  intros x r' (r & Hr & ->).
  apply derive_row_ok in Hr as (_ & _ & _ & Hrt & _).
  simpl. rewrite Hrt, map_room_type_label.
  set (col := List.map raw_room_type raw). set (v := raw_room_type x).
  split; [reflexivity|]. split; [|split; [|split; [|split; [|split]]]].
  - eexists. split; [reflexivity|]. apply room_label_cases.
  - intros k label Hcol Hk Hlabel. f_equal. by apply (room_label_mapped col v k).
  - intros Hnone. f_equal. apply room_label_unmapped. right. exact Hnone.
  - intros Hcol. f_equal. apply room_label_unmapped. by left.
  - intros Hna. f_equal. apply room_label_unmapped. right.
    intros k Hk. subst v. by destruct (raw_room_type x) as [| | |[]|].
  - intros s Hs. f_equal. apply room_label_unmapped. right.
    intros k Hk. subst v. by rewrite Hs in Hk.
Qed.

(** C7.  In a cleaned frame the revenue estimate of every record is its
    cleaned price times the sales value of the raw record (the load fails
    when sales is text and the price is present), and the fallback fills come
    last: the cleaned frame is the frame of the derived rows with missing
    bedrooms set to 0, missing bathrooms_clean to 1 and missing beds to 1,
    every other column, the revenue estimate and the other derived fields
    among them, being as derived. *)
Theorem revenue_and_fallback_fill (path : pystr) (df : frame) (stats : Stats.t) :
  load path = Ok (df, stats) ->
  exists raw derived,
    read_csv path = Ok raw
    /\ Forall2 (fun x r => derive_row parse_numeric raw x = Ok r) raw derived
    /\ df = List.map fill_missing derived
    /\ Forall2 (fun x r =>
          clean_price (raw_price x) = Ok (price_clean r)
          /\ revenue_estimate r = SFmul (price_clean r) (number_value (raw_sales x))
          /\ (forall s, raw_sales x = CStr s -> price_clean r = nan))
        raw df
    /\ Forall2 (fun d r =>
          Spec.same_but_filled d r
          /\ bedrooms r = fillna_float (bedrooms d) SFzero
          /\ bathrooms_clean r = fillna_float (bathrooms_clean d) SFone
          /\ beds r = fillna_float (beds d) SFone)
        derived df.
Proof.
  intros H.
  pose proof (load_ok _ _ _ _ _ _ H) as (raw & derived & Hraw & Hd & -> & _).
  exists raw, derived. repeat split; try assumption.
  - apply Forall2_map_r. eapply Forall2_impl; [exact Hd|].
    intros x r Hr.
    apply derive_row_ok in Hr as (Hp & _ & _ & _ & Hrev & _).
    simpl. split; [exact Hp|].
    unfold times_sales in Hrev.
    destruct (raw_sales x) as [|b|z|f|s] eqn:Hs;
      try (injection Hrev as <-; split; [reflexivity | discriminate]).
    destruct (price_clean r) eqn:Hpc; try discriminate.
    injection Hrev as <-. split; [reflexivity | done].
  - apply Forall2_map_r. clear. induction derived as [|d l IH]; constructor; [|exact IH].
    unfold Spec.same_but_filled. simpl. repeat split.
Qed.

End LoaderClaims.

Lemma area_follows_correction_table_witness :
  exists df stats,
    Reference.load_scenario = Ok (df, stats)
    /\ List.map area df = [Some (py "Asia"); Some (py "Oceania"); Some (py "Oceania")]
    /\ exists raw,
         Reference.read_scenario (py "data/Airbnb_site_hotel_new.csv") = Ok raw
         /\ Forall2 (fun x r =>
               city r = raw_city x
               /\ (forall c a, city r = Some c -> CORRECT_CITY_AREA !! c = Some a ->
                     area r = Some a)
               /\ (forall c, city r = Some c -> CORRECT_CITY_AREA !! c = None ->
                     area r = raw_area x)
               /\ (city r = None -> area r = raw_area x))
             raw df
         /\ sorted (unique (List.map area df)) = Ok (Stats.unique_areas stats).
Proof.
  eexists _, _.
  assert (Reference.load_scenario = Ok (_, _)) as H by (vm_compute; reflexivity).
  split; [exact H|]. split; [reflexivity|].
  exact (area_follows_correction_table _ _ _ _ _ _ H).
Defined.

Lemma room_type_decoded_never_missing_witness :
  exists df stats,
    Reference.load_scenario = Ok (df, stats)
    /\ List.map room_type_decoded df
       = [Some (py "Entire Home/Apt"); Some (py "Unknown"); Some (py "Private Room")]
    /\ exists raw,
         Reference.read_scenario (py "data/Airbnb_site_hotel_new.csv") = Ok raw
         /\ Forall2 (fun x r =>
               room_type_decoded r
               = Some (Spec.room_label (List.map raw_room_type raw) (raw_room_type x))
               /\ (exists label, room_type_decoded r = Some label
                     /\ (label ∈ Spec.room_labels \/ label = py "Unknown"))
               /\ (forall k label,
                     bool_dtype (List.map raw_room_type raw) = false ->
                     Spec.is_code (raw_room_type x) k = true ->
                     ROOM_TYPE_MAP !! k = Some label -> room_type_decoded r = Some label)
               /\ ((forall k, Spec.is_code (raw_room_type x) k = true ->
                              ROOM_TYPE_MAP !! k = None) ->
                   room_type_decoded r = Some (py "Unknown"))
               /\ (bool_dtype (List.map raw_room_type raw) = true ->
                   room_type_decoded r = Some (py "Unknown"))
               /\ (isna (raw_room_type x) = true ->
                   room_type_decoded r = Some (py "Unknown"))
               /\ (forall s, raw_room_type x = CStr s ->
                   room_type_decoded r = Some (py "Unknown")))
             raw df.
Proof.
  eexists _, _.
  assert (Reference.load_scenario = Ok (_, _)) as H by (vm_compute; reflexivity).
  split; [exact H|]. split; [reflexivity|].
  exact (room_type_decoded_never_missing _ _ _ _ _ _ H).
Defined.

Lemma revenue_and_fallback_fill_witness :
  exists df stats,
    Reference.load_scenario = Ok (df, stats)
    /\ List.map revenue_estimate df = [Z2SF 3750; Z2SF 800; nan]
    /\ List.map bedrooms df = [SFzero; SFzero; SFzero]
    /\ exists raw derived,
         Reference.read_scenario (py "data/Airbnb_site_hotel_new.csv") = Ok raw
         /\ Forall2 (fun x r => derive_row Reference.parse_numeric raw x = Ok r) raw derived
         /\ df = List.map fill_missing derived
         /\ Forall2 (fun x r =>
               clean_price (raw_price x) = Ok (price_clean r)
               /\ revenue_estimate r = SFmul (price_clean r) (number_value (raw_sales x))
               /\ (forall s, raw_sales x = CStr s -> price_clean r = nan))
             raw df
         /\ Forall2 (fun d r =>
               Spec.same_but_filled d r
               /\ bedrooms r = fillna_float (bedrooms d) SFzero
               /\ bathrooms_clean r = fillna_float (bathrooms_clean d) SFone
               /\ beds r = fillna_float (beds d) SFone)
             derived df.
Proof.
  eexists _, _.
  assert (Reference.load_scenario = Ok (_, _)) as H by (vm_compute; reflexivity).
  split; [exact H|]. split; [reflexivity|]. split; [reflexivity|].
  exact (revenue_and_fallback_fill _ _ _ _ _ _ H).
Defined.

(** ** The caller of the loader *)

Section LoadDataClaims.

Variable read_csv : pystr -> res (list raw_row).
Variable parse_numeric : pystr -> pyfloat.
Variable Series_mean : list pyfloat -> pyfloat.
Variable message : exn -> pystr.

Local Abbreviation load := (load_and_clean_data read_csv parse_numeric Series_mean).
Local Abbreviation load_data := (Dashboard.load_data read_csv parse_numeric Series_mean message).
Local Abbreviation main := (Dashboard.main read_csv parse_numeric Series_mean message).

Lemma load_read_failure (path : pystr) (e : exn) :
  read_csv path = Raise e -> load path = Raise e.
Proof. unfold load_and_clean_data. by intros ->. Qed.

(** C8.  When the file cannot be read, [load_and_clean_data] raises that one
    error and returns neither a frame nor statistics; [load_data] returns
    either a frame with its statistics and no error, or no frame, no
    statistics and the message of the error; and when the file cannot be read
    at the first path, nor (after a FileNotFoundError) at the fallback path,
    [main] stops on an error screen instead of the charts. *)
Theorem load_failure_is_surfaced :
  (forall path e, read_csv path = Raise e -> load path = Raise e)
  /\ ((exists df stats, load_data = (Some df, Some stats, None))
      \/ (exists e, load_data = (None, None, Some (message e))))
  /\ (forall e1,
        read_csv (py "/app/data/Airbnb_site_hotel_new.csv") = Raise e1 ->
        (e1 = FileNotFoundError ->
         exists e2, read_csv (py "data/Airbnb_site_hotel_new.csv") = Raise e2) ->
        exists e,
          load_data = (None, None, Some (message e))
          /\ (main = Dashboard.ErrorLoadingData (message e)
              \/ (message e = [] /\ main = Dashboard.NoDataAvailable))).
Proof.
  split; [exact load_read_failure|]. split.
  - unfold Dashboard.load_data, Dashboard.load.
    destruct (load (py "/app/data/Airbnb_site_hotel_new.csv")) as [[df stats]|e]; [by eauto|].
    destruct (Dashboard.is_FileNotFoundError e); [|by eauto].
    destruct (load (py "data/Airbnb_site_hotel_new.csv")) as [[df stats]|e2]; by eauto.
  - intros e1 H1 H2.
    assert (exists e, load_data = (None, None, Some (message e))) as [e He].
    { unfold Dashboard.load_data, Dashboard.load.
      rewrite (load_read_failure _ _ H1).
      destruct e1; simpl; eauto.
      destruct (H2 eq_refl) as [e2 He2].
      rewrite (load_read_failure _ _ He2). eauto. }
    exists e. split; [exact He|].
    unfold Dashboard.main. rewrite He.
    destruct (message e); [right|left]; done.
Qed.

End LoadDataClaims.

Lemma load_failure_is_surfaced_witness :
  exists e,
    Dashboard.load_data Reference.read_nothing Reference.parse_numeric
                        Reference.mean Reference.message
    = (None, None, Some (Reference.message e))
    /\ (Dashboard.main Reference.read_nothing Reference.parse_numeric
                       Reference.mean Reference.message
        = Dashboard.ErrorLoadingData (Reference.message e)
        \/ (Reference.message e = []
            /\ Dashboard.main Reference.read_nothing Reference.parse_numeric
                              Reference.mean Reference.message
               = Dashboard.NoDataAvailable)).
Proof.
  apply (proj2 (proj2 (load_failure_is_surfaced Reference.read_nothing
                         Reference.parse_numeric Reference.mean Reference.message))
           FileNotFoundError).
  - reflexivity.
  - intros _. exists FileNotFoundError. reflexivity.
Defined.

(** ** The metrics *)

Section MetricsClaims.

Context {pandas : release}.

(** C5.  On an empty frame [calculate_guest_metrics] and
    [calculate_host_metrics] return, without raising, 0 for every numeric
    metric and "N/A" for every city; and the best-value ranking of
    [calculate_guest_metrics] is taken over the values [city_value] gives to
    the cities, which is 0, with no division, for a city whose mean price is
    not greater than zero. *)
Theorem metrics_on_empty_frame
    (Series_mean Series_sum : list pyfloat -> pyfloat) :
  calculate_guest_metrics Series_mean []
  = Ok {| Guest.total_properties := 0;
          Guest.avg_price := NInt 0;
          Guest.avg_rating := NInt 0;
          Guest.pct_favourites := NInt 0;
          Guest.most_popular_city := Some (py "N/A");
          Guest.best_value_city := Some (py "N/A") |}
  /\ calculate_host_metrics Series_mean Series_sum []
     = Ok {| Host.total_revenue := NInt 0;
             Host.avg_occupancy := NInt 0;
             Host.total_hosts := 0;
             Host.avg_listings_per_host := NInt 0;
             Host.pct_certified := NInt 0;
             Host.best_city := Some (py "N/A") |}
  /\ (forall (df : frame) (m : Guest.t),
        df <> [] -> calculate_guest_metrics Series_mean df = Ok m ->
        idxmax (List.map (fun g => (fst g, num_float (city_value Series_mean (snd g))))
                         (groupby city df))
        = Ok (Guest.best_value_city m))
  /\ (forall x : frame,
        SFgtb (Series_mean (List.map price_clean x)) SFzero = false ->
        city_value Series_mean x = NInt 0).
Proof.
  split; [reflexivity|]. split; [reflexivity|]. split.
  - intros df m Hne H. unfold calculate_guest_metrics in H.
    destruct df as [|r df]; [done|]. cbn [length Nat.ltb Nat.leb] in H.
    apply bind_ok in H as (mp & _ & H).
    apply bind_ok in H as (bv & Hbv & H).
    injection H as <-. exact Hbv.
  - intros x H. unfold city_value. by rewrite H.
Qed.

End MetricsClaims.

Lemma metrics_on_empty_frame_witness :
  SFgtb (Reference.mean (List.map price_clean Reference.free_frame)) SFzero = false
  /\ city_value Reference.mean Reference.free_frame = NInt 0.
Proof.
  assert (SFgtb (Reference.mean (List.map price_clean Reference.free_frame)) SFzero = false)
    as H by reflexivity.
  split; [exact H|].
  exact (proj2 (proj2 (proj2 (metrics_on_empty_frame (pandas := Reference.installed)
                                  Reference.mean Reference.sum)))
           Reference.free_frame H).
Defined.

(** ** The filter engine *)

Section FilterFacts.

Lemma filter_filter {A : Type} (p q : A -> bool) (l : list A) :
  List.filter q (List.filter p l) = List.filter (fun x => p x && q x) l.
Proof.
  induction l as [|x l IH]; [reflexivity|].
  simpl. destruct (p x); simpl; [|exact IH].
  destruct (q x); by rewrite IH.
Qed.

Lemma filter_all {A : Type} (l : list A) : List.filter (fun _ => true) l = l.
Proof. induction l as [|x l IH]; simpl; congruence. Qed.

Lemma filter_sublist {A : Type} (p : A -> bool) (l : list A) :
  sublist (List.filter p l) l.
Proof.
  induction l as [|x l IH]; simpl; [constructor|].
  destruct (p x); by constructor.
Qed.

Lemma eqb_true_r (b : bool) : Bool.eqb b true = b.
Proof. by destruct b. Qed.

Lemma bindM_run {A B : Type} (m : M A) (k : A -> M B) (h h1 : heap) (a : A) :
  m h = Ok (a, h1) -> bindM m k h = k a h1.
Proof. unfold bindM. by intros ->. Qed.

Lemma copy_run (h : heap) (df : loc) (rows : frame) :
  h !! df = Some rows ->
  exists st, copy df h = Ok st /\ reaches h rows st.
Proof.
  intros H. exists (length h, h ++ [rows]). split.
  - unfold copy, bindM, read, alloc. by rewrite H.
  - split; [by exists [rows]|]. split; [done|]. simpl.
    by apply list_lookup_middle.
Qed.

Lemma stage_run (h0 h : heap) (l : loc) (f : frame) (c : bool) (mask : row -> bool) :
  reaches h0 f (l, h) ->
  exists st,
    (if c then select l mask else ret l) h = Ok st
    /\ reaches h0 (List.filter (fun r => negb c || mask r) f) st.
Proof.
  intros ([extra Hx] & Hl & Hf). simpl in *. destruct c; simpl.
  - exists (length h, h ++ [List.filter mask f]). split.
    + unfold select, bindM, read, alloc. by rewrite Hf.
    + split; [|split]; simpl.
      * exists (extra ++ [List.filter mask f]). by rewrite Hx, app_assoc.
      * rewrite Hx, length_app. lia.
      * by apply list_lookup_middle.
  - exists (l, h). split; [reflexivity|].
    rewrite filter_all. by split; [exists extra|split].
Qed.

Lemma SFleb_refl (x : pyfloat) : is_nan x = false -> SFleb x x = true.
Proof.
  destruct x as [s|s| |s m e]; try done; try (by destruct s).
  intros _. unfold SFleb, SFcompare.
  rewrite Z.compare_refl, Pos.compare_cont_refl. by destruct s.
Qed.

Ltac run_stage I :=
  lazymatch goal with
  | |- context [bindM (if ?c then select ?l ?mask else ret ?l) _ ?h] =>
      let l' := fresh "l" in
      let h' := fresh "h" in
      let R := fresh "R" in
      let J := fresh "J" in
      destruct (stage_run _ h l _ c mask I) as ([l' h'] & R & J);
      rewrite (bindM_run _ _ _ _ _ R); cbv beta; clear R I; rename J into I
  end.

(** Running [filter_data]: it returns a new frame, the records of the input
    that satisfy the conjunction of the supplied predicates, and only
    allocates. *)
Lemma filter_data_run (h : heap) (df : loc) (rows : frame)
    (cities areas room_types : option (list pystr))
    (price_range : option (num * num)) (min_reviews : Z) (min_rating : num)
    (guest_favourites_only certified_hosts_only : bool) :
  h !! df = Some rows ->
  exists st,
    filter_data df cities areas room_types price_range min_reviews min_rating
                guest_favourites_only certified_hosts_only h = Ok st
    /\ reaches h
         (List.filter (Spec.satisfies cities areas room_types price_range min_reviews
                                      min_rating guest_favourites_only
                                      certified_hosts_only) rows) st.
Proof.
  intros Hdf. unfold filter_data.
  destruct (copy_run h df rows Hdf) as ([l0 h0] & R0 & I).
  rewrite (bindM_run _ _ _ _ _ R0). cbv beta. clear R0.
  run_stage I. run_stage I. run_stage I.
  lazymatch type of I with
  | reaches _ _ (?lc, ?hc) =>
      destruct (stage_run h hc lc _ (bool_decide (is_Some price_range))
                  (fun r => match price_range with
                            | Some (lo, hi) => SFgeb (price_clean r) (num_float lo)
                                               && SFleb (price_clean r) (num_float hi)
                            | None => true
                            end) I) as ([l4 h4] & R4 & I4);
      lazymatch goal with
      | |- context [bindM ?m _ hc] =>
          assert (m hc = Ok (l4, h4)) as R4' by (by destruct price_range as [[lo hi]|]);
          rewrite (bindM_run _ _ _ _ _ R4'); cbv beta; clear R4 R4' I
      end
  end.
  run_stage I4. run_stage I4. run_stage I4. run_stage I4.
  eexists. split; [reflexivity|].
  rewrite !filter_filter in I4.
  erewrite List.filter_ext; [exact I4|].
  intros r. unfold Spec.satisfies, Spec.among, SFgeb, list_of.
  rewrite !eqb_true_r, (Z.leb_antisym 0 min_reviews), !andb_assoc.
  clear. destruct cities as [[|c cs]|], areas as [[|a az]|], room_types as [[|t ts]|],
           price_range as [[lo hi]|]; reflexivity.
Qed.

End FilterFacts.

(** C2.  [filter_data] returns exactly the records of its input that satisfy
    the conjunction of the supplied predicates, in a frame of their own; a
    list predicate that is omitted or empty, a flag that is false and a
    minimum that is zero (or less) constrain nothing, so that with every
    predicate omitted the result has the records of the input; and a supplied
    price range keeps a record whose price is one of its two endpoints. *)
Theorem filter_data_conjunction (h : heap) (df : loc) (rows : frame)
    (cities areas room_types : option (list pystr))
    (price_range : option (num * num)) (min_reviews : Z) (min_rating : num)
    (guest_favourites_only certified_hosts_only : bool) :
  h !! df = Some rows ->
  (exists out h',
     filter_data df cities areas room_types price_range min_reviews min_rating
                 guest_favourites_only certified_hosts_only h = Ok (out, h')
     /\ h' !! out
        = Some (List.filter (Spec.satisfies cities areas room_types price_range
                               min_reviews min_rating guest_favourites_only
                               certified_hosts_only) rows))
  /\ (exists out h',
        filter_data df None None None None 0 (NInt 0) false false h = Ok (out, h')
        /\ h' !! out = Some rows)
  /\ (forall (r : row) (z : Z), z <= 0 ->
        Spec.satisfies (Some []) (Some []) (Some []) None z (NInt 0) false false r = true
        /\ Spec.satisfies None None None None z (NFloat SFzero) false false r = true)
  /\ (forall (r : row) (lo hi : num),
        SFleb (num_float lo) (num_float hi) = true ->
        price_clean r = num_float lo \/ price_clean r = num_float hi ->
        Spec.satisfies None None None (Some (lo, hi)) 0 (NInt 0) false false r = true).
Proof.
  intros Hdf. split; [|split; [|split]].
  - destruct (filter_data_run h df rows cities areas room_types price_range min_reviews
                min_rating guest_favourites_only certified_hosts_only Hdf)
      as ([out h'] & Hrun & _ & _ & Hout).
    by exists out, h'.
  - destruct (filter_data_run h df rows None None None None 0 (NInt 0) false false Hdf)
      as ([out h'] & Hrun & _ & _ & Hout).
    exists out, h'. split; [exact Hrun|].
    simpl in Hout. rewrite Hout. f_equal. apply filter_all.
  - intros r z Hz. unfold Spec.satisfies. simpl.
    apply Z.leb_le in Hz. rewrite Hz. by split.
  - intros r lo hi Hle Hp. unfold Spec.satisfies. simpl.
    rewrite !andb_true_r.
    assert (is_nan (num_float lo) = false) by (by destruct (num_float lo)).
    assert (is_nan (num_float hi) = false).
    { destruct (num_float hi); try done. by rewrite SFleb_nan_r in Hle. }
    destruct Hp as [-> | ->]; rewrite ?Hle, SFleb_refl; done.
Qed.

Lemma filter_data_conjunction_witness :
  List.map id (List.filter (Spec.satisfies (Some [py "Tokyo"; py "Sydney"]) None (Some [])
                              (Some (NInt 0, NInt 1250)) 0 (NFloat SFzero) false false)
                           Reference.scenario_frame)
  = [CInt 1; CInt 3]
  /\ exists out h',
       filter_data 0%nat (Some [py "Tokyo"; py "Sydney"]) None (Some [])
                   (Some (NInt 0, NInt 1250)) 0 (NFloat SFzero) false false
                   [Reference.scenario_frame] = Ok (out, h')
       /\ h' !! out
          = Some (List.filter (Spec.satisfies (Some [py "Tokyo"; py "Sydney"]) None (Some [])
                                 (Some (NInt 0, NInt 1250)) 0 (NFloat SFzero) false false)
                              Reference.scenario_frame).
Proof.
  split; [by vm_compute|].
  assert ([Reference.scenario_frame] !! 0%nat = Some Reference.scenario_frame) as H
    by reflexivity.
  exact (proj1 (filter_data_conjunction [Reference.scenario_frame] 0%nat
                  Reference.scenario_frame (Some [py "Tokyo"; py "Sydney"]) None (Some [])
                  (Some (NInt 0, NInt 1250)) 0 (NFloat SFzero) false false H)).
Defined.

(** C9.  [filter_data] leaves every frame of the heap, its input among them,
    as it was, and returns a frame of its own whose records are an
    order-preserving subsequence of the input: every record of the result is
    a record of the input, none is repeated more often than in the input, and
    the call returns (it does not raise) whatever the predicates, with the
    empty frame when no record satisfies them. *)
Theorem filter_data_frame_effect (h : heap) (df : loc) (rows : frame)
    (cities areas room_types : option (list pystr))
    (price_range : option (num * num)) (min_reviews : Z) (min_rating : num)
    (guest_favourites_only certified_hosts_only : bool) :
  h !! df = Some rows ->
  exists out h' result,
    filter_data df cities areas room_types price_range min_reviews min_rating
                guest_favourites_only certified_hosts_only h = Ok (out, h')
    /\ (forall l f, h !! l = Some f -> h' !! l = Some f)
    /\ h' !! df = Some rows
    /\ h !! out = None
    /\ h' !! out = Some result
    /\ sublist result rows
    /\ (forall r, r ∈ result -> r ∈ rows)
    /\ (NoDup rows -> NoDup result)
    /\ ((forall r, r ∈ rows ->
           Spec.satisfies cities areas room_types price_range min_reviews min_rating
                          guest_favourites_only certified_hosts_only r = false) ->
        result = []).
Proof.
  intros Hdf.
  destruct (filter_data_run h df rows cities areas room_types price_range min_reviews
              min_rating guest_favourites_only certified_hosts_only Hdf)
    as ([out h'] & Hrun & [extra Hx] & Hfresh & Hout).
  simpl in *. subst h'.
  assert (forall l f, h !! l = Some f -> (h ++ extra) !! l = Some f) as Hkeep.
  { intros l f Hl. by apply lookup_app_l_Some. }
  eexists out, (h ++ extra), _. split; [exact Hrun|].
  split; [exact Hkeep|]. split; [by apply Hkeep|].
  split; [by apply lookup_ge_None_2|]. split; [exact Hout|].
  split; [apply filter_sublist|]. split; [|split].
  - intros r Hr. apply list_elem_of_In in Hr. apply List.filter_In in Hr as [Hr _].
    by apply list_elem_of_In.
  - intros Hnd. eapply sublist_NoDup; [exact Hnd | apply filter_sublist].
  - intros Hnone. clear Hrun Hout Hkeep Hdf.
    induction rows as [|r rows IH]; [reflexivity|].
    simpl. rewrite (Hnone r) by apply list_elem_of_here.
    apply IH. intros r' Hr'. apply Hnone. by apply list_elem_of_further.
Qed.

Lemma filter_data_frame_effect_witness :
  exists out h' result,
    filter_data 0%nat (Some [py "Atlantis"]) None None None 0 (NInt 0) false false
                [Reference.scenario_frame] = Ok (out, h')
    /\ (forall l f, [Reference.scenario_frame] !! l = Some f -> h' !! l = Some f)
    /\ h' !! 0%nat = Some Reference.scenario_frame
    /\ [Reference.scenario_frame] !! out = None
    /\ h' !! out = Some result
    /\ sublist result Reference.scenario_frame
    /\ (forall r, r ∈ result -> r ∈ Reference.scenario_frame)
    /\ (NoDup Reference.scenario_frame -> NoDup result)
    /\ ((forall r, r ∈ Reference.scenario_frame ->
           Spec.satisfies (Some [py "Atlantis"]) None None None 0 (NInt 0)
                          false false r = false) ->
        result = []).
Proof.
  assert ([Reference.scenario_frame] !! 0%nat = Some Reference.scenario_frame) as H
    by reflexivity.
  exact (filter_data_frame_effect [Reference.scenario_frame] 0%nat
           Reference.scenario_frame (Some [py "Atlantis"]) None None None 0 (NInt 0)
           false false H).
Defined.

(** C10.  When a price range is supplied, when the minimum rating is greater
    than zero and when the minimum review count is greater than zero, a record
    whose price_clean, respectively consumer_clean, respectively total
    reviewers number is the missing sentinel is not in the result of
    [filter_data]. *)
Theorem filter_data_excludes_missing (h : heap) (df : loc) (rows : frame)
    (cities areas room_types : option (list pystr))
    (price_range : option (num * num)) (min_reviews : Z) (min_rating : num)
    (guest_favourites_only certified_hosts_only : bool) :
  h !! df = Some rows ->
  exists out h' result,
    filter_data df cities areas room_types price_range min_reviews min_rating
                guest_favourites_only certified_hosts_only h = Ok (out, h')
    /\ h' !! out = Some result
    /\ (is_Some price_range -> forall r, price_clean r = nan -> r ∉ result)
    /\ (num_positive min_rating = true ->
        forall r, consumer_clean r = nan -> r ∉ result)
    /\ (0 < min_reviews ->
        forall r, total_reviewers_number r = NFloat nan -> r ∉ result).
Proof.
  intros Hdf.
  destruct (filter_data_run h df rows cities areas room_types price_range min_reviews
              min_rating guest_favourites_only certified_hosts_only Hdf)
    as ([out h'] & Hrun & _ & _ & Hout).
  eexists out, h', _. split; [exact Hrun|]. split; [exact Hout|].
  repeat split.
  - intros [[lo hi] ->] r Hnan Hin.
    apply list_elem_of_In, List.filter_In in Hin as [_ Hs].
    unfold Spec.satisfies in Hs. rewrite Hnan, SFleb_nan_r in Hs.
    rewrite !andb_false_r in Hs. simpl in Hs. discriminate.
  - intros Hpos r Hnan Hin.
    apply list_elem_of_In, List.filter_In in Hin as [_ Hs].
    unfold Spec.satisfies in Hs. rewrite Hpos, Hnan, SFleb_nan_r in Hs.
    simpl in Hs. rewrite !andb_false_r in Hs. simpl in Hs. discriminate.
  - intros Hpos r Hnan Hin.
    apply list_elem_of_In, List.filter_In in Hin as [_ Hs].
    unfold Spec.satisfies in Hs.
    assert ((min_reviews <=? 0) = false) as Hz by (apply Z.leb_gt; lia).
    unfold geb_int, SFgeb in Hs. rewrite Hz, Hnan, SFleb_nan_r in Hs.
    simpl in Hs. rewrite !andb_false_r in Hs. simpl in Hs. discriminate.
Qed.

Lemma filter_data_excludes_missing_witness :
  List.map consumer_clean Reference.scenario_frame
  = [float_of_decimal false 65 (-1); nan; Z2SF 5]
  /\ exists out h' result,
       filter_data 0%nat None None None (Some (NInt 0, NInt 500)) 10
                   (NFloat (Z2SF 1)) false false [Reference.scenario_frame]
       = Ok (out, h')
       /\ h' !! out = Some result
       /\ (is_Some (Some (NInt 0, NInt 500)) ->
           forall r, price_clean r = nan -> r ∉ result)
       /\ (num_positive (NFloat (Z2SF 1)) = true ->
           forall r, consumer_clean r = nan -> r ∉ result)
       /\ (0 < 10 -> forall r, total_reviewers_number r = NFloat nan -> r ∉ result).
Proof.
  split; [by vm_compute|].
  assert ([Reference.scenario_frame] !! 0%nat = Some Reference.scenario_frame) as H
    by reflexivity.
  exact (filter_data_excludes_missing [Reference.scenario_frame] 0%nat
           Reference.scenario_frame None None None (Some (NInt 0, NInt 500)) 10
           (NFloat (Z2SF 1)) false false H).
Defined.

(** * Further properties of the code *)

(** ** Order on strings, sorting, distinct values and groups *)


Section Order.

Lemma str_ltb_irrefl (a : pystr) : str_ltb a a = false.
Proof. induction a as [|x a IH]; [done|]. simpl. by rewrite N.ltb_irrefl. Qed.

Lemma str_ltb_trans (a b c : pystr) :
  str_ltb a b = true -> str_ltb b c = true -> str_ltb a c = true.
Proof.
  revert b c. induction a as [|x a IH]; intros [|y b] [|z c]; simpl; try done.
  destruct (N.ltb_spec x y), (N.ltb_spec y x), (N.ltb_spec y z), (N.ltb_spec z y),
           (N.ltb_spec x z), (N.ltb_spec z x); try done; try lia.
  apply IH.
Qed.

Lemma str_ltb_total (a b : pystr) :
  str_ltb a b = false -> str_ltb b a = false -> a = b.
Proof.
  revert b. induction a as [|x a IH]; intros [|y b]; simpl; try done.
  destruct (N.ltb_spec x y), (N.ltb_spec y x); try done; try lia.
  intros H1 H2. f_equal; [lia | by apply IH].
Qed.

Lemma str_ltb_asym (a b : pystr) : str_ltb a b = true -> str_ltb b a = false.
Proof.
  intros H. destruct (str_ltb b a) eqn:E; [|done].
  pose proof (str_ltb_trans _ _ _ H E) as Hc. by rewrite str_ltb_irrefl in Hc.
Qed.

Lemma str_leb_trans (a b c : pystr) :
  str_ltb b a = false -> str_ltb c b = false -> str_ltb c a = false.
Proof.
  intros H1 H2. destruct (str_ltb c a) eqn:E; [|done].
  destruct (str_ltb a b) eqn:E1.
  - pose proof (str_ltb_trans _ _ _ E E1). congruence.
  - pose proof (str_ltb_total _ _ E1 H1) as ->. congruence.
Qed.

Lemma insert_sorted_perm (x : pystr) (l : list pystr) : insert_sorted x l ≡ₚ x :: l.
Proof.
  induction l as [|y l IH]; simpl; [done|].
  destruct (str_ltb x y); [done|]. rewrite IH. apply Permutation_swap.
Qed.

Lemma sort_strs_perm (l : list pystr) : sort_strs l ≡ₚ l.
Proof.
  induction l as [|x l IH]; simpl; [done|].
  rewrite insert_sorted_perm. by f_equiv.
Qed.

Lemma insert_sorted_ascending (x : pystr) (l : list pystr) :
  Spec.ascending l -> Spec.ascending (insert_sorted x l).
Proof.
  unfold Spec.ascending. induction 1 as [|y l Hs IH Hy]; simpl.
  - repeat constructor.
  - destruct (str_ltb x y) eqn:E.
    + constructor; [by constructor|].
      constructor; [by apply str_ltb_asym|].
      eapply Forall_impl; [exact Hy|]. simpl. intros z Hz.
      eapply str_leb_trans; [|exact Hz]. by apply str_ltb_asym.
    + constructor; [exact IH|].
      rewrite insert_sorted_perm. by constructor.
Qed.

Lemma sort_strs_ascending (l : list pystr) : Spec.ascending (sort_strs l).
Proof.
  induction l as [|x l IH]; simpl; [constructor|]. by apply insert_sorted_ascending.
Qed.



Lemma ascending_NoDup_strict (l : list pystr) :
  Spec.ascending l -> NoDup l -> Spec.strictly_ascending l.
Proof.
  unfold Spec.ascending, Spec.strictly_ascending. induction 1 as [|x l Hs IH Hx]; intros Hnd.
  - constructor.
  - apply NoDup_cons in Hnd as [Hnin Hnd]. constructor; [by apply IH|].
    apply Forall_forall. intros y Hy.
    rewrite Forall_forall in Hx. specialize (Hx y Hy).
    destruct (str_ltb x y) eqn:E; [done|].
    pose proof (str_ltb_total _ _ E Hx) as ->. done.
Qed.

Lemma strictly_ascending_NoDup (l : list pystr) : Spec.strictly_ascending l -> NoDup l.
Proof.
  induction 1 as [|x l Hs IH Hx]; constructor; [|exact IH].
  intros Hin. rewrite Forall_forall in Hx. specialize (Hx x Hin).
  by rewrite str_ltb_irrefl in Hx.
Qed.

End Order.

Section Unique.

Context {A : Type} (eqb : A -> A -> bool).
Hypothesis eqb_eq : forall x y, eqb x y = true <-> x = y.

Lemma existsb_eqb (x : A) (l : list A) : existsb (eqb x) l = true <-> x ∈ l.
Proof.
  rewrite existsb_exists. split.
  - intros (y & Hy & He). apply eqb_eq in He as ->. by apply list_elem_of_In.
  - intros Hx. exists x. split; [by apply list_elem_of_In | by apply eqb_eq].
Qed.

Lemma elem_of_unique_aux (seen l : list A) (x : A) :
  x ∈ unique_aux eqb seen l <-> x ∈ l /\ x ∉ seen.
Proof.
  revert seen. induction l as [|y l IH]; intros seen; simpl.
  - split; [by intros ?%elem_of_nil | by intros [?%elem_of_nil _]].
  - destruct (existsb (eqb y) seen) eqn:E.
    + apply existsb_eqb in E. rewrite IH, elem_of_cons.
      split; [tauto|]. intros [[->|Hx] Hn]; [done|tauto].
    + assert (y ∉ seen) as Hy by (rewrite <- existsb_eqb; congruence).
      rewrite !elem_of_cons, IH, not_elem_of_cons.
      split.
      * intros [->|[Hx [_ Hn]]]; tauto.
      * intros [Hx Hn]. destruct (eqb x y) eqn:Exy.
        -- left. by apply eqb_eq.
        -- right. assert (x <> y) by (rewrite <- eqb_eq; congruence). tauto.
Qed.

Lemma NoDup_unique_aux (seen l : list A) : NoDup (unique_aux eqb seen l).
Proof.
  revert seen. induction l as [|y l IH]; intros seen; simpl; [constructor|].
  destruct (existsb (eqb y) seen); [apply IH|].
  constructor; [|apply IH].
  rewrite elem_of_unique_aux. intros [_ Hn]. apply Hn. by left.
Qed.

End Unique.

Section UniqueText.

Lemma pystr_eqb_eq (x y : pystr) : pystr_eqb x y = true <-> x = y.
Proof. unfold pystr_eqb. apply bool_decide_eq_true. Qed.

Lemma text_eqb_eq (x y : text) : text_eqb x y = true <-> x = y.
Proof. unfold text_eqb. apply bool_decide_eq_true. Qed.

Lemma elem_of_unique (l : list text) (x : text) : x ∈ unique l <-> x ∈ l.
Proof.
  unfold unique. rewrite (elem_of_unique_aux _ text_eqb_eq).
  split; [tauto|]. intros H. split; [done|]. apply not_elem_of_nil.
Qed.

Lemma elem_of_unique_str (l : list pystr) (x : pystr) : x ∈ unique_str l <-> x ∈ l.
Proof.
  unfold unique_str. rewrite (elem_of_unique_aux _ pystr_eqb_eq).
  split; [tauto|]. intros H. split; [done|]. apply not_elem_of_nil.
Qed.

Lemma elem_of_present {A : Type} (l : list (option A)) (x : A) :
  x ∈ present l <-> Some x ∈ l.
Proof.
  unfold present. rewrite list_elem_of_omap. split.
  - by intros (y & Hy & ->).
  - intros H. by exists (Some x).
Qed.

(** The keys of [groupby]: the distinct present keys, in increasing order. *)
Lemma groupby_keys {R : Type} (key : R -> text) (df : list R) :
  List.map fst (groupby key df) = sort_strs (unique_str (present (List.map key df))).
Proof.
  unfold groupby. rewrite List.map_map. simpl. apply List.map_id.
Qed.

Lemma group_keys_spec {R : Type} (key : R -> text) (df : list R) (k : pystr) :
  k ∈ sort_strs (unique_str (present (List.map key df)))
  <-> exists r, r ∈ df /\ key r = Some k.
Proof.
  rewrite sort_strs_perm, elem_of_unique_str, elem_of_present, list_elem_of_In, in_map_iff.
  split; intros (r & H1 & H2); exists r; by rewrite list_elem_of_In in *.
Qed.

End UniqueText.

Section Groups.

Context {R : Type} (key : R -> text).

Lemma groupby_strict (df : list R) :
  Spec.strictly_ascending (List.map fst (groupby key df)).
Proof.
  rewrite groupby_keys. apply ascending_NoDup_strict; [apply sort_strs_ascending|].
  rewrite sort_strs_perm. unfold unique_str. apply (NoDup_unique_aux _ pystr_eqb_eq).
Qed.

Lemma groupby_spec (df : list R) (k : pystr) (g : list R) :
  (k, g) ∈ groupby key df
  <-> (exists r, r ∈ df /\ key r = Some k)
      /\ g = List.filter (fun r => text_eqb (key r) (Some k)) df.
Proof.
  unfold groupby. rewrite list_elem_of_In, in_map_iff. split.
  - intros (k' & [= <- <-] & Hk). split; [|done].
    by apply group_keys_spec, list_elem_of_In.
  - intros [Hk ->]. exists k. split; [done|].
    by apply list_elem_of_In, group_keys_spec.
Qed.

Lemma indicator_sum (ks : list pystr) (x : text) (b : bool) :
  NoDup ks ->
  list_sum (List.map (fun k => if text_eqb x (Some k) && b then 1 else 0)%nat ks)
  = (if b && Spec.in_keys ks x then 1 else 0)%nat.
Proof.
  induction 1 as [|k ks Hk Hnd IH]; simpl.
  - destruct x; simpl; by rewrite ?andb_false_r.
  - rewrite IH. destruct b; simpl; [|by rewrite andb_false_r].
    rewrite andb_true_r. unfold text_eqb, Spec.in_keys. destruct x as [k0|]; simpl; [|done].
    repeat case_bool_decide; simplify_eq; simpl; try done.
    all: exfalso;
      repeat match goal with
             | H : _ ∉ _ :: _ |- _ => apply not_elem_of_cons in H as [? ?]
             | H : _ ∈ _ :: _ |- _ => apply elem_of_cons in H as [?|?]
             end; first [done | congruence].
Qed.

Lemma list_sum_add {A : Type} (f g : A -> nat) (l : list A) :
  list_sum (List.map (fun x => f x + g x)%nat l)
  = (list_sum (List.map f l) + list_sum (List.map g l))%nat.
Proof. induction l as [|x l IH]; simpl; [done|]. rewrite IH. lia. Qed.

(** Over distinct keys, the groups split the rows that carry one of the keys. *)
Lemma group_sizes_sum (q : R -> bool) (ks : list pystr) (df : list R) :
  NoDup ks ->
  list_sum (List.map (fun k => length (List.filter q
                                 (List.filter (fun r => text_eqb (key r) (Some k)) df))) ks)
  = length (List.filter (fun r => q r && Spec.in_keys ks (key r)) df).
Proof.
  intros Hnd. induction df as [|r df IH]; simpl.
  - induction ks as [|k ks IHk]; simpl; [done|]. apply NoDup_cons in Hnd as [_ Hnd]. by rewrite IHk.
  - erewrite (List.map_ext _ (fun k => (if text_eqb (key r) (Some k) && q r then 1 else 0)
        + length (List.filter q (List.filter (fun r => text_eqb (key r) (Some k)) df)))%nat).
    + rewrite list_sum_add, IH, indicator_sum by done.
      by destruct (q r && Spec.in_keys ks (key r)).
    + intros k. destruct (text_eqb (key r) (Some k)); simpl; [|done].
      by destruct (q r).
Qed.

Lemma in_group_keys (df : list R) (r : R) :
  r ∈ df ->
  Spec.in_keys (sort_strs (unique_str (present (List.map key df)))) (key r)
  = bool_decide (is_Some (key r)).
Proof.
  intros Hr. unfold Spec.in_keys. destruct (key r) as [k|] eqn:E.
  - rewrite !bool_decide_eq_true_2; [done| by eexists |].
    apply group_keys_spec. by exists r.
  - rewrite bool_decide_eq_false_2; [done|]. by intros [? ?].
Qed.

End Groups.

(** ** Floats: integers below 2^53, order *)


Section Exact.

Lemma iter_xO_value (p d : positive) :
  Z.pos (Pos.iter xO p d) = Z.pos p * 2 ^ Z.pos d.
Proof.
  induction d using Pos.peano_ind.
  - simpl. lia.
  - rewrite Pos.iter_succ, Pos2Z.inj_succ, Z.pow_succ_r by lia.
    rewrite Pos2Z.inj_xO, IHd. lia.
Qed.

(** A mantissa of 53 bits at an exponent in range is left as it is. *)
Lemma binary_round_aux_exact (sx : bool) (m : positive) (e : Z) :
  Z.pos (digits2_pos m) = 53 -> -1074 <= e <= 971 ->
  binary_round_aux prec emax sx (Z.pos m) e loc_Exact = S754_finite sx m e.
Proof.
  intros Hd He. unfold binary_round_aux.
  assert (forall l, shr_fexp prec emax (Z.pos m) e l = (shr_record_of_loc (Z.pos m) l, e)) as Hs.
  { intros l. unfold shr_fexp. simpl Zdigits2. rewrite Hd.
    replace (fexp prec emax (53 + e) - e) with 0; [reflexivity|].
    unfold fexp, SpecFloat.emin, emax, prec. lia. }
  rewrite Hs. simpl. rewrite Hs. simpl.
  destruct (e <=? emax - prec) eqn:E; [reflexivity|].
  apply Z.leb_gt in E. unfold emax, prec in E. lia.
Qed.

(** An integer below 2^53 is a float: its mantissa is the integer shifted to
    53 bits. *)
Lemma binary_round_exact (sx : bool) (p : positive) :
  Z.pos p < 2 ^ 53 ->
  exists m e,
    binary_round prec emax sx p 0 = S754_finite sx m e
    /\ -52 <= e <= 0
    /\ Z.pos m = Z.pos p * 2 ^ (- e)
    /\ Z.pos (digits2_pos m) = 53.
Proof.
  intros Hp. pose proof (digits2_pos_le p 53 Hp) as Hd.
  unfold binary_round, shl_align.
  assert (fexp prec emax (Z.pos (digits2_pos p) + 0) - 0 = Z.pos (digits2_pos p) - 53) as ->.
  { unfold fexp, SpecFloat.emin, emax, prec. lia. }
  destruct (Z.pos (digits2_pos p) - 53) as [|d|d] eqn:Ed; [|lia|].
  - exists p, 0. rewrite binary_round_aux_exact by lia.
    repeat split; try lia. 
  - exists (Pos.iter xO p d), (fexp prec emax (Z.pos (digits2_pos p) + 0)).
    assert (fexp prec emax (Z.pos (digits2_pos p) + 0) = Z.neg d) as ->.
    { unfold fexp, SpecFloat.emin, emax, prec. lia. }
    assert (Z.pos (digits2_pos (Pos.iter xO p d)) = 53) as H53.
    { rewrite digits2_pos_iter_xO. lia. }
    rewrite binary_round_aux_exact by lia.
    repeat split; try lia.
    rewrite iter_xO_value. reflexivity.
Qed.

Lemma int_of_float_exact (sx : bool) (m : positive) (e n : Z) :
  e <= 0 -> Z.pos m = n * 2 ^ (- e) ->
  int_of_float (S754_finite sx m e) = Ok (if sx then - n else n).
Proof.
  intros He Hm. unfold int_of_float.
  assert (0 < 2 ^ (- e)) by (apply Z.pow_pos_nonneg; lia).
  destruct (0 <=? e) eqn:E.
  - apply Z.leb_le in E. assert (e = 0) as -> by lia.
    change (- 0) with 0 in Hm. rewrite Z.pow_0_r, Z.mul_1_r in Hm.
    by rewrite Z.pow_0_r, Z.mul_1_r, Hm.
  - rewrite Hm, Z.div_mul by lia. reflexivity.
Qed.

(** [int(float(n)) = n] for an integer below 2^53 in absolute value. *)
Lemma int_of_float_Z2SF (n : Z) :
  - 2 ^ 53 < n < 2 ^ 53 -> int_of_float (Z2SF n) = Ok n.
Proof.
  intros Hn. unfold Z2SF, binary_normalize. destruct n as [|p|p]; [reflexivity| |].
  - destruct (binary_round_exact false p ltac:(lia)) as (m & e & -> & He & Hm & _).
    by rewrite (int_of_float_exact false m e (Z.pos p)) by lia.
  - destruct (binary_round_exact true p ltac:(lia)) as (m & e & -> & He & Hm & _).
    by rewrite (int_of_float_exact true m e (Z.pos p)) by lia.
Qed.

Lemma digits2_pos_53 (m : positive) :
  Z.pos (digits2_pos m) = 53 -> 2 ^ 52 <= Z.pos m < 2 ^ 53.
Proof.
  intros H. pose proof (digits2_pos_gt m) as Hgt. rewrite H in Hgt.
  split; [|exact Hgt].
  pose proof (Pos.size_le m) as Hle. rewrite <- digits2_pos_size in Hle.
  assert (2 ^ Z.pos (digits2_pos m) <= 2 * Z.pos m).
  { change 2 with (Z.pos 2) at 1. rewrite <- Pos2Z.inj_pow. exact Hle. }
  rewrite H in *. lia.
Qed.

(** On positive integers below 2^53 the order of the floats is the order of
    the integers. *)
Lemma Z2SF_ltb (a b : positive) :
  Z.pos a < 2 ^ 53 -> Z.pos b < 2 ^ 53 ->
  SFltb (Z2SF (Z.pos a)) (Z2SF (Z.pos b)) = (Z.pos a <? Z.pos b).
Proof.
  intros Ha Hb. unfold Z2SF, binary_normalize.
  destruct (binary_round_exact false a Ha) as (ma & ea & -> & Hea & Hma & Hda).
  destruct (binary_round_exact false b Hb) as (mb & eb & -> & Heb & Hmb & Hdb).
  apply digits2_pos_53 in Hda, Hdb.
  unfold SFltb, SFcompare.
  assert (0 < 2 ^ (- ea)) by (apply Z.pow_pos_nonneg; lia).
  assert (0 < 2 ^ (- eb)) by (apply Z.pow_pos_nonneg; lia).
  destruct (Z.compare_spec ea eb) as [->|Hlt|Hgt].
  - change (Pos.compare_cont Eq ma mb) with (Pos.compare ma mb).
    destruct (Pos.compare_spec ma mb) as [->|Hm|Hm]; symmetry.
    + apply Z.ltb_ge. nia.
    + apply Z.ltb_lt. nia.
    + apply Z.ltb_ge. nia.
  - symmetry. apply Z.ltb_lt.
    assert (2 ^ (- ea) = 2 ^ (eb - ea) * 2 ^ (- eb)) as Hx.
    { rewrite <- Z.pow_add_r by lia. f_equal. lia. }
    assert (2 <= 2 ^ (eb - ea)).
    { change 2 with (2 ^ 1) at 1. apply Z.pow_le_mono_r; lia. }
    rewrite Hx in Hma. nia.
  - symmetry. apply Z.ltb_ge.
    assert (2 ^ (- eb) = 2 ^ (ea - eb) * 2 ^ (- ea)) as Hx.
    { rewrite <- Z.pow_add_r by lia. f_equal. lia. }
    assert (2 <= 2 ^ (ea - eb)).
    { change 2 with (2 ^ 1) at 1. apply Z.pow_le_mono_r; lia. }
    rewrite Hx in Hmb. nia.
Qed.

End Exact.


Section FloatOrder.

Ltac order_cases :=
  repeat match goal with
         | |- context [Z.compare ?a ?b] => destruct (Z.compare_spec a b)
         | H : context [Z.compare ?a ?b] |- _ => destruct (Z.compare_spec a b)
         | |- context [Pos.compare_cont Eq ?a ?b] =>
             change (Pos.compare_cont Eq a b) with (Pos.compare a b);
             destruct (Pos.compare_spec a b)
         | H : context [Pos.compare_cont Eq ?a ?b] |- _ =>
             change (Pos.compare_cont Eq a b) with (Pos.compare a b) in H;
             destruct (Pos.compare_spec a b)
         end; simpl in *; try done; try lia.

Lemma SFltb_leb_trans (x y z : pyfloat) :
  SFltb x y = true -> SFleb y z = true -> SFleb x z = true.
Proof.
  unfold SFltb, SFleb.
  destruct x as [sx|sx| |sx mx ex], y as [sy|sy| |sy my ey], z as [sz|sz| |sz mz ez];
    simpl; try done;
    try (destruct sx); try (destruct sy); try (destruct sz); simpl; try done;
    intros H1 H2; order_cases.
Qed.

Lemma SFleb_ltb_trans (x y z : pyfloat) :
  SFleb x y = true -> SFltb y z = true -> SFleb x z = true.
Proof.
  unfold SFltb, SFleb.
  destruct x as [sx|sx| |sx mx ex], y as [sy|sy| |sy my ey], z as [sz|sz| |sz mz ez];
    simpl; try done;
    try (destruct sx); try (destruct sy); try (destruct sz); simpl; try done;
    intros H1 H2; order_cases.
Qed.

Lemma SFltb_total (x y : pyfloat) :
  is_nan x = false -> is_nan y = false -> SFltb x y = false -> SFleb y x = true.
Proof.
  unfold SFltb, SFleb.
  destruct x as [sx|sx| |sx mx ex], y as [sy|sy| |sy my ey];
    simpl; try done;
    try (destruct sx); try (destruct sy); simpl; try done;
    intros _ _ H1; order_cases.
Qed.

Lemma SFleb_trans (x y z : pyfloat) :
  SFleb x y = true -> SFleb y z = true -> SFleb x z = true.
Proof.
  unfold SFleb.
  destruct x as [sx|sx| |sx mx ex], y as [sy|sy| |sy my ey], z as [sz|sz| |sz mz ez];
    simpl; try done;
    try (destruct sx); try (destruct sy); try (destruct sz); simpl; try done;
    intros H1 H2; order_cases.
Qed.

Lemma SFltb_leb (x y : pyfloat) : SFltb x y = true -> SFleb x y = true.
Proof. unfold SFltb, SFleb. by destruct (SFcompare x y) as [[]|]. Qed.

Lemma SFltb_not_nan (x y : pyfloat) :
  SFltb x y = true -> is_nan x = false /\ is_nan y = false.
Proof. by destruct x, y. Qed.

Lemma SFltb_trans (x y z : pyfloat) :
  SFltb x y = true -> SFltb y z = true -> SFltb x z = true.
Proof.
  unfold SFltb.
  destruct x as [sx|sx| |sx mx ex], y as [sy|sy| |sy my ey], z as [sz|sz| |sz mz ez];
    simpl; try done;
    try (destruct sx); try (destruct sy); try (destruct sz); simpl; try done;
    intros H1 H2; order_cases.
Qed.

Lemma SFleb_ltb_strict (x y z : pyfloat) :
  SFleb x y = true -> SFltb y z = true -> SFltb x z = true.
Proof.
  unfold SFltb, SFleb.
  destruct x as [sx|sx| |sx mx ex], y as [sy|sy| |sy my ey], z as [sz|sz| |sz mz ez];
    simpl; try done;
    try (destruct sx); try (destruct sy); try (destruct sz); simpl; try done;
    intros H1 H2; order_cases.
Qed.

Lemma SFltb_irrefl (x : pyfloat) : SFltb x x = false.
Proof.
  unfold SFltb. destruct x as [[]|[]| |[] m e]; simpl; try done;
    by rewrite Z.compare_refl, Pos.compare_cont_refl.
Qed.

End FloatOrder.

(** ** The host-since cleaner *)

Section HostSince.

Lemma py_float_raises (v : cell) (e : exn) :
  py_float v = Raise e -> e = TypeError \/ e = OverflowError \/ e = ValueError.
Proof.
  destruct v as [|b|z|f|s]; simpl; try discriminate.
  - intros [= <-]. by left.
  - unfold float_of_int. destruct (Z2SF z); try discriminate. intros [= <-]. tauto.
  - intros H%float_of_str_raises. tauto.
Qed.

End HostSince.

(** X1.  [clean_host_since] raises exactly when the value is present and
    [float] of it overflows or is infinite, and what it raises then is
    [OverflowError], which its [except (ValueError, TypeError)] does not
    catch. *)
Theorem clean_host_since_raises (value : cell) (e : exn) :
  clean_host_since value = Raise e <->
  e = OverflowError
  /\ isna value = false
  /\ (py_float value = Raise OverflowError
      \/ exists s, py_float value = Ok (S754_infinity s)).
Proof.
  unfold clean_host_since.
  destruct (isna value || eq_empty_str value) eqn:E.
  - split; [by intros [=]|]. intros (_ & Hna & H). rewrite Hna in E.
    destruct value as [| | | |[|c s]]; simpl in E; try discriminate E.
    destruct H as [H|[s H]]; vm_compute in H; discriminate H.
  - apply orb_false_elim in E as [Hna _].
    destruct (py_float value) as [f|e'] eqn:Hf; simpl.
    + destruct f as [s|s| |s m x]; simpl; split;
        try (intros [=]; subst; by eauto 6);
        intros [-> [_ [H|[s' H]]]]; first [discriminate H | reflexivity].
    + destruct (py_float_raises _ _ Hf) as [-> | [-> | ->]]; simpl; split;
        try (intros [=]; subst; by eauto 6);
        intros [-> [_ [H|[s' H]]]]; first [discriminate H | reflexivity].
Qed.

Lemma clean_host_since_raises_witness :
  clean_host_since (CStr (py "1e999")) = Raise OverflowError.
Proof.
  apply (proj2 (clean_host_since_raises (CStr (py "1e999")) OverflowError)).
  split; [reflexivity|]. split; [reflexivity|].
  right. exists false. by vm_compute.
Defined.

(** X2.  [clean_host_since] keeps a whole day count below 2^53 in absolute
    value as it is, given as an integer or as the float of that integer
    (zero included: it is not taken for a missing value). *)
Theorem clean_host_since_keeps_day_counts (n : Z) :
  - 2 ^ 53 < n < 2 ^ 53 ->
  clean_host_since (CInt n) = Ok (Some n)
  /\ clean_host_since (CFloat (Z2SF n)) = Ok (Some n).
Proof.
  intros Hn. pose proof (int_of_float_Z2SF n Hn) as Hi.
  unfold clean_host_since. simpl.
  rewrite (float_of_int_loaded n) by lia. simpl. rewrite Hi. simpl.
  split; [reflexivity|].
  destruct (Z2SF n) eqn:E; try discriminate; simpl in *; by rewrite ?Hi.
Qed.

Lemma clean_host_since_keeps_day_counts_witness :
  clean_host_since (CInt 3650) = Ok (Some 3650)
  /\ clean_host_since (CFloat (Z2SF 3650)) = Ok (Some 3650).
Proof. apply clean_host_since_keeps_day_counts. lia. Defined.


(** ** The statistics of a loaded frame *)

Section Statistics.

Variable read_csv : pystr -> res (list raw_row).
Variable parse_numeric : pystr -> pyfloat.
Variable Series_mean : list pyfloat -> pyfloat.

Lemma calculate_statistics_ok (n : nat) (df : frame) (stats : Stats.t) :
  calculate_statistics Series_mean n df = Ok stats ->
  sorted (unique (List.map city df)) = Ok (Stats.unique_cities stats)
  /\ sorted (unique (List.map area df)) = Ok (Stats.unique_areas stats)
  /\ Stats.total_listings stats = Z.of_nat (length df)
  /\ Stats.original_count stats = Z.of_nat n
  /\ Stats.cities stats = nunique (List.map city df)
  /\ Stats.areas stats = nunique (List.map area df)
  /\ Stats.price_range stats = (min_float (List.map price_clean df),
                                max_float (List.map price_clean df)).
Proof.
  unfold calculate_statistics. intros H.
  apply bind_ok in H as (uc & Huc & H).
  apply bind_ok in H as (ua & Hua & H).
  apply bind_ok in H as (ur & Hur & H).
  injection H as <-. simpl. by repeat split.
Qed.

Lemma existsb_text_present (s : pystr) (seen : list text) :
  existsb (text_eqb (Some s)) seen = existsb (pystr_eqb s) (present seen).
Proof.
  induction seen as [|[t|] seen IH]; simpl; [done| |].
  - rewrite IH. f_equal. unfold text_eqb, pystr_eqb.
    apply bool_decide_ext. split; congruence.
  - by rewrite IH.
Qed.

Lemma present_unique_aux (seen l : list text) :
  present (unique_aux text_eqb seen l) = unique_aux pystr_eqb (present seen) (present l).
Proof.
  revert seen. induction l as [|[s|] l IH]; intros seen; simpl; [done| |].
  - rewrite existsb_text_present.
    destruct (existsb (pystr_eqb s) (present seen)); [apply IH|].
    simpl. f_equal. apply (IH (Some s :: seen)).
  - destruct (existsb (text_eqb None) seen); [apply IH|].
    simpl. apply (IH (None :: seen)).
Qed.

Lemma present_unique (l : list text) : present (unique l) = unique_str (present l).
Proof. apply present_unique_aux. Qed.

Lemma sorted_ok (l u : list text) :
  sorted l = Ok u ->
  (Forall is_Some l /\ u = List.map Some (sort_strs (present l)))
  \/ (l <> [] /\ Forall (eq None) l /\ u = l).
Proof.
  unfold sorted.
  destruct (forallb (fun x => bool_decide (is_Some x)) l) eqn:E1.
  - intros [= <-]. left. split; [|done].
    apply Forall_forall. intros x Hx%list_elem_of_In.
    rewrite forallb_forall in E1. specialize (E1 x Hx). by apply bool_decide_eq_true in E1.
  - destruct (forallb (fun x => bool_decide (x = None)) l) eqn:E2; [|discriminate].
    intros [= <-]. right. split; [by intros ->|]. split; [|done].
    apply Forall_forall. intros x Hx%list_elem_of_In.
    rewrite forallb_forall in E2. specialize (E2 x Hx). by apply bool_decide_eq_true in E2.
Qed.

(** What the sorted distinct values of a text column are. *)
Lemma column_summary (col u : list text) :
  sorted (unique col) = Ok u ->
  exists ks,
    Spec.strictly_ascending ks
    /\ (forall k, k ∈ ks <-> Some k ∈ col)
    /\ nunique col = Z.of_nat (length ks)
    /\ (u = List.map Some ks \/ (ks = [] /\ col <> [] /\ u = [None])).
Proof.
  intros H. exists (sort_strs (unique_str (present col))).
  assert (NoDup (unique_str (present col))) as Hnd
    by apply (NoDup_unique_aux _ pystr_eqb_eq).
  split; [|split; [|split]].
  - apply ascending_NoDup_strict; [apply sort_strs_ascending|].
    by rewrite sort_strs_perm.
  - intros k. by rewrite sort_strs_perm, elem_of_unique_str, elem_of_present.
  - unfold nunique. by rewrite sort_strs_perm.
  - apply sorted_ok in H as [[_ ->]|(Hne & Hall & ->)].
    + left. by rewrite present_unique.
    + right.
      assert (Forall (eq None) col) as Hcol.
      { apply Forall_forall. intros x Hx. rewrite Forall_forall in Hall.
        apply Hall. by apply elem_of_unique. }
      assert (present col = []) as Hp.
      { clear -Hcol. induction Hcol as [|x l <- _ IH]; [done|]. exact IH. }
      rewrite Hp. split; [done|]. split.
      { intros ->. by apply Hne. }
      clear -Hcol Hne. destruct Hcol as [|x l <- Hl]; [done|].
      unfold unique. simpl. f_equal.
      clear Hne. induction Hl as [|y l <- _ IH]; [done|]. exact IH.
Qed.

End Statistics.

Section LoadedFrame.

Variable read_csv : pystr -> res (list raw_row).
Variable parse_numeric : pystr -> pyfloat.
Variable Series_mean : list pyfloat -> pyfloat.

Local Abbreviation load := (load_and_clean_data read_csv parse_numeric Series_mean).

Lemma sorted_raises (l : list text) (e : exn) : sorted l = Raise e -> e = TypeError.
Proof.
  unfold sorted.
  repeat match goal with |- context [forallb ?p l] => destruct (forallb p l); [by intros [=]|] end.
  by intros [= <-].
Qed.

Lemma cleaned_columns (file raw : list raw_row) (derived : frame) :
  Forall2 (fun x r => derive_row parse_numeric file x = Ok r) raw derived ->
  List.map city (List.map fill_missing derived) = List.map raw_city raw
  /\ List.map area (List.map fill_missing derived)
     = List.map (fun x => fillna (map_city_area (raw_city x)) (raw_area x)) raw.
Proof.
  induction 1 as [|x r raw derived Hr _ [IH1 IH2]]; [done|].
  apply derive_row_ok in Hr as (_ & _ & _ & _ & _ & Hc & Ha & _).
  simpl. by rewrite IH1, IH2, Hc, Ha.
Qed.

Lemma elem_of_map_column {A : Type} (f : A -> text) (l : list A) (v : text) :
  v ∈ List.map f l <-> exists x, x ∈ l /\ f x = v.
Proof.
  rewrite list_elem_of_In, in_map_iff.
  split; intros (x & H1 & H2); exists x; by rewrite list_elem_of_In in *.
Qed.

(** A text column with a missing and a present entry cannot be sorted. *)
Lemma sorted_mixed (col : list text) :
  None ∈ col -> (exists k, Some k ∈ col) -> sorted (unique col) = Raise TypeError.
Proof.
  intros Hn [k Hk]. destruct (sorted (unique col)) as [u|e] eqn:E.
  - exfalso. apply elem_of_unique in Hn, Hk.
    apply sorted_ok in E as [[Hall _]|(_ & Hall & _)]; rewrite Forall_forall in Hall.
    + by destruct (Hall None Hn).
    + by specialize (Hall (Some k) Hk).
  - by apply sorted_raises in E as ->.
Qed.

(** X3.  Cleaning keeps the number of rows: the cleaned frame has as many
    rows as the file, and 'total_listings' and 'original_count' of the
    statistics are both that number. *)
Theorem load_keeps_row_count (path : pystr) (df : frame) (stats : Stats.t) :
  load path = Ok (df, stats) ->
  exists raw,
    read_csv path = Ok raw
    /\ length df = length raw
    /\ Stats.total_listings stats = Z.of_nat (length raw)
    /\ Stats.original_count stats = Stats.total_listings stats.
Proof.
  intros H. apply load_ok in H as (raw & derived & Hraw & Hd & -> & Hst).
  apply calculate_statistics_ok in Hst as (_ & _ & Htl & Hoc & _).
  apply Forall2_length in Hd.
  exists raw. rewrite Htl, Hoc, length_map. split; [exact Hraw|].
  split; [lia|]. split; f_equal; lia.
Qed.

(** X4.  A file in which the city is missing in one row and present in
    another cannot be loaded: sorting the distinct cities for the statistics
    compares NaN with a string.  The load raises, and what it raises is
    [TypeError] when every row cleans without error.  The same holds for
    the corrected area column. *)
Theorem load_rejects_partly_missing_text (path : pystr) (raw : list raw_row) :
  read_csv path = Ok raw ->
  ((exists x, x ∈ raw /\ raw_city x = None)
   /\ (exists x, x ∈ raw /\ is_Some (raw_city x)))
  \/ ((exists x, x ∈ raw /\ fillna (map_city_area (raw_city x)) (raw_area x) = None)
      /\ (exists x, x ∈ raw /\ is_Some (fillna (map_city_area (raw_city x)) (raw_area x)))) ->
  exists e,
    load path = Raise e
    /\ (forall derived, mapM (derive_row parse_numeric raw) raw = Ok derived ->
        e = TypeError).
Proof.
  intros Hraw Hmix. unfold load_and_clean_data. rewrite Hraw. simpl.
  destruct (mapM (derive_row parse_numeric raw) raw) as [derived|e] eqn:Hd; simpl.
  2: { exists e. split; [done|]. discriminate. }
  exists TypeError. split; [|done].
  apply mapM_ok, cleaned_columns in Hd as [Hc Ha].
  unfold calculate_statistics. rewrite Hc, Ha.
  destruct Hmix as [[(x & Hx & Hn) (y & Hy & [k Hk])] | [(x & Hx & Hn) (y & Hy & [k Hk])]].
  - rewrite sorted_mixed; [done| |exists k]; apply elem_of_map_column; eauto.
  - destruct (sorted (unique (List.map raw_city raw))) as [u|e] eqn:E; simpl.
    + rewrite sorted_mixed; [done| |exists k]; apply elem_of_map_column; eauto.
    + by apply sorted_raises in E as ->.
Qed.

(** X5.  In the statistics of a loaded frame 'unique_cities' lists the
    cities of the cleaned frame in strictly increasing order, each once, and
    'cities' is their number; when the frame has rows and no row has a city
    the list is the single missing entry and 'cities' is 0.  The same holds
    for 'unique_areas' and 'areas' on the corrected areas. *)
Theorem unique_values_of_loaded_frame (path : pystr) (df : frame) (stats : Stats.t) :
  load path = Ok (df, stats) ->
  (exists ks,
     Spec.strictly_ascending ks
     /\ (forall k, k ∈ ks <-> exists r, r ∈ df /\ city r = Some k)
     /\ Stats.cities stats = Z.of_nat (length ks)
     /\ (Stats.unique_cities stats = List.map Some ks
         \/ (ks = [] /\ df <> [] /\ Stats.unique_cities stats = [None])))
  /\ (exists ks,
        Spec.strictly_ascending ks
        /\ (forall k, k ∈ ks <-> exists r, r ∈ df /\ area r = Some k)
        /\ Stats.areas stats = Z.of_nat (length ks)
        /\ (Stats.unique_areas stats = List.map Some ks
            \/ (ks = [] /\ df <> [] /\ Stats.unique_areas stats = [None]))).
Proof.
  intros H. apply load_ok in H as (raw & derived & _ & _ & _ & Hst).
  apply calculate_statistics_ok in Hst as (Huc & Hua & _ & _ & Hc & Ha & _).
  split.
  - destruct (column_summary _ _ Huc) as (ks & Hs & Hk & Hn & Hu).
    exists ks. split; [exact Hs|]. split.
    { intros k. by rewrite Hk, elem_of_map_column. }
    split; [by rewrite Hc|].
    destruct Hu as [Hu|(-> & Hne & Hu)]; [by left|right].
    split; [done|]. split; [|done]. intros ->. by apply Hne.
  - destruct (column_summary _ _ Hua) as (ks & Hs & Hk & Hn & Hu).
    exists ks. split; [exact Hs|]. split.
    { intros k. by rewrite Hk, elem_of_map_column. }
    split; [by rewrite Ha|].
    destruct Hu as [Hu|(-> & Hne & Hu)]; [by left|right].
    split; [done|]. split; [|done]. intros ->. by apply Hne.
Qed.

End LoadedFrame.

(** ** Minimum and maximum of a float column *)

Section MinMax.

Lemma min_fold_spec (l : list pyfloat) (acc : pyfloat) :
  is_nan acc = false ->
  is_nan (fold_left min_step l acc) = false
  /\ (fold_left min_step l acc = acc \/ fold_left min_step l acc ∈ l)
  /\ SFleb (fold_left min_step l acc) acc = true
  /\ (forall x, x ∈ l -> is_nan x = false -> SFleb (fold_left min_step l acc) x = true).
Proof.
  revert acc. induction l as [|y l IH]; intros acc Hacc; simpl.
  - split; [done|]. split; [by left|]. split; [by apply SFleb_refl|].
    by intros x ?%elem_of_nil.
  - unfold min_step at 2 4 6 8 10. destruct (is_nan y) eqn:Hy.
    + destruct (IH acc Hacc) as (H1 & H2 & H3 & H4).
      split; [done|]. split; [destruct H2; [by left | right; by right]|].
      split; [done|]. intros x [->|Hx]%elem_of_cons Hn; [congruence | by apply H4].
    + rewrite Hacc. destruct (SFltb y acc) eqn:Hlt.
      * destruct (IH y Hy) as (H1 & H2 & H3 & H4).
        split; [done|]. split; [right; destruct H2 as [->|?]; [by left | by right]|].
        split; [eapply SFleb_trans; [exact H3 | by apply SFltb_leb]|].
        intros x [->|Hx]%elem_of_cons Hn; [done | by apply H4].
      * destruct (IH acc Hacc) as (H1 & H2 & H3 & H4).
        split; [done|]. split; [destruct H2; [by left | right; by right]|].
        split; [done|]. intros x [->|Hx]%elem_of_cons Hn; [|by apply H4].
        eapply SFleb_trans; [exact H3 | by apply SFltb_total].
Qed.

Lemma max_fold_spec (l : list pyfloat) (acc : pyfloat) :
  is_nan acc = false ->
  is_nan (fold_left max_step l acc) = false
  /\ (fold_left max_step l acc = acc \/ fold_left max_step l acc ∈ l)
  /\ SFleb acc (fold_left max_step l acc) = true
  /\ (forall x, x ∈ l -> is_nan x = false -> SFleb x (fold_left max_step l acc) = true).
Proof.
  revert acc. induction l as [|y l IH]; intros acc Hacc; simpl.
  - split; [done|]. split; [by left|]. split; [by apply SFleb_refl|].
    by intros x ?%elem_of_nil.
  - unfold max_step at 2 4 6 8 10. destruct (is_nan y) eqn:Hy.
    + destruct (IH acc Hacc) as (H1 & H2 & H3 & H4).
      split; [done|]. split; [destruct H2; [by left | right; by right]|].
      split; [done|]. intros x [->|Hx]%elem_of_cons Hn; [congruence | by apply H4].
    + rewrite Hacc. destruct (SFltb acc y) eqn:Hlt.
      * destruct (IH y Hy) as (H1 & H2 & H3 & H4).
        split; [done|]. split; [right; destruct H2 as [->|?]; [by left | by right]|].
        split; [apply (SFleb_trans _ y); [by apply SFltb_leb | exact H3]|].
        intros x [->|Hx]%elem_of_cons Hn; [done | by apply H4].
      * destruct (IH acc Hacc) as (H1 & H2 & H3 & H4).
        split; [done|]. split; [destruct H2; [by left | right; by right]|].
        split; [done|]. intros x [->|Hx]%elem_of_cons Hn; [|by apply H4].
        apply (SFleb_trans _ acc); [by apply SFltb_total | exact H3].
Qed.

(** From NaN the fold skips the missing entries and starts at the first
    present one. *)
Lemma min_fold_from_nan (l : list pyfloat) :
  (Forall (fun x => is_nan x = true) l /\ fold_left min_step l nan = nan)
  \/ (exists l1 y l2, l = l1 ++ y :: l2 /\ Forall (fun x => is_nan x = true) l1
        /\ is_nan y = false /\ fold_left min_step l nan = fold_left min_step l2 y).
Proof.
  induction l as [|y l IH]; [by left|]. simpl.
  unfold min_step at 2 4. destruct (is_nan y) eqn:Hy.
  - destruct IH as [[Hall Hr]|(l1 & z & l2 & -> & Hl1 & Hz & Hr)].
    + left. split; [by constructor | done].
    + right. exists (y :: l1), z, l2. by repeat split; [constructor|..].
  - right. exists [], y, l. by repeat split.
Qed.

Lemma max_fold_from_nan (l : list pyfloat) :
  (Forall (fun x => is_nan x = true) l /\ fold_left max_step l nan = nan)
  \/ (exists l1 y l2, l = l1 ++ y :: l2 /\ Forall (fun x => is_nan x = true) l1
        /\ is_nan y = false /\ fold_left max_step l nan = fold_left max_step l2 y).
Proof.
  induction l as [|y l IH]; [by left|]. simpl.
  unfold max_step at 2 4. destruct (is_nan y) eqn:Hy.
  - destruct IH as [[Hall Hr]|(l1 & z & l2 & -> & Hl1 & Hz & Hr)].
    + left. split; [by constructor | done].
    + right. exists (y :: l1), z, l2. by repeat split; [constructor|..].
  - right. exists [], y, l. by repeat split.
Qed.

(** [col.min()]: missing exactly when every entry is; otherwise an entry of
    the column below every present entry. *)
Lemma min_float_spec (l : list pyfloat) :
  (is_nan (min_float l) = true <-> Forall (fun x => is_nan x = true) l)
  /\ (is_nan (min_float l) = false ->
      min_float l ∈ l
      /\ forall x, x ∈ l -> is_nan x = false -> SFleb (min_float l) x = true).
Proof.
  unfold min_float.
  destruct (min_fold_from_nan l) as [[Hall ->]|(l1 & y & l2 & -> & Hl1 & Hy & ->)].
  - split; [done|]. discriminate.
  - destruct (min_fold_spec l2 y Hy) as (H1 & H2 & H3 & H4). split.
    + split; [congruence|]. intros Hall. apply Forall_app in Hall as [_ Hall].
      apply Forall_cons in Hall as [Hc _]. congruence.
    + intros _. split.
      * rewrite elem_of_app, elem_of_cons. destruct H2 as [->|H2]; tauto.
      * intros x Hx Hn. apply elem_of_app in Hx as [Hx|Hx].
        -- rewrite Forall_forall in Hl1. specialize (Hl1 x Hx). congruence.
        -- apply elem_of_cons in Hx as [->|Hx]; [done | by apply H4].
Qed.

Lemma max_float_spec (l : list pyfloat) :
  (is_nan (max_float l) = true <-> Forall (fun x => is_nan x = true) l)
  /\ (is_nan (max_float l) = false ->
      max_float l ∈ l
      /\ forall x, x ∈ l -> is_nan x = false -> SFleb x (max_float l) = true).
Proof.
  unfold max_float.
  destruct (max_fold_from_nan l) as [[Hall ->]|(l1 & y & l2 & -> & Hl1 & Hy & ->)].
  - split; [done|]. discriminate.
  - destruct (max_fold_spec l2 y Hy) as (H1 & H2 & H3 & H4). split.
    + split; [congruence|]. intros Hall. apply Forall_app in Hall as [_ Hall].
      apply Forall_cons in Hall as [Hc _]. congruence.
    + intros _. split.
      * rewrite elem_of_app, elem_of_cons. destruct H2 as [->|H2]; tauto.
      * intros x Hx Hn. apply elem_of_app in Hx as [Hx|Hx].
        -- rewrite Forall_forall in Hl1. specialize (Hl1 x Hx). congruence.
        -- apply elem_of_cons in Hx as [->|Hx]; [done | by apply H4].
Qed.

End MinMax.

(** ** Minimum and maximum of a column of day counts *)

Section IntRange.

Local Abbreviation min_step_int :=
  (fun (acc x : option Z) => match acc, x with
                             | Some a, Some b => Some (Z.min a b)
                             | None, _ => x
                             | _, None => acc
                             end).
Local Abbreviation max_step_int :=
  (fun (acc x : option Z) => match acc, x with
                             | Some a, Some b => Some (Z.max a b)
                             | None, _ => x
                             | _, None => acc
                             end).

Lemma min_int_fold (l : list (option Z)) (a : Z) :
  exists m,
    fold_left min_step_int l (Some a) = Some m
    /\ m <= a
    /\ (m = a \/ Some m ∈ l)
    /\ forall d, Some d ∈ l -> m <= d.
Proof.
  revert a. induction l as [|[b|] l IH]; intros a; simpl.
  - exists a. split; [done|]. split; [lia|]. split; [by left|].
    by intros d ?%elem_of_nil.
  - destruct (IH (Z.min a b)) as (m & -> & Hle & Hin & Hall). exists m.
    split; [done|]. split; [lia|]. split.
    + destruct Hin as [->|Hin]; [|right; by right].
      destruct (Z.min_spec a b) as [[_ ->]|[_ ->]]; [by left | right; left].
    + intros d [[= <-]|Hd]%elem_of_cons; [lia | by apply Hall].
  - destruct (IH a) as (m & -> & Hle & Hin & Hall). exists m.
    split; [done|]. split; [lia|]. split.
    + destruct Hin as [->|Hin]; [by left | right; by right].
    + intros d [[=]|Hd]%elem_of_cons. by apply Hall.
Qed.

Lemma max_int_fold (l : list (option Z)) (a : Z) :
  exists m,
    fold_left max_step_int l (Some a) = Some m
    /\ a <= m
    /\ (m = a \/ Some m ∈ l)
    /\ forall d, Some d ∈ l -> d <= m.
Proof.
  revert a. induction l as [|[b|] l IH]; intros a; simpl.
  - exists a. split; [done|]. split; [lia|]. split; [by left|].
    by intros d ?%elem_of_nil.
  - destruct (IH (Z.max a b)) as (m & -> & Hle & Hin & Hall). exists m.
    split; [done|]. split; [lia|]. split.
    + destruct Hin as [->|Hin]; [|right; by right].
      destruct (Z.max_spec a b) as [[_ ->]|[_ ->]]; [right; left | by left].
    + intros d [[= <-]|Hd]%elem_of_cons; [lia | by apply Hall].
  - destruct (IH a) as (m & -> & Hle & Hin & Hall). exists m.
    split; [done|]. split; [lia|]. split.
    + destruct Hin as [->|Hin]; [by left | right; by right].
    + intros d [[=]|Hd]%elem_of_cons. by apply Hall.
Qed.

(** [col.min()] and [col.max()] on a column of day counts: missing when
    every entry is; otherwise entries of the column that bound the present
    ones. *)
Lemma min_max_int_spec (l : list (option Z)) :
  (min_int l = None /\ max_int l = None /\ forall x, x ∈ l -> x = None)
  \/ (exists lo hi,
        min_int l = Some lo /\ max_int l = Some hi
        /\ Some lo ∈ l /\ Some hi ∈ l
        /\ forall d, Some d ∈ l -> lo <= d <= hi).
Proof.
  unfold min_int, max_int. induction l as [|[a|] l IH]; simpl.
  - left. split; [done|]. split; [done|]. by intros x ?%elem_of_nil.
  - right. destruct (min_int_fold l a) as (lo & -> & Hlo & Hlin & Hlall).
    destruct (max_int_fold l a) as (hi & -> & Hhi & Hhin & Hhall).
    exists lo, hi. split; [done|]. split; [done|]. split; [|split].
    + destruct Hlin as [->|Hin]; [left | by right].
    + destruct Hhin as [->|Hin]; [left | by right].
    + intros d [[= <-]|Hd]%elem_of_cons; [lia|].
      specialize (Hlall d Hd). specialize (Hhall d Hd). lia.
  - destruct IH as [(-> & -> & Hall)|(lo & hi & -> & -> & Hlo & Hhi & Hall)].
    + left. split; [done|]. split; [done|].
      intros x [->|Hx]%elem_of_cons; [done | by apply Hall].
    + right. exists lo, hi. split; [done|]. split; [done|].
      split; [by right|]. split; [by right|].
      intros d [[=]|Hd]%elem_of_cons. by apply Hall.
Qed.

End IntRange.

(** ** The ranges of the statistics and the price slider *)

Section Ranges.

Variable read_csv : pystr -> res (list raw_row).
Variable parse_numeric : pystr -> pyfloat.
Variable Series_mean : list pyfloat -> pyfloat.

Local Abbreviation load := (load_and_clean_data read_csv parse_numeric Series_mean).

Lemma calculate_statistics_ranges (n : nat) (df : frame) (stats : Stats.t) :
  calculate_statistics Series_mean n df = Ok stats ->
  Stats.price_range stats = (min_float (List.map price_clean df),
                             max_float (List.map price_clean df))
  /\ Stats.rating_range stats = (min_float (List.map consumer_clean df),
                                 max_float (List.map consumer_clean df))
  /\ Stats.date_range stats = (min_int (List.map host_since_clean df),
                               max_int (List.map host_since_clean df)).
Proof.
  unfold calculate_statistics. intros H.
  apply bind_ok in H as (uc & Huc & H).
  apply bind_ok in H as (ua & Hua & H).
  apply bind_ok in H as (ur & Hur & H).
  injection H as <-. simpl. by repeat split.
Qed.

Lemma elem_of_column {A : Type} (col : row -> A) (df : frame) (x : A) :
  x ∈ List.map col df <-> exists r, r ∈ df /\ col r = x.
Proof.
  rewrite list_elem_of_In, in_map_iff. split.
  - intros (r & <- & Hr). exists r. by rewrite list_elem_of_In.
  - intros (r & Hr & <-). exists r. by rewrite <- list_elem_of_In.
Qed.

Lemma all_nan_column (col : row -> pyfloat) (df : frame) :
  Forall (fun x => is_nan x = true) (List.map col df)
  <-> forall r, r ∈ df -> is_nan (col r) = true.
Proof.
  rewrite Forall_forall. split.
  - intros H r Hr. apply H, elem_of_column. by exists r.
  - intros H x Hx. apply elem_of_column in Hx as (r & Hr & <-). by apply H.
Qed.

(** The minimum and the maximum of a float column of a frame. *)
Lemma float_range_spec (col : row -> pyfloat) (df : frame) :
  (is_nan (min_float (List.map col df)) = true
   <-> forall r, r ∈ df -> is_nan (col r) = true)
  /\ (is_nan (max_float (List.map col df)) = true
      <-> forall r, r ∈ df -> is_nan (col r) = true)
  /\ (forall r, r ∈ df -> is_nan (col r) = false ->
        SFleb (min_float (List.map col df)) (col r) = true
        /\ SFleb (col r) (max_float (List.map col df)) = true
        /\ (exists r1, r1 ∈ df /\ col r1 = min_float (List.map col df))
        /\ (exists r2, r2 ∈ df /\ col r2 = max_float (List.map col df))).
Proof.
  destruct (min_float_spec (List.map col df)) as [Hmin1 Hmin2].
  destruct (max_float_spec (List.map col df)) as [Hmax1 Hmax2].
  rewrite all_nan_column in Hmin1, Hmax1.
  split; [exact Hmin1|]. split; [exact Hmax1|].
  intros r Hr Hn.
  assert (is_nan (min_float (List.map col df)) = false) as Hlo.
  { apply not_true_is_false. intros Hc. pose proof (proj1 Hmin1 Hc r Hr). congruence. }
  assert (is_nan (max_float (List.map col df)) = false) as Hhi.
  { apply not_true_is_false. intros Hc. pose proof (proj1 Hmax1 Hc r Hr). congruence. }
  destruct (Hmin2 Hlo) as [Hin1 Hle1]. destruct (Hmax2 Hhi) as [Hin2 Hle2].
  assert (col r ∈ List.map col df) as Hp by (apply elem_of_column; by exists r).
  split; [by apply Hle1|]. split; [by apply Hle2|].
  split; by apply elem_of_column.
Qed.

(** X6.  The 'price_range' of the statistics of a loaded frame: both ends
    are missing exactly when no row has a price; otherwise each end is the
    price of some row, and every present price lies between them. *)
Theorem price_range_bounds_prices (path : pystr) (df : frame) (stats : Stats.t) :
  load path = Ok (df, stats) ->
  (is_nan (fst (Stats.price_range stats)) = true
   <-> forall r, r ∈ df -> is_nan (price_clean r) = true)
  /\ (is_nan (snd (Stats.price_range stats)) = true
      <-> forall r, r ∈ df -> is_nan (price_clean r) = true)
  /\ (forall r, r ∈ df -> is_nan (price_clean r) = false ->
        SFleb (fst (Stats.price_range stats)) (price_clean r) = true
        /\ SFleb (price_clean r) (snd (Stats.price_range stats)) = true
        /\ (exists r1, r1 ∈ df /\ price_clean r1 = fst (Stats.price_range stats))
        /\ (exists r2, r2 ∈ df /\ price_clean r2 = snd (Stats.price_range stats))).
Proof.
  intros H. apply load_ok in H as (raw & derived & _ & _ & _ & Hst).
  apply calculate_statistics_ranges in Hst as (-> & _ & _). simpl.
  apply float_range_spec.
Qed.

(** X7.  The price slider of [main] cannot be built for a frame in which no
    row has a price: [int] of the NaN maximum raises [ValueError], the
    fallback of [or] applying to a zero maximum only.  When it is built, its
    lower end and default lower end are 0 and its default upper end is at
    most 500 and at most the upper end. *)
Theorem price_slider_needs_a_price (path : pystr) (df : frame) (stats : Stats.t) :
  load path = Ok (df, stats) ->
  (Dashboard.price_slider stats = Raise ValueError
   <-> forall r, r ∈ df -> is_nan (price_clean r) = true)
  /\ (forall lo hi a b,
        Dashboard.price_slider stats = Ok (lo, hi, (a, b)) ->
        lo = 0 /\ a = 0 /\ b <= 500 /\ b <= hi).
Proof.
  intros H. apply load_ok in H as (raw & derived & _ & _ & _ & Hst).
  apply calculate_statistics_ranges in Hst as (Hpr & _ & _).
  unfold Dashboard.price_slider. rewrite Hpr. simpl.
  set (mx := max_float (List.map price_clean df)).
  destruct (float_range_spec price_clean df) as (_ & Hmax & _).
  fold mx in Hmax. split.
  - rewrite <- Hmax. clearbody mx. clear.
    unfold Dashboard.int_or. destruct mx as [[]|[]| |[] m e]; simpl; split; congruence.
  - intros lo hi a b. unfold Dashboard.int_or.
    destruct (truthy (CFloat mx)); simpl.
    + destruct (int_of_float mx) as [v|e]; simpl; [|discriminate].
      intros [= <- <- <- <-]. lia.
    + intros [= <- <- <- <-]. lia.
Qed.

(** X8.  The 'rating_range' and the 'date_range' of the statistics of a
    loaded frame: the ends of the rating range are missing exactly when no
    row has a rating, and otherwise are ratings of rows that bound every
    present rating; the ends of the date range are both missing when no row
    has a day count, and otherwise are day counts of rows that bound every
    present day count. *)
Theorem rating_and_date_ranges_bound_values
    (path : pystr) (df : frame) (stats : Stats.t) :
  load path = Ok (df, stats) ->
  ((is_nan (fst (Stats.rating_range stats)) = true
    <-> forall r, r ∈ df -> is_nan (consumer_clean r) = true)
   /\ (is_nan (snd (Stats.rating_range stats)) = true
       <-> forall r, r ∈ df -> is_nan (consumer_clean r) = true)
   /\ (forall r, r ∈ df -> is_nan (consumer_clean r) = false ->
         SFleb (fst (Stats.rating_range stats)) (consumer_clean r) = true
         /\ SFleb (consumer_clean r) (snd (Stats.rating_range stats)) = true
         /\ (exists r1, r1 ∈ df /\ consumer_clean r1 = fst (Stats.rating_range stats))
         /\ (exists r2, r2 ∈ df /\ consumer_clean r2 = snd (Stats.rating_range stats))))
  /\ ((Stats.date_range stats = (None, None)
       /\ forall r, r ∈ df -> host_since_clean r = None)
      \/ (exists lo hi,
            Stats.date_range stats = (Some lo, Some hi)
            /\ (exists r1, r1 ∈ df /\ host_since_clean r1 = Some lo)
            /\ (exists r2, r2 ∈ df /\ host_since_clean r2 = Some hi)
            /\ forall r d, r ∈ df -> host_since_clean r = Some d -> lo <= d <= hi)).
Proof.
  intros H. apply load_ok in H as (raw & derived & _ & _ & _ & Hst).
  apply calculate_statistics_ranges in Hst as (_ & -> & ->). simpl.
  split; [apply float_range_spec|].
  destruct (min_max_int_spec (List.map host_since_clean df))
    as [(-> & -> & Hall)|(lo & hi & -> & -> & Hlo & Hhi & Hall)].
  - left. split; [done|]. intros r Hr. apply Hall, elem_of_column. by exists r.
  - right. exists lo, hi. split; [done|].
    split; [by apply elem_of_column|]. split; [by apply elem_of_column|].
    intros r d Hr Hd. apply Hall, elem_of_column. by exists r.
Qed.

End Ranges.

(** ** Coordinates *)

Lemma city_tables_agree (c : pystr) :
  (CITY_COORDINATES !! c = None /\ CORRECT_CITY_AREA !! c = None)
  \/ ((exists a, CORRECT_CITY_AREA !! c = Some a)
      /\ is_nan (city_coordinate (py "lat") (Some c)) = false
      /\ is_nan (city_coordinate (py "lon") (Some c)) = false).
Proof.
  destruct (decide (c = py "Toronto")) as [->|];
    [right; split; [eexists|split]; vm_compute; reflexivity|].
  destruct (decide (c = py "NewYork")) as [->|];
    [right; split; [eexists|split]; vm_compute; reflexivity|].
  destruct (decide (c = py "Amsterdam")) as [->|];
    [right; split; [eexists|split]; vm_compute; reflexivity|].
  destruct (decide (c = py "Berlin")) as [->|];
    [right; split; [eexists|split]; vm_compute; reflexivity|].
  destruct (decide (c = py "Dublin")) as [->|];
    [right; split; [eexists|split]; vm_compute; reflexivity|].
  destruct (decide (c = py "Hongkong")) as [->|];
    [right; split; [eexists|split]; vm_compute; reflexivity|].
  destruct (decide (c = py "Munich")) as [->|];
    [right; split; [eexists|split]; vm_compute; reflexivity|].
  destruct (decide (c = py "Singapore")) as [->|];
    [right; split; [eexists|split]; vm_compute; reflexivity|].
  destruct (decide (c = py "Sydney")) as [->|];
    [right; split; [eexists|split]; vm_compute; reflexivity|].
  destruct (decide (c = py "Tokyo")) as [->|];
    [right; split; [eexists|split]; vm_compute; reflexivity|].
  left. unfold CITY_COORDINATES, CORRECT_CITY_AREA. cbn [list_to_map foldr uncurry fst snd].
  split; rewrite !lookup_insert_ne by done; apply lookup_empty.
Qed.

Section Coordinates.

Variable read_csv : pystr -> res (list raw_row).
Variable parse_numeric : pystr -> pyfloat.
Variable Series_mean : list pyfloat -> pyfloat.

Local Abbreviation load := (load_and_clean_data read_csv parse_numeric Series_mean).

Lemma derive_row_coordinates (raw : list raw_row) (x : raw_row) (r : row) :
  derive_row parse_numeric raw x = Ok r ->
  city_lat r = city_coordinate (py "lat") (raw_city x)
  /\ city_lon r = city_coordinate (py "lon") (raw_city x).
Proof.
  unfold derive_row. intros H.
  apply bind_ok in H as (pc & Hpc & H).
  apply bind_ok in H as (bc & Hbc & H).
  apply bind_ok in H as (cc & Hcc & H).
  apply bind_ok in H as (hr & Hhr & H).
  apply bind_ok in H as (ha & Hha & H).
  apply bind_ok in H as (rev & Hrev & H).
  apply bind_ok in H as (hs & Hhs & H).
  injection H as <-. by simpl.
Qed.

(** X9.  The coordinate table and the area correction table name the same
    cities: in a cleaned frame a row has a latitude exactly when it has a
    longitude, and exactly when its city is a key of the correction table,
    its area then being the table's value. *)
Theorem coordinates_iff_corrected_area (path : pystr) (df : frame) (stats : Stats.t) :
  load path = Ok (df, stats) ->
  forall r, r ∈ df ->
    is_nan (city_lat r) = is_nan (city_lon r)
    /\ (is_nan (city_lat r) = false
        <-> exists c a, city r = Some c /\ CORRECT_CITY_AREA !! c = Some a /\ area r = Some a).
Proof.
  intros H r' Hr'.
  pose proof (load_rows _ _ _ _ _ _ H) as (raw & _ & Hrows).
  apply list_elem_of_lookup in Hr' as [i Hi].
  destruct (Forall2_lookup_r _ _ _ _ _ Hrows Hi) as (x & _ & r & Hr & ->).
  pose proof (derive_row_coordinates _ _ _ Hr) as [Hlat Hlon].
  apply derive_row_ok in Hr as (_ & _ & _ & _ & _ & Hcity & Harea & _).
  simpl. rewrite Hlat, Hlon, Hcity, Harea.
  destruct (raw_city x) as [c|].
  - destruct (city_tables_agree c) as [[Hc Ha]|[[a Ha] [H1 H2]]].
    + unfold city_coordinate. rewrite Hc. simpl. split; [reflexivity|].
      split; [discriminate|]. intros (c' & a & [= <-] & Ha' & _). congruence.
    + rewrite H1, H2. split; [reflexivity|]. split; [|reflexivity].
      intros _. exists c, a. unfold map_city_area. rewrite Ha. by simpl.
  - split; [reflexivity|]. split; [discriminate|]. by intros (c & a & [=] & _).
Qed.

End Coordinates.

(** ** Filtering twice *)

Section FilterTwice.

Variables (cities areas room_types : option (list pystr))
          (price_range : option (num * num)) (min_reviews : Z) (min_rating : num)
          (guest_favourites_only certified_hosts_only : bool).
Variables (cities' areas' room_types' : option (list pystr))
          (price_range' : option (num * num)) (min_reviews' : Z) (min_rating' : num)
          (guest_favourites_only' certified_hosts_only' : bool).

Local Abbreviation first_filter df :=
  (filter_data df cities areas room_types price_range min_reviews min_rating
               guest_favourites_only certified_hosts_only).
Local Abbreviation second_filter df :=
  (filter_data df cities' areas' room_types' price_range' min_reviews' min_rating'
               guest_favourites_only' certified_hosts_only').
Local Abbreviation first_kept :=
  (Spec.satisfies cities areas room_types price_range min_reviews min_rating
                  guest_favourites_only certified_hosts_only).
Local Abbreviation second_kept :=
  (Spec.satisfies cities' areas' room_types' price_range' min_reviews' min_rating'
                  guest_favourites_only' certified_hosts_only').

(** Two calls in a row, the second on the frame the first returned: each
    only allocates, starting from the heap it was given. *)
Lemma filter_data_run_twice (h : heap) (df : loc) (rows : frame) :
  h !! df = Some rows ->
  exists st1 st2,
    first_filter df h = Ok st1
    /\ reaches h (List.filter first_kept rows) st1
    /\ second_filter (fst st1) (snd st1) = Ok st2
    /\ reaches (snd st1) (List.filter second_kept (List.filter first_kept rows)) st2.
Proof.
  intros Hdf.
  destruct (filter_data_run h df rows cities areas room_types price_range min_reviews
              min_rating guest_favourites_only certified_hosts_only Hdf)
    as (st1 & Hrun1 & Hreach1).
  pose proof Hreach1 as (_ & _ & Hout1).
  destruct (filter_data_run (snd st1) (fst st1) _ cities' areas' room_types' price_range'
              min_reviews' min_rating' guest_favourites_only' certified_hosts_only' Hout1)
    as (st2 & Hrun2 & Hreach2).
  by exists st1, st2.
Qed.

(** X10.  Filtering the result of [filter_data] once more gives the records
    of the original frame that satisfy both sets of criteria; the original
    frame and the intermediate result are left as they were. *)
Theorem filter_data_chained (h : heap) (df : loc) (rows : frame) :
  h !! df = Some rows ->
  exists out1 h1 out2 h2,
    first_filter df h = Ok (out1, h1)
    /\ second_filter out1 h1 = Ok (out2, h2)
    /\ h2 !! df = Some rows
    /\ h2 !! out1 = Some (List.filter first_kept rows)
    /\ h2 !! out2 = Some (List.filter (fun r => first_kept r && second_kept r) rows).
Proof.
  intros Hdf.
  destruct (filter_data_run_twice h df rows Hdf)
    as ([out1 h1] & [out2 h2] & Hrun1 & ([extra1 Hx1] & _ & Hout1)
        & Hrun2 & ([extra2 Hx2] & _ & Hout2)).
  simpl in *. exists out1, h1, out2, h2.
  split; [exact Hrun1|]. split; [exact Hrun2|]. split; [|split].
  - rewrite Hx2, Hx1. by apply lookup_app_l_Some, lookup_app_l_Some.
  - rewrite Hx2. by apply lookup_app_l_Some.
  - rewrite <- filter_filter. exact Hout2.
Qed.

End FilterTwice.

Section FilterOrder.

Variables (cities areas room_types : option (list pystr))
          (price_range : option (num * num)) (min_reviews : Z) (min_rating : num)
          (guest_favourites_only certified_hosts_only : bool).
Variables (cities' areas' room_types' : option (list pystr))
          (price_range' : option (num * num)) (min_reviews' : Z) (min_rating' : num)
          (guest_favourites_only' certified_hosts_only' : bool).

Local Abbreviation one df :=
  (filter_data df cities areas room_types price_range min_reviews min_rating
               guest_favourites_only certified_hosts_only).
Local Abbreviation other df :=
  (filter_data df cities' areas' room_types' price_range' min_reviews' min_rating'
               guest_favourites_only' certified_hosts_only').

(** X11.  The order of two filters does not matter, and a filter applied to
    its own result changes nothing: the frames reached are equal. *)
Theorem filter_data_order_irrelevant (h : heap) (df : loc) (rows : frame) :
  h !! df = Some rows ->
  (exists a ha ab hab b hb ba hba result,
     one df h = Ok (a, ha) /\ other a ha = Ok (ab, hab)
     /\ other df h = Ok (b, hb) /\ one b hb = Ok (ba, hba)
     /\ hab !! ab = Some result /\ hba !! ba = Some result)
  /\ (exists a ha aa haa result,
        one df h = Ok (a, ha) /\ one a ha = Ok (aa, haa)
        /\ ha !! a = Some result /\ haa !! aa = Some result).
Proof.
  intros Hdf. split.
  - destruct (filter_data_run_twice cities areas room_types price_range min_reviews
                min_rating guest_favourites_only certified_hosts_only
                cities' areas' room_types' price_range' min_reviews' min_rating'
                guest_favourites_only' certified_hosts_only' h df rows Hdf)
      as ([a ha] & [ab hab] & R1 & _ & R2 & (_ & _ & Hab)).
    destruct (filter_data_run_twice cities' areas' room_types' price_range' min_reviews'
                min_rating' guest_favourites_only' certified_hosts_only'
                cities areas room_types price_range min_reviews
                min_rating guest_favourites_only certified_hosts_only h df rows Hdf)
      as ([b hb] & [ba hba] & R3 & _ & R4 & (_ & _ & Hba)).
    simpl in *. rewrite filter_filter in Hab, Hba.
    exists a, ha, ab, hab, b, hb, ba, hba. eexists.
    split; [exact R1|]. split; [exact R2|]. split; [exact R3|]. split; [exact R4|].
    split; [exact Hab|].
    erewrite List.filter_ext; [exact Hba|]. intros r. apply andb_comm.
  - destruct (filter_data_run_twice cities areas room_types price_range min_reviews
                min_rating guest_favourites_only certified_hosts_only
                cities areas room_types price_range min_reviews
                min_rating guest_favourites_only certified_hosts_only h df rows Hdf)
      as ([a ha] & [aa haa] & R1 & (_ & _ & Ha) & R2 & (_ & _ & Haa)).
    simpl in *. exists a, ha, aa, haa. eexists.
    split; [exact R1|]. split; [exact R2|]. split; [exact Ha|].
    rewrite filter_filter in Haa.
    erewrite List.filter_ext; [exact Haa|]. intros r. symmetry. apply andb_diag.
Qed.

End FilterOrder.

Lemma filter_data_chained_witness :
  exists out1 h1 out2 h2,
    filter_data 0%nat (Some [py "Tokyo"; py "Sydney"]) None None None 0 (NInt 0) false false
                [Reference.scenario_frame] = Ok (out1, h1)
    /\ filter_data out1 None None None (Some (NInt 0, NInt 1250)) 0 (NInt 0) false false h1
       = Ok (out2, h2)
    /\ h2 !! 0%nat = Some Reference.scenario_frame
    /\ h2 !! out1
       = Some (List.filter (Spec.satisfies (Some [py "Tokyo"; py "Sydney"]) None None None 0
                              (NInt 0) false false) Reference.scenario_frame)
    /\ h2 !! out2
       = Some (List.filter
                 (fun r => Spec.satisfies (Some [py "Tokyo"; py "Sydney"]) None None None 0
                             (NInt 0) false false r
                           && Spec.satisfies None None None (Some (NInt 0, NInt 1250)) 0
                                (NInt 0) false false r)
                 Reference.scenario_frame).
Proof.
  assert ([Reference.scenario_frame] !! 0%nat = Some Reference.scenario_frame) as H
    by reflexivity.
  exact (filter_data_chained (Some [py "Tokyo"; py "Sydney"]) None None None 0 (NInt 0)
           false false None None None (Some (NInt 0, NInt 1250)) 0 (NInt 0) false false
           [Reference.scenario_frame] 0%nat Reference.scenario_frame H).
Defined.

Lemma filter_data_order_irrelevant_witness :
  (exists a ha ab hab b hb ba hba result,
     filter_data 0%nat (Some [py "Tokyo"; py "Sydney"]) None None None 0 (NInt 0) false false
                 [Reference.scenario_frame] = Ok (a, ha)
     /\ filter_data a None None None (Some (NInt 0, NInt 1250)) 0 (NInt 0) false false ha
        = Ok (ab, hab)
     /\ filter_data 0%nat None None None (Some (NInt 0, NInt 1250)) 0 (NInt 0) false false
                    [Reference.scenario_frame] = Ok (b, hb)
     /\ filter_data b (Some [py "Tokyo"; py "Sydney"]) None None None 0 (NInt 0) false false hb
        = Ok (ba, hba)
     /\ hab !! ab = Some result /\ hba !! ba = Some result)
  /\ (exists a ha aa haa result,
        filter_data 0%nat (Some [py "Tokyo"; py "Sydney"]) None None None 0 (NInt 0) false
                    false [Reference.scenario_frame] = Ok (a, ha)
        /\ filter_data a (Some [py "Tokyo"; py "Sydney"]) None None None 0 (NInt 0) false
                       false ha = Ok (aa, haa)
        /\ ha !! a = Some result /\ haa !! aa = Some result).
Proof.
  assert ([Reference.scenario_frame] !! 0%nat = Some Reference.scenario_frame) as H
    by reflexivity.
  exact (filter_data_order_irrelevant (Some [py "Tokyo"; py "Sydney"]) None None None 0
           (NInt 0) false false None None None (Some (NInt 0, NInt 1250)) 0 (NInt 0) false
           false [Reference.scenario_frame] 0%nat Reference.scenario_frame H).
Defined.

(** ** The rankings of the metrics *)

Section Ranking.

Context {A : Type}.

(** The rank of a value in [idxmax]: NaN stands lowest. *)
Local Abbreviation rank v := (fillna_float v neg_inf).

Lemma rank_not_nan (v : pyfloat) : is_nan (rank v) = false.
Proof. unfold fillna_float. by destruct v. Qed.

Lemma argmax_from_spec (l : list (A * pyfloat)) :
  forall (pre mid : list (A * pyfloat)) (best : A) (v0 : pyfloat),
    (forall kv, kv ∈ pre -> SFltb (rank (snd kv)) (rank v0) = true) ->
    (forall kv, kv ∈ mid -> SFleb (rank (snd kv)) (rank v0) = true) ->
    exists l1 v l2,
      pre ++ (best, v0) :: mid ++ l = l1 ++ (argmax_from best (rank v0) l, v) :: l2
      /\ (forall kv, kv ∈ l1 -> SFltb (rank (snd kv)) (rank v) = true)
      /\ (forall kv, kv ∈ l2 -> SFleb (rank (snd kv)) (rank v) = true).
Proof.
  induction l as [|[k' v'] l IH]; intros pre mid best v0 Hpre Hmid.
  - exists pre, v0, mid. by rewrite app_nil_r.
  - cbn [argmax_from]. destruct (SFltb (rank v0) (rank v')) eqn:E.
    + destruct (IH (pre ++ (best, v0) :: mid) [] k' v') as (l1 & v & l2 & Heq & H1 & H2).
      * intros kv Hkv. apply elem_of_app in Hkv as [Hkv|Hkv].
        { eapply SFltb_trans; [by apply Hpre | exact E]. }
        apply elem_of_cons in Hkv as [-> | Hkv]; [exact E|].
        eapply SFleb_ltb_strict; [by apply Hmid | exact E].
      * intros kv Hkv. by apply elem_of_nil in Hkv.
      * exists l1, v, l2. split; [|by split].
        rewrite <- Heq. simpl. by rewrite <- !app_assoc.
    + destruct (IH pre (mid ++ [(k', v')]) best v0) as (l1 & v & l2 & Heq & H1 & H2).
      * exact Hpre.
      * intros kv Hkv. apply elem_of_app in Hkv as [Hkv|Hkv]; [by apply Hmid|].
        apply list_elem_of_singleton in Hkv as ->. simpl.
        apply SFltb_total; [apply rank_not_nan | apply rank_not_nan | exact E].
      * exists l1, v, l2. split; [|by split].
        rewrite <- Heq. by rewrite <- !app_assoc.
Qed.

(** [idxmax]: it raises on the empty series only; it gives the missing
    label when every value is NaN; otherwise the label of the first entry
    of the greatest rank. *)
Lemma forallb_false {B : Type} (p : B -> bool) (l : list B) :
  forallb p l = false -> exists x, x ∈ l /\ p x = false.
Proof.
  induction l as [|x l IH]; simpl; [discriminate|].
  destruct (p x) eqn:E; simpl.
  - intros H. destruct (IH H) as (y & Hy & Hp). exists y. split; [by right | done].
  - intros _. exists x. split; [by left | done].
Qed.

Context {pandas : release}.

(** [idxmax]: it raises on the empty series and, in pandas 3, on a series
    whose values are all NaN; in pandas 2 it gives the missing label for such
    a series; otherwise the label of the first entry of the greatest rank. *)
Lemma idxmax_spec (s : list (A * pyfloat)) :
  (forall e, idxmax s = Raise e
             <-> e = ValueError
                 /\ (s = [] \/ (pandas = pandas_3
                                /\ forall kv, kv ∈ s -> is_nan (snd kv) = true)))
  /\ (forall k, idxmax s = Ok (Some k) ->
        exists l1 v l2,
          s = l1 ++ (k, v) :: l2
          /\ (forall kv, kv ∈ l1 -> SFltb (rank (snd kv)) (rank v) = true)
          /\ (forall kv, kv ∈ l2 -> SFleb (rank (snd kv)) (rank v) = true))
  /\ (idxmax s = Ok None
      <-> pandas = pandas_2 /\ s <> []
          /\ forall kv, kv ∈ s -> is_nan (snd kv) = true)
  /\ (forall k, idxmax s = Ok (Some k) -> exists kv, kv ∈ s /\ is_nan (snd kv) = false).
Proof.
  destruct s as [|[k0 v0] r].
  - simpl. split; [|split; [|split]].
    + intros e. split; [intros [= <-]; split; [done | by left] | by intros [-> _]].
    + intros k [=].
    + split; [intros [=] | by intros (_ & ? & _)].
    + intros k [=].
  - unfold idxmax. destruct (forallb _ _) eqn:E.
    + assert (forall kv, kv ∈ (k0, v0) :: r -> is_nan (snd kv) = true) as Hall.
      { intros kv Hkv. rewrite forallb_forall in E. by apply E, list_elem_of_In. }
      destruct pandas; (split; [|split; [|split]]).
      * intros e. split; [intros [=] | by intros [_ [[=] | [[=] _]]]].
      * intros k [=].
      * by split.
      * intros k [=].
      * intros e. split; [intros [= <-]; split; [done | by right] | by intros [-> _]].
      * intros k [=].
      * split; [intros [=] | by intros ([=] & _)].
      * intros k [=].
    + apply forallb_false in E as (kv0 & Hin0 & Hv0).
      split; [|split; [|split]].
      * intros e. split; [intros [=]|]. intros [_ [[=] | [_ Hall]]].
        specialize (Hall kv0 Hin0). congruence.
      * intros k [= <-].
        destruct (argmax_from_spec r [] [] k0 v0) as (l1 & v & l2 & Heq & H1 & H2).
        { intros kv Hkv. by apply elem_of_nil in Hkv. }
        { intros kv Hkv. by apply elem_of_nil in Hkv. }
        exists l1, v, l2. by split.
      * split; [intros [=]|]. intros (_ & _ & Hall).
        specialize (Hall kv0 Hin0). congruence.
      * intros k _. by exists kv0.
Qed.

End Ranking.

Section RankedGroups.

Context {R : Type} (key : R -> text) (f : list R -> pyfloat).

Local Abbreviation rank v := (fillna_float v neg_inf).
Local Abbreviation group df k :=
  (List.filter (fun r => text_eqb (key r) (Some k)) df).
Local Abbreviation ranked df :=
  (List.map (fun g => (fst g, f (snd g))) (groupby key df)).

Lemma StronglySorted_middle {B : Type} (P : B -> B -> Prop) (l1 l2 : list B) (x y : B) :
  StronglySorted P (l1 ++ x :: l2) -> y ∈ l2 -> P x y.
Proof.
  induction l1 as [|z l1 IH]; simpl; intros H Hy.
  - apply StronglySorted_inv in H as [_ H]. rewrite Forall_forall in H.
    by apply H.
  - apply StronglySorted_inv in H as [H _]. by apply IH.
Qed.

Lemma elem_of_ranked (df : list R) (k : pystr) (v : pyfloat) :
  (k, v) ∈ ranked df <-> (exists r, r ∈ df /\ key r = Some k) /\ v = f (group df k).
Proof.
  rewrite list_elem_of_In, in_map_iff. split.
  - intros ([k' g] & [= <- <-] & Hg). apply list_elem_of_In, groupby_spec in Hg as [Hk ->].
    by split.
  - intros [Hk ->]. exists (k, group df k). split; [done|].
    by apply list_elem_of_In, groupby_spec.
Qed.

Lemma groupby_nil (df : list R) :
  groupby key df = [] <-> forall r, r ∈ df -> key r = None.
Proof.
  split.
  - intros H r Hr. destruct (key r) as [k|] eqn:E; [|done].
    assert ((k, group df k) ∈ groupby key df) as Hin.
    { apply groupby_spec. split; [by exists r | done]. }
    rewrite H in Hin. by apply elem_of_nil in Hin.
  - intros H. destruct (groupby key df) as [|[k g] l] eqn:E; [done|].
    assert ((k, g) ∈ groupby key df) as Hin by (rewrite E; apply list_elem_of_here).
    apply groupby_spec in Hin as [(r & Hr & Hk) _]. rewrite (H r Hr) in Hk. done.
Qed.

Context {pandas : release}.

(** [idxmax] over the groups of a frame, [f] giving the value of a group. *)
Lemma idxmax_groupby (df : list R) :
  (forall e, idxmax (ranked df) = Raise e
             <-> e = ValueError
                 /\ ((forall r, r ∈ df -> key r = None)
                     \/ (pandas = pandas_3
                         /\ forall k, (exists r, r ∈ df /\ key r = Some k) ->
                              is_nan (f (group df k)) = true)))
  /\ (forall k, idxmax (ranked df) = Ok (Some k) ->
        (exists r, r ∈ df /\ key r = Some k)
        /\ forall k', (exists r, r ∈ df /\ key r = Some k') ->
             SFleb (rank (f (group df k'))) (rank (f (group df k))) = true
             /\ (str_ltb k' k = true ->
                 SFltb (rank (f (group df k'))) (rank (f (group df k))) = true))
  /\ (idxmax (ranked df) = Ok None
      <-> pandas = pandas_2
          /\ (exists r, r ∈ df /\ is_Some (key r))
          /\ forall k, (exists r, r ∈ df /\ key r = Some k) ->
               is_nan (f (group df k)) = true)
  /\ (forall k, idxmax (ranked df) = Ok (Some k) ->
        exists k', (exists r, r ∈ df /\ key r = Some k')
                   /\ is_nan (f (group df k')) = false).
Proof.
  destruct (idxmax_spec (ranked df)) as (Hraise & Hsome & Hnone & Hnum).
  assert ((forall kv, kv ∈ ranked df -> is_nan (snd kv) = true)
          <-> forall k, (exists r, r ∈ df /\ key r = Some k) ->
                is_nan (f (group df k)) = true) as Hall.
  { split.
    - intros H k Hk. apply (H (k, f (group df k))). by apply elem_of_ranked.
    - intros H [k v] Hin. apply elem_of_ranked in Hin as [Hk ->]. by apply H. }
  assert (ranked df = [] <-> forall r, r ∈ df -> key r = None) as Hnil.
  { rewrite <- groupby_nil. split; [by destruct (groupby key df) | by intros ->]. }
  split; [|split; [|split]].
  - intros e. by rewrite Hraise, Hnil, Hall.
  - intros k Hk. destruct (Hsome k Hk) as (l1 & v & l2 & Heq & H1 & H2).
    assert ((k, v) ∈ ranked df) as Hkv.
    { rewrite Heq. apply elem_of_app. right. apply list_elem_of_here. }
    apply elem_of_ranked in Hkv as [Hpres ->]. split; [exact Hpres|].
    intros k' Hk'.
    assert ((k', f (group df k')) ∈ ranked df) as Hin by (by apply elem_of_ranked).
    pose proof (groupby_strict key df) as Hs.
    assert (List.map fst (groupby key df) = List.map fst (ranked df)) as Hfst.
    { rewrite List.map_map. by apply List.map_ext. }
    rewrite Hfst, Heq, List.map_app in Hs. simpl in Hs.
    rewrite Heq in Hin. apply elem_of_app in Hin as [Hin|Hin].
    + specialize (H1 _ Hin). simpl in H1. split; [by apply SFltb_leb | done].
    + apply elem_of_cons in Hin as [[= -> _]|Hin].
      * split; [apply SFleb_refl, rank_not_nan|]. by rewrite str_ltb_irrefl.
      * specialize (H2 _ Hin). simpl in H2. split; [exact H2|].
        assert (str_ltb k k' = true) as Hlt.
        { apply (StronglySorted_middle _ _ _ _ _ Hs).
          apply list_elem_of_In, in_map_iff. exists (k', f (group df k')).
          split; [done | by apply list_elem_of_In]. }
        apply str_ltb_asym in Hlt. congruence.
  - rewrite Hnone, Hall. split.
    + intros (Hv & Hne & H). split; [done|]. split; [|done].
      destruct (ranked df) as [|[k v] l] eqn:E; [done|].
      assert ((k, v) ∈ ranked df) as Hin by (rewrite E; apply list_elem_of_here).
      apply elem_of_ranked in Hin as [(r & Hr & Hk) _]. exists r. by rewrite Hk.
    + intros (Hv & (r & Hr & [k Hk]) & H). split; [done|]. split; [|done].
      intros Hempty. pose proof (proj1 Hnil Hempty r Hr) as Hc. congruence.
  - intros k Hk. destruct (Hnum k Hk) as ([k' v] & Hin & Hv).
    apply elem_of_ranked in Hin as [Hk' ->]. by exists k'.
Qed.

(** The same, for a ranking that returned. *)
Lemma idxmax_groupby_ok (df : list R) (x : option pystr) :
  idxmax (ranked df) = Ok x ->
  (forall k, x = Some k ->
     (exists r, r ∈ df /\ key r = Some k)
     /\ forall k', (exists r, r ∈ df /\ key r = Some k') ->
          SFleb (rank (f (group df k'))) (rank (f (group df k))) = true
          /\ (str_ltb k' k = true ->
              SFltb (rank (f (group df k'))) (rank (f (group df k))) = true))
  /\ (x = None
      <-> forall k, (exists r, r ∈ df /\ key r = Some k) ->
            is_nan (f (group df k)) = true).
Proof.
  intros Hx. destruct (idxmax_groupby df) as (Hraise & Hsome & Hnone & Hnum).
  split; [intros k ->; by apply Hsome|]. split.
  - intros ->. by apply Hnone.
  - intros Hall. destruct x as [k|]; [|done].
    destruct (Hnum k Hx) as (k' & Hk' & Hv). specialize (Hall k' Hk'). congruence.
Qed.

End RankedGroups.

Section MetricsFacts.

Context {pandas : release}.
Variable Series_mean : list pyfloat -> pyfloat.
Variable Series_sum : list pyfloat -> pyfloat.

Local Abbreviation rank v := (fillna_float v neg_inf).
Local Abbreviation of_city df c :=
  (List.filter (fun r : row => text_eqb (city r) (Some c)) df).

Lemma nonempty_frame (df : frame) : df <> [] -> (0 <? length df)%nat = true.
Proof. destruct df; [done | by intros _]. Qed.

Lemma size_ranking_raises (df : frame) (e : exn) :
  idxmax (List.map (fun g => (fst g, Z2SF (Z.of_nat (length (snd g))))) (groupby city df))
  = Raise e
  <-> e = ValueError /\ forall r, r ∈ df -> city r = None.
Proof.
  destruct (idxmax_groupby city (fun g => Z2SF (Z.of_nat (length g))) df) as (Hraise & _).
  rewrite Hraise. split; [|intros [-> H]; split; [done | by left]].
  intros [-> [H | [_ H]]]; (split; [done|]); [exact H|].
  intros r Hr. destruct (city r) as [c|] eqn:Hc; [|done].
  assert (exists r, r ∈ df /\ city r = Some c) as Hpres by (by exists r).
  specialize (H c Hpres). simpl in H. by rewrite Z2SF_not_nan in H.
Qed.

(** X12.  [calculate_guest_metrics] raises nothing but [ValueError], and
    raises it exactly on a frame that has rows and either no row with a city
    (the ranking of an empty series) or, under pandas 3, cities whose value
    for the best-value ranking is NaN every one (the ranking of a series of
    NaN, for which pandas 1 and 2 return the missing label). *)
Theorem guest_metrics_raise_condition (df : frame) (e : exn) :
  calculate_guest_metrics Series_mean df = Raise e
  <-> e = ValueError
      /\ df <> []
      /\ ((forall r, r ∈ df -> city r = None)
          \/ (pandas = pandas_3
              /\ forall c, (exists r, r ∈ df /\ city r = Some c) ->
                   is_nan (num_float (city_value Series_mean (of_city df c))) = true)).
Proof.
  destruct df as [|r0 df].
  - split; [intros [=] | by intros (_ & ? & _)].
  - set (rows := r0 :: df).
    assert (forall (f : frame -> pyfloat) e,
              idxmax (List.map (fun g => (fst g, f (snd g))) (groupby city rows)) = Raise e
              <-> e = ValueError
                  /\ ((forall r, r ∈ rows -> city r = None)
                      \/ (pandas = pandas_3
                          /\ forall c, (exists r, r ∈ rows /\ city r = Some c) ->
                               is_nan (f (of_city rows c)) = true))) as Hvalue.
    { intros f. apply (idxmax_groupby city f rows). }
    unfold calculate_guest_metrics. change (0 <? length rows)%nat with true. cbv iota.
    destruct (idxmax (List.map (fun g => (fst g, Z2SF (Z.of_nat (length (snd g)))))
                               (groupby city rows))) as [a|e1] eqn:E1.
    + destruct (idxmax (List.map (fun g => (fst g, num_float (city_value Series_mean (snd g))))
                                 (groupby city rows))) as [b|e2] eqn:E2; simpl.
      * split; [intros [=]|]. intros (-> & _ & Hcase).
        pose proof (proj2 (Hvalue (fun g => num_float (city_value Series_mean g)) ValueError)
                      (conj eq_refl Hcase)) as Hc.
        discriminate (eq_trans (eq_sym E2) Hc).
      * destruct (proj1 (Hvalue (fun g => num_float (city_value Series_mean g)) e2) E2)
          as [-> Hcase].
        split; [by intros [= <-] | by intros [-> _]].
    + simpl. destruct (proj1 (size_ranking_raises rows e1) E1) as [-> Hnone].
      split; [intros [= <-]; split; [done|]; split; [done | by left] | by intros [-> _]].
Qed.

Lemma guest_metrics_ok (df : frame) (m : Guest.t) :
  df <> [] -> calculate_guest_metrics Series_mean df = Ok m ->
  idxmax (List.map (fun g => (fst g, Z2SF (Z.of_nat (length (snd g))))) (groupby city df))
  = Ok (Guest.most_popular_city m)
  /\ idxmax (List.map (fun g => (fst g, num_float (city_value Series_mean (snd g))))
                      (groupby city df))
     = Ok (Guest.best_value_city m).
Proof.
  intros Hne H. unfold calculate_guest_metrics in H.
  rewrite (nonempty_frame df Hne) in H.
  apply bind_ok in H as (a & Ha & H). apply bind_ok in H as (b & Hb & H).
  injection H as <-. by split.
Qed.

Lemma host_metrics_ok (df : frame) (m : Host.t) :
  df <> [] -> calculate_host_metrics Series_mean Series_sum df = Ok m ->
  idxmax (List.map (fun g => (fst g, Series_sum (List.map revenue_estimate (snd g))))
                   (groupby city df))
  = Ok (Host.best_city m).
Proof.
  intros Hne H. unfold calculate_host_metrics in H.
  rewrite (nonempty_frame df Hne) in H.
  apply bind_ok in H as (a & Ha & H). by injection H as <-.
Qed.

Lemma count_order (a b : nat) :
  (0 < a)%nat -> (0 < b)%nat -> Z.of_nat a < 2 ^ 53 -> Z.of_nat b < 2 ^ 53 ->
  (SFleb (rank (Z2SF (Z.of_nat a))) (rank (Z2SF (Z.of_nat b))) = true -> (a <= b)%nat)
  /\ (SFltb (rank (Z2SF (Z.of_nat a))) (rank (Z2SF (Z.of_nat b))) = true -> (a < b)%nat)
  /\ is_nan (Z2SF (Z.of_nat a)) = false.
Proof.
  intros Ha Hb Ha' Hb'.
  destruct (Z.of_nat a) as [|p|p] eqn:Ea; try lia.
  destruct (Z.of_nat b) as [|q|q] eqn:Eb; try lia.
  assert (is_nan (Z2SF (Z.pos p)) = false) as Hp.
  { unfold Z2SF, binary_normalize.
    by destruct (binary_round_exact false p Ha') as (mp & ep & -> & _). }
  assert (is_nan (Z2SF (Z.pos q)) = false) as Hq.
  { unfold Z2SF, binary_normalize.
    by destruct (binary_round_exact false q Hb') as (mq & eq & -> & _). }
  unfold fillna_float. rewrite Hp, Hq.
  pose proof (Z2SF_ltb p q Ha' Hb') as Hpq. pose proof (Z2SF_ltb q p Hb' Ha') as Hqp.
  split; [|split; [|done]].
  - intros Hle. destruct (Z.ltb_spec (Z.pos q) (Z.pos p)) as [Hlt|Hge]; [|lia].
    pose proof (SFleb_ltb_strict _ _ _ Hle Hqp) as Hc.
    by rewrite SFltb_irrefl in Hc.
  - rewrite Hpq. intros Hlt. apply Z.ltb_lt in Hlt. lia.
Qed.

Lemma of_city_bounds (df : frame) (c : pystr) :
  (exists r, r ∈ df /\ city r = Some c) ->
  (0 < length (of_city df c) <= length df)%nat.
Proof.
  intros (r & Hr & Hc). split.
  - assert (r ∈ of_city df c) as Hin.
    { apply list_elem_of_In, List.filter_In. split; [by apply list_elem_of_In|].
      unfold text_eqb. by apply bool_decide_eq_true. }
    destruct (of_city df c); [by apply elem_of_nil in Hin | simpl; lia].
  - apply sublist_length, filter_sublist.
Qed.

(** X13.  The most popular city of the guest metrics is a city of the frame
    with the greatest number of listings, the first in the order of the
    strings among the cities with that number. *)
Theorem most_popular_city_has_most_listings (df : frame) (m : Guest.t) :
  df <> [] -> Z.of_nat (length df) < 2 ^ 53 ->
  calculate_guest_metrics Series_mean df = Ok m ->
  exists c,
    Guest.most_popular_city m = Some c
    /\ (exists r, r ∈ df /\ city r = Some c)
    /\ forall c', (exists r, r ∈ df /\ city r = Some c') ->
         (length (of_city df c') <= length (of_city df c))%nat
         /\ (str_ltb c' c = true ->
             (length (of_city df c') < length (of_city df c))%nat).
Proof.
  intros Hne Hlen H. apply guest_metrics_ok in H as [H _]; [|exact Hne].
  pose proof (idxmax_groupby city (fun g => Z2SF (Z.of_nat (length g))) df)
    as (_ & Hsome & Hnone & _).
  destruct (Guest.most_popular_city m) as [c|].
  - exists c. destruct (Hsome c H) as [Hc Hmax]. split; [done|]. split; [exact Hc|].
    intros c' Hc'. destruct (Hmax c' Hc') as [Hle Hlt].
    pose proof (of_city_bounds df c Hc). pose proof (of_city_bounds df c' Hc').
    destruct (count_order (length (of_city df c')) (length (of_city df c)))
      as (Hle' & Hlt' & _); try lia.
    split; [by apply Hle'|]. intros Hs. by apply Hlt', Hlt.
  - exfalso. destruct (proj1 Hnone H) as (_ & (r & Hr & [c Hc]) & Hall).
    assert (exists r, r ∈ df /\ city r = Some c) as Hpres by (by exists r).
    specialize (Hall c Hpres). simpl in Hall.
    pose proof (of_city_bounds _ c Hpres).
    destruct (count_order (length (of_city df c)) 1) as (_ & _ & Hn); try lia.
    congruence.
Qed.

(** X14.  The best value city of the guest metrics is a city of the frame
    whose value (mean rating over mean price, 0 without a positive mean
    price) no city exceeds, the first such city in the order of the strings,
    a NaN value ranking lowest; it is the missing label exactly when the
    value of every city is NaN. *)
Theorem best_value_city_ranks_first (df : frame) (m : Guest.t) :
  df <> [] ->
  calculate_guest_metrics Series_mean df = Ok m ->
  (forall c, Guest.best_value_city m = Some c ->
     (exists r, r ∈ df /\ city r = Some c)
     /\ forall c', (exists r, r ∈ df /\ city r = Some c') ->
          SFleb (rank (num_float (city_value Series_mean (of_city df c'))))
                (rank (num_float (city_value Series_mean (of_city df c)))) = true
          /\ (str_ltb c' c = true ->
              SFltb (rank (num_float (city_value Series_mean (of_city df c'))))
                    (rank (num_float (city_value Series_mean (of_city df c)))) = true))
  /\ (Guest.best_value_city m = None
      <-> forall c, (exists r, r ∈ df /\ city r = Some c) ->
            is_nan (num_float (city_value Series_mean (of_city df c))) = true).
Proof.
  intros Hne H. apply guest_metrics_ok in H as [_ H]; [|exact Hne].
  exact (idxmax_groupby_ok city (fun g => num_float (city_value Series_mean g)) df _ H).
Qed.

(** X15.  The best city of the host metrics is a city of the frame whose
    revenue total no city exceeds, the first such city in the order of the
    strings, a NaN total ranking lowest; it is the missing label exactly when
    the total of every city is NaN. *)
Theorem best_city_has_greatest_revenue (df : frame) (m : Host.t) :
  df <> [] ->
  calculate_host_metrics Series_mean Series_sum df = Ok m ->
  (forall c, Host.best_city m = Some c ->
     (exists r, r ∈ df /\ city r = Some c)
     /\ forall c', (exists r, r ∈ df /\ city r = Some c') ->
          SFleb (rank (Series_sum (List.map revenue_estimate (of_city df c'))))
                (rank (Series_sum (List.map revenue_estimate (of_city df c)))) = true
          /\ (str_ltb c' c = true ->
              SFltb (rank (Series_sum (List.map revenue_estimate (of_city df c'))))
                    (rank (Series_sum (List.map revenue_estimate (of_city df c)))) = true))
  /\ (Host.best_city m = None
      <-> forall c, (exists r, r ∈ df /\ city r = Some c) ->
            is_nan (Series_sum (List.map revenue_estimate (of_city df c))) = true).
Proof.
  intros Hne H. apply host_metrics_ok in H; [|exact Hne].
  exact (idxmax_groupby_ok city (fun g => Series_sum (List.map revenue_estimate g)) df _ H).
Qed.

End MetricsFacts.

Section MetricsInstances.

#[local] Existing Instance Reference.installed.

Lemma most_popular_city_has_most_listings_witness :
  exists m,
    calculate_guest_metrics Reference.mean Reference.scenario_frame = Ok m
    /\ Guest.most_popular_city m = Some (py "Sydney")
    /\ exists c,
         Guest.most_popular_city m = Some c
         /\ (exists r, r ∈ Reference.scenario_frame /\ city r = Some c)
         /\ forall c', (exists r, r ∈ Reference.scenario_frame /\ city r = Some c') ->
              (length (List.filter (fun r => text_eqb (city r) (Some c'))
                                   Reference.scenario_frame)
               <= length (List.filter (fun r => text_eqb (city r) (Some c))
                                      Reference.scenario_frame))%nat
              /\ (str_ltb c' c = true ->
                  (length (List.filter (fun r => text_eqb (city r) (Some c'))
                                       Reference.scenario_frame)
                   < length (List.filter (fun r => text_eqb (city r) (Some c))
                                         Reference.scenario_frame))%nat).
Proof.
  eexists.
  assert (calculate_guest_metrics Reference.mean Reference.scenario_frame = Ok _) as H
    by (vm_compute; reflexivity).
  split; [exact H|]. split; [reflexivity|].
  assert (Reference.scenario_frame <> []) as Hne by (by vm_compute).
  assert (Z.of_nat (length Reference.scenario_frame) < 2 ^ 53) as Hlen by (by vm_compute).
  exact (most_popular_city_has_most_listings Reference.mean _ _ Hne Hlen H).
Defined.

Lemma best_value_city_ranks_first_witness :
  exists m,
    calculate_guest_metrics Reference.mean Reference.scenario_frame = Ok m
    /\ Guest.best_value_city m = Some (py "Sydney")
    /\ (forall c, Guest.best_value_city m = Some c ->
          (exists r, r ∈ Reference.scenario_frame /\ city r = Some c)
          /\ forall c', (exists r, r ∈ Reference.scenario_frame /\ city r = Some c') ->
               SFleb (fillna_float
                        (num_float (city_value Reference.mean
                           (List.filter (fun r => text_eqb (city r) (Some c'))
                                        Reference.scenario_frame))) neg_inf)
                     (fillna_float
                        (num_float (city_value Reference.mean
                           (List.filter (fun r => text_eqb (city r) (Some c))
                                        Reference.scenario_frame))) neg_inf) = true
               /\ (str_ltb c' c = true ->
                   SFltb (fillna_float
                            (num_float (city_value Reference.mean
                               (List.filter (fun r => text_eqb (city r) (Some c'))
                                            Reference.scenario_frame))) neg_inf)
                         (fillna_float
                            (num_float (city_value Reference.mean
                               (List.filter (fun r => text_eqb (city r) (Some c))
                                            Reference.scenario_frame))) neg_inf) = true))
    /\ (Guest.best_value_city m = None
        <-> forall c, (exists r, r ∈ Reference.scenario_frame /\ city r = Some c) ->
              is_nan (num_float (city_value Reference.mean
                        (List.filter (fun r => text_eqb (city r) (Some c))
                                     Reference.scenario_frame))) = true).
Proof.
  eexists.
  assert (calculate_guest_metrics Reference.mean Reference.scenario_frame = Ok _) as H
    by (vm_compute; reflexivity).
  split; [exact H|]. split; [reflexivity|].
  assert (Reference.scenario_frame <> []) as Hne by (by vm_compute).
  exact (best_value_city_ranks_first Reference.mean _ _ Hne H).
Defined.

Lemma best_city_has_greatest_revenue_witness :
  exists m,
    calculate_host_metrics Reference.mean Reference.sum Reference.scenario_frame = Ok m
    /\ Host.best_city m = Some (py "Tokyo")
    /\ (forall c, Host.best_city m = Some c ->
          (exists r, r ∈ Reference.scenario_frame /\ city r = Some c)
          /\ forall c', (exists r, r ∈ Reference.scenario_frame /\ city r = Some c') ->
               SFleb (fillna_float
                        (Reference.sum (List.map revenue_estimate
                           (List.filter (fun r => text_eqb (city r) (Some c'))
                                        Reference.scenario_frame))) neg_inf)
                     (fillna_float
                        (Reference.sum (List.map revenue_estimate
                           (List.filter (fun r => text_eqb (city r) (Some c))
                                        Reference.scenario_frame))) neg_inf) = true
               /\ (str_ltb c' c = true ->
                   SFltb (fillna_float
                            (Reference.sum (List.map revenue_estimate
                               (List.filter (fun r => text_eqb (city r) (Some c'))
                                            Reference.scenario_frame))) neg_inf)
                         (fillna_float
                            (Reference.sum (List.map revenue_estimate
                               (List.filter (fun r => text_eqb (city r) (Some c))
                                            Reference.scenario_frame))) neg_inf) = true))
    /\ (Host.best_city m = None
        <-> forall c, (exists r, r ∈ Reference.scenario_frame /\ city r = Some c) ->
              is_nan (Reference.sum (List.map revenue_estimate
                        (List.filter (fun r => text_eqb (city r) (Some c))
                                     Reference.scenario_frame))) = true).
Proof.
  eexists.
  assert (calculate_host_metrics Reference.mean Reference.sum Reference.scenario_frame = Ok _)
    as H by (vm_compute; reflexivity).
  split; [exact H|]. split; [reflexivity|].
  assert (Reference.scenario_frame <> []) as Hne by (by vm_compute).
  exact (best_city_has_greatest_revenue Reference.mean Reference.sum _ _ Hne H).
Defined.

End MetricsInstances.

(** ** The grouped tables *)

Section TableFacts.

Variable GroupBy_mean : list pyfloat -> pyfloat.
Variable GroupBy_sum : list pyfloat -> pyfloat.

Lemma filter_map_length {A B : Type} (p : B -> bool) (g : A -> B) (l : list A) :
  length (List.filter p (List.map g l)) = length (List.filter (fun x => p (g x)) l).
Proof. induction l as [|x l IH]; simpl; [done|]. destruct (p (g x)); simpl; by rewrite IH. Qed.

Lemma sum_of_nat (l : list nat) :
  foldr Z.add 0 (List.map Z.of_nat l) = Z.of_nat (list_sum l).
Proof. induction l as [|x l IH]; simpl; [done|]. rewrite IH. lia. Qed.

(** The counts of the groups add up to the number of rows that have both a
    key and an identifier. *)
Lemma group_counts_sum (key : row -> text) (df : frame) :
  foldr Z.add 0 (List.map (fun g => count_present (List.map id (snd g))) (groupby key df))
  = Z.of_nat (length (List.filter
                        (fun r => negb (isna (id r)) && bool_decide (is_Some (key r))) df)).
Proof.
  unfold groupby. rewrite List.map_map. simpl. unfold count_present.
  erewrite List.map_ext; [|intros k; by rewrite filter_map_length].
  rewrite <- (List.map_map _ Z.of_nat), sum_of_nat. f_equal.
  rewrite (group_sizes_sum key (fun r => negb (isna (id r)))).
  - f_equal. apply List.filter_ext_in. intros r Hr. f_equal.
    apply in_group_keys. by apply list_elem_of_In.
  - rewrite sort_strs_perm. unfold unique_str. apply (NoDup_unique_aux _ pystr_eqb_eq).
Qed.

(** X16.  The table of [get_city_stats] has one row for each city of the
    frame, in the strict order of the strings, rows without a city being
    left out; the listing count of a row counts the identifiers present in
    its city, and the counts add up to the rows that have a city and an
    identifier. *)
Theorem get_city_stats_rows (df : frame) :
  Spec.strictly_ascending
    (List.map CityStats.city (get_city_stats GroupBy_mean GroupBy_sum df))
  /\ (forall c, c ∈ List.map CityStats.city (get_city_stats GroupBy_mean GroupBy_sum df)
                <-> exists r, r ∈ df /\ city r = Some c)
  /\ (forall t, t ∈ get_city_stats GroupBy_mean GroupBy_sum df ->
        CityStats.listing_count t
        = Z.of_nat (length (List.filter
                              (fun r => text_eqb (city r) (Some (CityStats.city t))
                                        && negb (isna (id r))) df)))
  /\ foldr Z.add 0 (List.map CityStats.listing_count
                             (get_city_stats GroupBy_mean GroupBy_sum df))
     = Z.of_nat (length (List.filter
                           (fun r => negb (isna (id r)) && bool_decide (is_Some (city r)))
                           df)).
Proof.
  assert (List.map CityStats.city (get_city_stats GroupBy_mean GroupBy_sum df)
          = List.map fst (groupby city df)) as Hkeys.
  { unfold get_city_stats. rewrite List.map_map. by apply List.map_ext. }
  split; [|split; [|split]].
  - rewrite Hkeys. apply groupby_strict.
  - intros c. rewrite Hkeys, groupby_keys. apply group_keys_spec.
  - intros t Ht. unfold get_city_stats in Ht.
    apply list_elem_of_In, in_map_iff in Ht as ([k g] & <- & Hg). simpl.
    apply list_elem_of_In, groupby_spec in Hg as [_ ->].
    unfold count_present. by rewrite filter_map_length, filter_filter.
  - unfold get_city_stats. rewrite List.map_map. simpl. apply group_counts_sum.
Qed.

(** X17.  The table of [get_area_stats] has one row for each area of the
    frame, in the strict order of the strings, rows without an area being
    left out; the listing count of a row counts the identifiers present in
    its area, and the counts add up to the rows that have an area and an
    identifier. *)
Theorem get_area_stats_rows (df : frame) :
  Spec.strictly_ascending
    (List.map AreaStats.area (get_area_stats GroupBy_mean GroupBy_sum df))
  /\ (forall a, a ∈ List.map AreaStats.area (get_area_stats GroupBy_mean GroupBy_sum df)
                <-> exists r, r ∈ df /\ area r = Some a)
  /\ (forall t, t ∈ get_area_stats GroupBy_mean GroupBy_sum df ->
        AreaStats.listing_count t
        = Z.of_nat (length (List.filter
                              (fun r => text_eqb (area r) (Some (AreaStats.area t))
                                        && negb (isna (id r))) df)))
  /\ foldr Z.add 0 (List.map AreaStats.listing_count
                             (get_area_stats GroupBy_mean GroupBy_sum df))
     = Z.of_nat (length (List.filter
                           (fun r => negb (isna (id r)) && bool_decide (is_Some (area r)))
                           df)).
Proof.
  assert (List.map AreaStats.area (get_area_stats GroupBy_mean GroupBy_sum df)
          = List.map fst (groupby area df)) as Hkeys.
  { unfold get_area_stats. rewrite List.map_map. by apply List.map_ext. }
  split; [|split; [|split]].
  - rewrite Hkeys. apply groupby_strict.
  - intros c. rewrite Hkeys, groupby_keys. apply group_keys_spec.
  - intros t Ht. unfold get_area_stats in Ht.
    apply list_elem_of_In, in_map_iff in Ht as ([k g] & <- & Hg). simpl.
    apply list_elem_of_In, groupby_spec in Hg as [_ ->].
    unfold count_present. by rewrite filter_map_length, filter_filter.
  - unfold get_area_stats. rewrite List.map_map. simpl. apply group_counts_sum.
Qed.

End TableFacts.

(** ** The start of [main] *)

Section MainFacts.

Variable read_csv : pystr -> res (list raw_row).
Variable parse_numeric : pystr -> pyfloat.
Variable Series_mean : list pyfloat -> pyfloat.
Variable message : exn -> pystr.

Local Abbreviation load := (load_and_clean_data read_csv parse_numeric Series_mean).
Local Abbreviation main := (Dashboard.main read_csv parse_numeric Series_mean message).

(** X18.  [main] goes on to the charts exactly when a load gave a frame
    that has rows: the load of the first path, or, when that one raised
    [FileNotFoundError] and nothing else, the load of the fallback path; the
    frame and the statistics shown are those of that load. *)
Theorem main_reaches_charts (df : frame) (stats : Stats.t) :
  main = Dashboard.Charts df stats
  <-> df <> []
      /\ (load (py "/app/data/Airbnb_site_hotel_new.csv") = Ok (df, stats)
          \/ (load (py "/app/data/Airbnb_site_hotel_new.csv") = Raise FileNotFoundError
              /\ load (py "data/Airbnb_site_hotel_new.csv") = Ok (df, stats))).
Proof.
  unfold Dashboard.main, Dashboard.load_data, Dashboard.load.
  destruct (load (py "/app/data/Airbnb_site_hotel_new.csv")) as [[d s]|e].
  - destruct d as [|r rows]; simpl.
    + split; [intros [=]|]. intros [Hne [[= <- <-]|[[=] _]]]. done.
    + split.
      * intros [= <- <-]. split; [done | by left].
      * by intros [_ [[= <- <-]|[[=] _]]].
  - destruct (Dashboard.is_FileNotFoundError e) eqn:E.
    + destruct e; try discriminate E.
      destruct (load (py "data/Airbnb_site_hotel_new.csv")) as [[d s]|e2].
      * destruct d as [|r rows]; simpl.
        { split; [intros [=]|]. intros [Hne [[=]|[_ [= <- <-]]]]. done. }
        { split.
          - intros [= <- <-]. split; [done | by right].
          - by intros [_ [[=]|[_ [= <- <-]]]]. }
      * simpl. split.
        { destruct (message e2); intros [=]. }
        { intros [_ [[=]|[_ [=]]]]. }
    + simpl. split.
      * destruct (message e); intros [=].
      * intros [_ [[=]|[[= ->] _]]]. discriminate E.
Qed.

End MainFacts.

(** ** Instances *)

Lemma load_keeps_row_count_witness :
  exists df stats,
    Reference.load_scenario = Ok (df, stats)
    /\ length df = 3%nat
    /\ exists raw,
         Reference.read_scenario (py "data/Airbnb_site_hotel_new.csv") = Ok raw
         /\ length df = length raw
         /\ Stats.total_listings stats = Z.of_nat (length raw)
         /\ Stats.original_count stats = Stats.total_listings stats.
Proof.
  eexists _, _.
  assert (Reference.load_scenario = Ok (_, _)) as H by (vm_compute; reflexivity).
  split; [exact H|]. split; [reflexivity|].
  exact (load_keeps_row_count _ _ _ _ _ _ H).
Defined.

Lemma unique_values_of_loaded_frame_witness :
  exists df stats,
    Reference.load_scenario = Ok (df, stats)
    /\ Stats.unique_cities stats
       = [Some (py "Sydney"); Some (py "Tokyo"); Some (py "Unknown City")]
    /\ (exists ks,
          Spec.strictly_ascending ks
          /\ (forall k, k ∈ ks <-> exists r, r ∈ df /\ city r = Some k)
          /\ Stats.cities stats = Z.of_nat (length ks)
          /\ (Stats.unique_cities stats = List.map Some ks
              \/ (ks = [] /\ df <> [] /\ Stats.unique_cities stats = [None])))
    /\ (exists ks,
          Spec.strictly_ascending ks
          /\ (forall k, k ∈ ks <-> exists r, r ∈ df /\ area r = Some k)
          /\ Stats.areas stats = Z.of_nat (length ks)
          /\ (Stats.unique_areas stats = List.map Some ks
              \/ (ks = [] /\ df <> [] /\ Stats.unique_areas stats = [None]))).
Proof.
  eexists _, _.
  assert (Reference.load_scenario = Ok (_, _)) as H by (vm_compute; reflexivity).
  split; [exact H|]. split; [reflexivity|].
  exact (unique_values_of_loaded_frame _ _ _ _ _ _ H).
Defined.

Lemma price_range_bounds_prices_witness :
  exists df stats,
    Reference.load_scenario = Ok (df, stats)
    /\ Stats.price_range stats = (Z2SF 60, Z2SF 1250)
    /\ (is_nan (fst (Stats.price_range stats)) = true
        <-> forall r, r ∈ df -> is_nan (price_clean r) = true)
    /\ (is_nan (snd (Stats.price_range stats)) = true
        <-> forall r, r ∈ df -> is_nan (price_clean r) = true)
    /\ (forall r, r ∈ df -> is_nan (price_clean r) = false ->
          SFleb (fst (Stats.price_range stats)) (price_clean r) = true
          /\ SFleb (price_clean r) (snd (Stats.price_range stats)) = true
          /\ (exists r1, r1 ∈ df /\ price_clean r1 = fst (Stats.price_range stats))
          /\ (exists r2, r2 ∈ df /\ price_clean r2 = snd (Stats.price_range stats))).
Proof.
  eexists _, _.
  assert (Reference.load_scenario = Ok (_, _)) as H by (vm_compute; reflexivity).
  split; [exact H|]. split; [by vm_compute|].
  exact (price_range_bounds_prices _ _ _ _ _ _ H).
Defined.

Lemma price_slider_needs_a_price_witness :
  exists df stats,
    Reference.load_scenario = Ok (df, stats)
    /\ Dashboard.price_slider stats = Ok (0, 1250, (0, 500))
    /\ (Dashboard.price_slider stats = Raise ValueError
        <-> forall r, r ∈ df -> is_nan (price_clean r) = true)
    /\ (forall lo hi a b,
          Dashboard.price_slider stats = Ok (lo, hi, (a, b)) ->
          lo = 0 /\ a = 0 /\ b <= 500 /\ b <= hi).
Proof.
  eexists _, _.
  assert (Reference.load_scenario = Ok (_, _)) as H by (vm_compute; reflexivity).
  split; [exact H|]. split; [by vm_compute|].
  exact (price_slider_needs_a_price _ _ _ _ _ _ H).
Defined.

Lemma rating_and_date_ranges_bound_values_witness :
  exists df stats,
    Reference.load_scenario = Ok (df, stats)
    /\ Stats.date_range stats = (None, None)
    /\ ((is_nan (fst (Stats.rating_range stats)) = true
         <-> forall r, r ∈ df -> is_nan (consumer_clean r) = true)
        /\ (is_nan (snd (Stats.rating_range stats)) = true
            <-> forall r, r ∈ df -> is_nan (consumer_clean r) = true)
        /\ (forall r, r ∈ df -> is_nan (consumer_clean r) = false ->
              SFleb (fst (Stats.rating_range stats)) (consumer_clean r) = true
              /\ SFleb (consumer_clean r) (snd (Stats.rating_range stats)) = true
              /\ (exists r1, r1 ∈ df /\ consumer_clean r1 = fst (Stats.rating_range stats))
              /\ (exists r2, r2 ∈ df /\ consumer_clean r2 = snd (Stats.rating_range stats))))
    /\ ((Stats.date_range stats = (None, None)
         /\ forall r, r ∈ df -> host_since_clean r = None)
        \/ (exists lo hi,
              Stats.date_range stats = (Some lo, Some hi)
              /\ (exists r1, r1 ∈ df /\ host_since_clean r1 = Some lo)
              /\ (exists r2, r2 ∈ df /\ host_since_clean r2 = Some hi)
              /\ forall r d, r ∈ df -> host_since_clean r = Some d -> lo <= d <= hi)).
Proof.
  eexists _, _.
  assert (Reference.load_scenario = Ok (_, _)) as H by (vm_compute; reflexivity).
  split; [exact H|]. split; [reflexivity|].
  exact (rating_and_date_ranges_bound_values _ _ _ _ _ _ H).
Defined.

Lemma coordinates_iff_corrected_area_witness :
  exists df stats,
    Reference.load_scenario = Ok (df, stats)
    /\ List.map (fun r => is_nan (city_lat r)) df = [false; true; false]
    /\ forall r, r ∈ df ->
         is_nan (city_lat r) = is_nan (city_lon r)
         /\ (is_nan (city_lat r) = false
             <-> exists c a, city r = Some c /\ CORRECT_CITY_AREA !! c = Some a
                             /\ area r = Some a).
Proof.
  eexists _, _.
  assert (Reference.load_scenario = Ok (_, _)) as H by (vm_compute; reflexivity).
  split; [exact H|]. split; [reflexivity|].
  exact (coordinates_iff_corrected_area _ _ _ _ _ _ H).
Defined.

Lemma load_rejects_partly_missing_text_witness :
  load_and_clean_data Reference.read_partly_missing Reference.parse_numeric Reference.mean
                      (py "data/Airbnb_site_hotel_new.csv") = Raise TypeError
  /\ exists e,
       load_and_clean_data Reference.read_partly_missing Reference.parse_numeric
                           Reference.mean (py "data/Airbnb_site_hotel_new.csv") = Raise e
       /\ (forall derived,
             mapM (derive_row Reference.parse_numeric Reference.partly_missing)
                  Reference.partly_missing = Ok derived ->
             e = TypeError).
Proof.
  split; [by vm_compute|].
  apply (load_rejects_partly_missing_text Reference.read_partly_missing
           Reference.parse_numeric Reference.mean _ Reference.partly_missing eq_refl).
  left. unfold Reference.partly_missing. split.
  - eexists. split; [apply list_elem_of_further, list_elem_of_here | reflexivity].
  - eexists. split; [apply list_elem_of_here | by eexists].
Defined.
